(** * An Entity-Component-System kernel: model and verified properties

    The development follows the C++ headers of the kernel:
    [Types.hpp], [EntityManager.hpp], [ComponentStorage.hpp],
    [ComponentManager.hpp], [System.hpp], [SystemManager.hpp] and
    [Coordinator.hpp].  Every method is a computation in a state monad with
    exceptions; the state is the object the method belongs to. *)

From stdpp Require Import base option list gmap strings sorting.
From Stdlib Require Import NArith Lia.

Local Open Scope N_scope.

(** ** Types.hpp *)

(** [using Entity = std::uint32_t]. *)
Abbreviation Entity := N (only parsing).

(** [using ComponentTypeID = std::uint8_t]. *)
Abbreviation ComponentTypeID := N (only parsing).

(** [const ComponentTypeID MAX_COMPONENTS = 64]. *)
Definition MAX_COMPONENTS : N := 64.

(** [using Signature = std::bitset<MAX_COMPONENTS>]: bit [i] of the number is
    bit [i] of the bitset. *)
Abbreviation Signature := N (only parsing).

(** [std::type_index]: the key obtained from [typeid(T)]. *)
Abbreviation type_index := string (only parsing).

(** Unsigned wrap-around of the two counters of the kernel. *)
Definition UINT32_MOD : N := 4294967296.
Definition UINT8_MOD : N := 256.

Definition incr32 (n : N) : N := (n + 1) mod UINT32_MOD.
Definition decr32 (n : N) : N := (n + UINT32_MOD - 1) mod UINT32_MOD.
Definition incr8 (n : N) : N := (n + 1) mod UINT8_MOD.

(** ** Exceptions, undefined behaviour and the method monad *)

Inductive exception : Type :=
  | too_many_entities   (* std::runtime_error("Too many entities in existence. ...") *)
  | no_entities_to_destroy (* std::runtime_error("No entities to destroy.") *)
  | out_of_range.       (* std::out_of_range of [at], [bitset::set], [bitset::test] *)

(** A call returns a value, throws (the object keeps the mutations done before
    the [throw]), or has undefined behaviour (out-of-bounds array access,
    [front] of an empty queue, dereferencing a null pointer). *)
Inductive outcome (St A : Type) : Type :=
  | Ret (a : A) (st : St)
  | Throw (x : exception) (st : St)
  | Undefined.
Arguments Ret {St A} a st.
Arguments Throw {St A} x st.
Arguments Undefined {St A}.

Definition M (St A : Type) : Type := St → outcome St A.

Definition ret {St A} (a : A) : M St A := λ st, Ret a st.
Definition bind {St A B} (m : M St A) (k : A → M St B) : M St B :=
  λ st, match m st with
        | Ret a st' => k a st'
        | Throw x st' => Throw x st'
        | Undefined => Undefined
        end.
Definition get {St} : M St St := λ st, Ret st st.
Definition put {St} (st : St) : M St unit := λ _, Ret tt st.
Definition throw {St A} (x : exception) : M St A := λ st, Throw x st.
Definition undefined {St A} : M St A := λ _, Undefined.

(** Run a method of a member object [proj st] inside a method of [st]. *)
Definition zoom {St Sub A} (proj : St → Sub) (upd : Sub → St → St)
    (m : M Sub A) : M St A :=
  λ st, match m (proj st) with
        | Ret a sub => Ret a (upd sub st)
        | Throw x sub => Throw x (upd sub st)
        | Undefined => Undefined
        end.

(** The short-circuit operators [&&] and [||] on method calls: the right
    operand runs only when the left one does not decide the result. *)
Definition and_then {St} (m1 m2 : M St bool) : M St bool :=
  bind m1 (λ b, if b then m2 else ret false).
Definition or_else {St} (m1 m2 : M St bool) : M St bool :=
  bind m1 (λ b, if b then ret true else m2).

Declare Scope method_scope.
Delimit Scope method_scope with method.
Notation "'let*' x := m 'in' k" := (bind m (λ x, k))
  (at level 10, x pattern, m at level 100, k at level 200) : method_scope.
Notation "m1 ;; m2" := (bind m1 (λ _, m2))
  (at level 100, m2 at level 200, right associativity) : method_scope.
Local Open Scope method_scope.

(** Unfold the monad of a goal that runs methods on explicit objects. *)
Ltac method_unfold :=
  unfold bind, ret, get, put, throw, undefined, zoom in *; simpl in *.

(** ** std::bitset<64> *)

Definition bitset_none (s : Signature) : bool := s =? 0.
Definition bitset_any (s : Signature) : bool := negb (s =? 0).
Definition bitset_reset (_ : Signature) : Signature := 0.
Definition bitset_and (a b : Signature) : Signature := N.land a b.

(** [set(pos, val)] and [test(pos)] throw [std::out_of_range] when [pos] is
    not a valid bit position. *)
Definition bitset_set {St} (s : Signature) (pos : N) (val : bool) : M St Signature :=
  if pos <? MAX_COMPONENTS
  then ret (if val then N.setbit s pos else N.clearbit s pos)
  else throw out_of_range.

Definition bitset_test {St} (s : Signature) (pos : N) : M St bool :=
  if pos <? MAX_COMPONENTS then ret (N.testbit s pos) else throw out_of_range.

(** ** std::unordered_map *)

(** [m.insert({k, v})] and [m.emplace(k, v)]: nothing happens when the key is
    already present. *)
Definition umap_insert `{Countable K} {V} (k : K) (v : V) (m : gmap K V) : gmap K V :=
  match m !! k with
  | Some _ => m
  | None => <[k := v]> m
  end.

(** [m[k]]: a missing key is first inserted with the value-initialised
    [dflt]. *)
Definition umap_index `{Countable K} {V} (dflt : V) (k : K) (m : gmap K V) : V * gmap K V :=
  match m !! k with
  | Some v => (v, m)
  | None => (dflt, <[k := dflt]> m)
  end.

(** ** EntityManager.hpp *)

Module EntityManager.

Record t : Type := mk {
  availableEntities : list Entity;   (* std::queue<Entity>, front first *)
  signatures : list Signature;       (* std::array<Signature, MAX_ENTITIES> *)
  livingEntityCount : N              (* std::uint32_t *)
}.

Section Capacity.
(** [const Entity MAX_ENTITIES] (5000 in [Types.hpp]). *)
Variable MAX_ENTITIES : N.

(** The constructor loop
    [for (Entity entity = 0; entity < MAX_ENTITIES; ++entity) push(entity)];
    [n] is the number of iterations left. *)
Fixpoint push_loop (n : nat) (entity : Entity) (q : list Entity) : list Entity :=
  match n with
  | O => q
  | S n' => push_loop n' (entity + 1) (q ++ [entity])
  end.

Definition new : t :=
  {| availableEntities := push_loop (N.to_nat MAX_ENTITIES) 0 [];
     signatures := replicate (N.to_nat MAX_ENTITIES) 0;
     livingEntityCount := 0 |}.

Definition createEntity : M t Entity :=
  let* em := get in
  if MAX_ENTITIES <=? livingEntityCount em then throw too_many_entities
  else
    match availableEntities em with
    | [] => undefined
    | id :: rest =>
        put {| availableEntities := rest;
               signatures := signatures em;
               livingEntityCount := incr32 (livingEntityCount em) |};;
        ret id
    end.

Definition destroyEntity (entity : Entity) : M t unit :=
  let* em := get in
  match signatures em !! N.to_nat entity with
  | None => undefined
  | Some s =>
      if bitset_none s then ret tt
      else if livingEntityCount em <=? 0 then throw no_entities_to_destroy
      else
        put {| availableEntities := availableEntities em ++ [entity];
               signatures := <[N.to_nat entity := bitset_reset s]> (signatures em);
               livingEntityCount := decr32 (livingEntityCount em) |}
  end.

Definition entityExists (entity : Entity) : M t bool :=
  let* em := get in
  if entity <? MAX_ENTITIES then
    match signatures em !! N.to_nat entity with
    | None => undefined
    | Some s => ret (bitset_any s)
    end
  else ret false.

Definition setSignature (entity : Entity) (signature : Signature) : M t unit :=
  let* em := get in
  match signatures em !! N.to_nat entity with
  | None => undefined
  | Some _ =>
      put {| availableEntities := availableEntities em;
             signatures := <[N.to_nat entity := signature]> (signatures em);
             livingEntityCount := livingEntityCount em |}
  end.

Definition getSignature (entity : Entity) : M t Signature :=
  let* em := get in
  match signatures em !! N.to_nat entity with
  | None => undefined
  | Some s => ret s
  end.

(** The loop of [getEntities],
    [for (Entity entity = 0; entity < MAX_ENTITIES; ++entity)], with [n]
    iterations left and [entities] the vector filled so far. *)
Fixpoint getEntities_loop (n : nat) (entity : Entity) (entities : list Entity)
    : M t (list Entity) :=
  match n with
  | O => ret entities
  | S n' =>
      let* found := entityExists entity in
      getEntities_loop n' (entity + 1)
        (if found then entities ++ [entity] else entities)
  end.

Definition getEntities : M t (list Entity) :=
  getEntities_loop (N.to_nat MAX_ENTITIES) 0 [].
End Capacity.

End EntityManager.

(** ** ComponentStorage.hpp *)

Module ComponentStorage.
Section Component.
(** The component type [T] of [ComponentStorage<T>]. *)
Context {T : Type}.

(** The object is its only field, [std::unordered_map<Entity, T> componentMap]. *)

Definition new : gmap Entity T := ∅.

Definition insertData (entity : Entity) (component : T) : M (gmap Entity T) unit :=
  let* componentMap := get in
  put (umap_insert entity component componentMap).

Definition removeData (entity : Entity) : M (gmap Entity T) unit :=
  let* componentMap := get in
  put (delete entity componentMap).

(** [componentMap.at(entity)] throws [std::out_of_range] on a missing key. *)
Definition getData (entity : Entity) : M (gmap Entity T) T :=
  let* componentMap := get in
  match componentMap !! entity with
  | Some component => ret component
  | None => throw out_of_range
  end.

Definition hasData (entity : Entity) : M (gmap Entity T) bool :=
  let* componentMap := get in
  ret (bool_decide (is_Some (componentMap !! entity))).

Definition entityDestroyed (entity : Entity) : M (gmap Entity T) unit :=
  let* componentMap := get in
  put (delete entity componentMap).
End Component.
End ComponentStorage.

(** ** ComponentManager.hpp *)

Module ComponentManager.
Section Component.
(** Component values.  The stores of all component types are kept in one map,
    so their values live in one type; the store reached under the key of [T]
    holds the values of [T]. *)
Context {Component : Type}.

Record t : Type := mk {
  componentTypes : gmap type_index ComponentTypeID;
  ComponentStorages : gmap type_index (gmap Entity Component);
  nextComponentType : ComponentTypeID
}.

Definition new : t :=
  {| componentTypes := ∅; ComponentStorages := ∅; nextComponentType := 0 |}.

(** The [printf] of the source writes to the standard output only. *)
Definition registerComponent (typeName : type_index) : M t unit :=
  let* cm := get in
  put {| componentTypes :=
           umap_insert typeName (nextComponentType cm) (componentTypes cm);
         ComponentStorages :=
           umap_insert typeName ComponentStorage.new (ComponentStorages cm);
         nextComponentType := incr8 (nextComponentType cm) |}.

Definition getComponentTypeID (typeName : type_index) : M t ComponentTypeID :=
  let* cm := get in
  let '(id, types) := umap_index 0 typeName (componentTypes cm) in
  put {| componentTypes := types;
         ComponentStorages := ComponentStorages cm;
         nextComponentType := nextComponentType cm |};;
  ret id.

(** [GetComponentStorage<T>()->method(...)].  The pointer comes from
    [ComponentStorages[typeName]]: for a type that was never registered the
    indexing yields a null [shared_ptr], and calling a method through it is
    undefined. *)
Definition GetComponentStorage {A} (typeName : type_index)
    (method : M (gmap Entity Component) A) : M t A :=
  let* cm := get in
  match ComponentStorages cm !! typeName with
  | None => undefined
  | Some storage =>
      zoom (λ _, storage)
           (λ storage' cm,
              {| componentTypes := componentTypes cm;
                 ComponentStorages := <[typeName := storage']> (ComponentStorages cm);
                 nextComponentType := nextComponentType cm |})
           method
  end.

Definition addComponent (typeName : type_index) (entity : Entity)
    (component : Component) : M t unit :=
  GetComponentStorage typeName (ComponentStorage.insertData entity component).

Definition removeComponent (typeName : type_index) (entity : Entity) : M t unit :=
  GetComponentStorage typeName (ComponentStorage.removeData entity).

Definition getComponent (typeName : type_index) (entity : Entity) : M t Component :=
  GetComponentStorage typeName (ComponentStorage.getData entity).

(** The storage behind each pointer after its [entityDestroyed(entity)]. *)
Definition storage_destroyed (entity : Entity)
    (storage : gmap Entity Component) : gmap Entity Component :=
  match ComponentStorage.entityDestroyed entity storage with
  | Ret _ storage' | Throw _ storage' => storage'
  | Undefined => storage
  end.

(** [for (auto const& pair : ComponentStorages) pair.second->entityDestroyed(entity)]:
    every iteration touches the visited storage only. *)
Definition entityDestroyed (entity : Entity) : M t unit :=
  let* cm := get in
  put {| componentTypes := componentTypes cm;
         ComponentStorages := storage_destroyed entity <$> ComponentStorages cm;
         nextComponentType := nextComponentType cm |}.
End Component.
Arguments t : clear implicits.
End ComponentManager.

(** ** System.hpp *)

Module System.
(** [std::set<Entity> entities] is the field the kernel maintains; the pacing
    fields ([_delta], [_threshold], [_isTaskRunning]) are untouched by it. *)
Record t : Type := mk { entities : gset Entity }.

Definition new : t := {| entities := ∅ |}.

(** [system->entities.insert(entity)] and [system->entities.erase(entity)]. *)
Definition entities_insert (entity : Entity) (system : t) : t :=
  {| entities := {[entity]} ∪ entities system |}.
Definition entities_erase (entity : Entity) (system : t) : t :=
  {| entities := entities system ∖ {[entity]} |}.
End System.

(** ** SystemManager.hpp *)

Module SystemManager.

(** The [systems] map holds the system objects themselves: every
    [shared_ptr] of the map points to an object made by its own
    [make_shared], so no two keys share a system. *)
Record t : Type := mk {
  signatures : gmap type_index Signature;
  systems : gmap type_index System.t
}.

Definition new : t := {| signatures := ∅; systems := ∅ |}.

Definition registerSystem (typeName : type_index) : M t System.t :=
  let* sm := get in
  let system := System.new in
  put {| signatures := signatures sm;
         systems := umap_insert typeName system (systems sm) |};;
  ret system.

(** [systems.at(typeName)] throws [std::out_of_range] on a missing key. *)
Definition getSystem (typeName : type_index) : M t System.t :=
  let* sm := get in
  match systems sm !! typeName with
  | Some system => ret system
  | None => throw out_of_range
  end.

Definition setSignature (typeName : type_index) (signature : Signature) : M t unit :=
  let* sm := get in
  put {| signatures := umap_insert typeName signature (signatures sm);
         systems := systems sm |}.

(** [for (auto const &pair : systems) pair.second->entities.erase(entity)]. *)
Definition entityDestroyed (entity : Entity) : M t unit :=
  let* sm := get in
  put {| signatures := signatures sm;
         systems := System.entities_erase entity <$> systems sm |}.

(** One iteration of the loop of [entitySignatureChanged], at the pair
    [(type, system)], on the manager [sm] left by the earlier iterations. *)
Definition signature_changed_body (entity : Entity) (entitySignature : Signature)
    (type : type_index) (system : System.t) (sm : t) : t :=
  let '(systemSignature, signatures') := umap_index 0 type (signatures sm) in
  {| signatures := signatures';
     systems :=
       <[type :=
           if bitset_and entitySignature systemSignature =? systemSignature
           then System.entities_insert entity system
           else System.entities_erase entity system]> (systems sm) |}.

Definition entitySignatureChanged (entity : Entity) (entitySignature : Signature)
    : M t unit :=
  let* sm := get in
  put (map_fold (signature_changed_body entity entitySignature) sm (systems sm)).

End SystemManager.

(** ** Coordinator.hpp *)

Module Coordinator.
Section Kernel.
Variable MAX_ENTITIES : N.
Context {Component : Type}.

(** The three managers behind the [unique_ptr] fields, as [init] allocates
    them.  Every method below holds [m_ecsMutex] from its first statement to
    its last, so the calls of different threads are serialised and a method
    is the sequence of its statements. *)
Record t : Type := mk {
  componentManager : ComponentManager.t Component;
  entityManager : EntityManager.t;
  systemManager : SystemManager.t
}.

Definition onComponentManager {A} : M (ComponentManager.t Component) A → M t A :=
  zoom componentManager
       (λ cm co, {| componentManager := cm;
                    entityManager := entityManager co;
                    systemManager := systemManager co |}).

Definition onEntityManager {A} : M EntityManager.t A → M t A :=
  zoom entityManager
       (λ em co, {| componentManager := componentManager co;
                    entityManager := em;
                    systemManager := systemManager co |}).

Definition onSystemManager {A} : M SystemManager.t A → M t A :=
  zoom systemManager
       (λ sm co, {| componentManager := componentManager co;
                    entityManager := entityManager co;
                    systemManager := sm |}).

Definition init : t :=
  {| componentManager := ComponentManager.new;
     entityManager := EntityManager.new MAX_ENTITIES;
     systemManager := SystemManager.new |}.

Definition createEntity : M t Entity :=
  onEntityManager (EntityManager.createEntity MAX_ENTITIES).

Definition entityExists (entity : Entity) : M t bool :=
  onEntityManager (EntityManager.entityExists MAX_ENTITIES entity).

Definition destroyEntity (entity : Entity) : M t unit :=
  onEntityManager (EntityManager.destroyEntity entity);;
  onComponentManager (ComponentManager.entityDestroyed entity);;
  onSystemManager (SystemManager.entityDestroyed entity).

Definition registerComponent (T : type_index) : M t unit :=
  onComponentManager (ComponentManager.registerComponent T).

Definition registerSystem (T : type_index) : M t System.t :=
  onSystemManager (SystemManager.registerSystem T).

Definition getSystem (T : type_index) : M t System.t :=
  onSystemManager (SystemManager.getSystem T).

Definition addComponent (T : type_index) (entity : Entity) (component : Component)
    : M t unit :=
  onComponentManager (ComponentManager.addComponent T entity component);;
  let* signature := onEntityManager (EntityManager.getSignature entity) in
  let* id := onComponentManager (ComponentManager.getComponentTypeID T) in
  let* signature := bitset_set signature id true in
  onEntityManager (EntityManager.setSignature entity signature);;
  onSystemManager (SystemManager.entitySignatureChanged entity signature).

Definition removeComponent (T : type_index) (entity : Entity) : M t unit :=
  onComponentManager (ComponentManager.removeComponent T entity);;
  let* signature := onEntityManager (EntityManager.getSignature entity) in
  let* id := onComponentManager (ComponentManager.getComponentTypeID T) in
  let* signature := bitset_set signature id false in
  onEntityManager (EntityManager.setSignature entity signature);;
  onSystemManager (SystemManager.entitySignatureChanged entity signature).

(** Both branches of [force] run the same call; they differ in the lock. *)
Definition getComponent (T : type_index) (entity : Entity) : M t Component :=
  onComponentManager (ComponentManager.getComponent T entity).

Definition getComponentTypeID (T : type_index) : M t ComponentTypeID :=
  onComponentManager (ComponentManager.getComponentTypeID T).

Definition hasComponent (T : type_index) (entity : Entity) : M t bool :=
  let* signature := onEntityManager (EntityManager.getSignature entity) in
  let* compTypeID := onComponentManager (ComponentManager.getComponentTypeID T) in
  bitset_test signature compTypeID.

Definition getEntitySignature (entity : Entity) : M t Signature :=
  onEntityManager (EntityManager.getSignature entity).


(** [tryGetComponent] returns a pointer to the stored component or
    [nullptr]; the pointer is modelled by the component it points to. *)
Definition tryGetComponent (T : type_index) (entity : Entity)
    : M t (option Component) :=
  let* found := hasComponent T entity in
  if found then
    let* component := getComponent T entity in
    ret (Some component)
  else ret None.

Definition hasComponentPair (T1 T2 : type_index) (entityA entityB : Entity)
    : M t bool :=
  or_else (and_then (hasComponent T1 entityA) (hasComponent T2 entityB))
          (and_then (hasComponent T2 entityA) (hasComponent T1 entityB)).

Definition getEntities : M t (list Entity) :=
  onEntityManager (EntityManager.getEntities MAX_ENTITIES).

(** The loop of [getAllEntitiesWith] over the vector [entities], with
    [entitiesWithComponents] filled so far. *)
Fixpoint getAllEntitiesWith_loop (T1 T2 : type_index) (entities : list Entity)
    (entitiesWithComponents : list Entity) : M t (list Entity) :=
  match entities with
  | [] => ret entitiesWithComponents
  | entity :: rest =>
      let* both := and_then (hasComponent T1 entity) (hasComponent T2 entity) in
      getAllEntitiesWith_loop T1 T2 rest
        (if both then entitiesWithComponents ++ [entity]
         else entitiesWithComponents)
  end.

Definition getAllEntitiesWith (T1 T2 : type_index) : M t (list Entity) :=
  let* entities := onEntityManager (EntityManager.getEntities MAX_ENTITIES) in
  getAllEntitiesWith_loop T1 T2 entities [].

(** The command queue is not implemented: the count is the constant 0. *)
Definition getEnqueuedCommandsCount : M t N := ret 0.
End Kernel.
Arguments t : clear implicits.
End Coordinator.

(** ** Call sequences

    A client drives a manager by a sequence of calls.  A call that throws
    leaves the manager as it was at the [throw] and the client goes on; after
    undefined behaviour there is nothing to go on with. *)

Definition after {St A} (o : outcome St A) : option St :=
  match o with
  | Ret _ st | Throw _ st => Some st
  | Undefined => None
  end.

Fixpoint run_calls {St Call} (step : Call → St → option St)
    (calls : list Call) (st : St) : option St :=
  match calls with
  | [] => Some st
  | c :: calls' =>
      match step c st with
      | Some st' => run_calls step calls' st'
      | None => None
      end
  end.

Module EntityCalls.

Inductive call : Type :=
  | Create
  | Destroy (entity : Entity)
  | SetSignature (entity : Entity) (signature : Signature).

(** The manager together with the identifiers that are live: handed out by
    [createEntity] and not pushed back on [availableEntities] since. *)
Record world : Type := mk {
  manager : EntityManager.t;
  live : list Entity
}.

(** [destroyEntity(entity)] pushed the identifier back on the queue. *)
Definition recycled (before after : EntityManager.t) (entity : Entity) : bool :=
  bool_decide (EntityManager.availableEntities after
               = EntityManager.availableEntities before ++ [entity]).

Section Capacity.
Variable MAX_ENTITIES : N.

Definition start : world :=
  {| manager := EntityManager.new MAX_ENTITIES; live := [] |}.

Definition step (c : call) (w : world) : option world :=
  match c with
  | Create =>
      match EntityManager.createEntity MAX_ENTITIES (manager w) with
      | Ret id em => Some {| manager := em; live := id :: live w |}
      | Throw _ em => Some {| manager := em; live := live w |}
      | Undefined => None
      end
  | Destroy entity =>
      match EntityManager.destroyEntity entity (manager w) with
      | Ret _ em =>
          Some {| manager := em;
                  live := if recycled (manager w) em entity
                          then filter (λ id, id ≠ entity) (live w)
                          else live w |}
      | Throw _ em => Some {| manager := em; live := live w |}
      | Undefined => None
      end
  | SetSignature entity signature =>
      match EntityManager.setSignature entity signature (manager w) with
      | Ret _ em | Throw _ em => Some {| manager := em; live := live w |}
      | Undefined => None
      end
  end.

(** The caller's side of [setSignature]: signatures are written for live
    entities only (the source leaves that check to the caller). *)
Fixpoint signatures_of_live (calls : list call) (w : world) : Prop :=
  match calls with
  | [] => True
  | c :: calls' =>
      match c with
      | SetSignature entity _ => entity ∈ live w
      | _ => True
      end
      ∧ match step c w with
        | Some w' => signatures_of_live calls' w'
        | None => True
        end
  end.
End Capacity.
End EntityCalls.

Module ComponentCalls.
Section Component.
Context {Component : Type}.

Inductive call : Type :=
  | RegisterComponent (T : type_index)
  | GetComponentTypeID (T : type_index)
  | AddComponent (T : type_index) (entity : Entity) (component : Component)
  | RemoveComponent (T : type_index) (entity : Entity)
  | GetComponent (T : type_index) (entity : Entity)
  | EntityDestroyed (entity : Entity).

Definition step (c : call) (cm : ComponentManager.t Component)
    : option (ComponentManager.t Component) :=
  match c with
  | RegisterComponent T => after (ComponentManager.registerComponent T cm)
  | GetComponentTypeID T => after (ComponentManager.getComponentTypeID T cm)
  | AddComponent T entity component =>
      after (ComponentManager.addComponent T entity component cm)
  | RemoveComponent T entity => after (ComponentManager.removeComponent T entity cm)
  | GetComponent T entity => after (ComponentManager.getComponent T entity cm)
  | EntityDestroyed entity => after (ComponentManager.entityDestroyed entity cm)
  end.
End Component.
Arguments call : clear implicits.
End ComponentCalls.

Module SystemCalls.

Inductive call : Type :=
  | RegisterSystem (T : type_index)
  | GetSystem (T : type_index)
  | SetSignature (T : type_index) (signature : Signature)
  | EntityDestroyed (entity : Entity)
  | EntitySignatureChanged (entity : Entity) (entitySignature : Signature).

Definition step (c : call) (sm : SystemManager.t) : option SystemManager.t :=
  match c with
  | RegisterSystem T => after (SystemManager.registerSystem T sm)
  | GetSystem T => after (SystemManager.getSystem T sm)
  | SetSignature T signature => after (SystemManager.setSignature T signature sm)
  | EntityDestroyed entity => after (SystemManager.entityDestroyed entity sm)
  | EntitySignatureChanged entity entitySignature =>
      after (SystemManager.entitySignatureChanged entity entitySignature sm)
  end.
End SystemCalls.

(** The signature that [signatures[type]] reads for the system type [S]. *)
Definition requiredSignature (sm : SystemManager.t) (S : type_index) : Signature :=
  (umap_index 0 S (SystemManager.signatures sm)).1.

(** The system object of [S] once the loop body ran on it. *)
Definition rematched (sm : SystemManager.t) (entity : Entity)
    (entitySignature : Signature) (S : type_index) (system : System.t) : System.t :=
  if bitset_and entitySignature (requiredSignature sm S) =? requiredSignature sm S
  then System.entities_insert entity system
  else System.entities_erase entity system.

(** ** Vocabulary of the statements *)

(** The value a call returned, if it returned. *)
Definition returned {St A} (o : outcome St A) : option A :=
  match o with
  | Ret a _ => Some a
  | Throw _ _ | Undefined => None
  end.

(** The identifiers [first], [first + 1], ... ([n] of them). *)
Fixpoint N_range (first : N) (n : nat) : list N :=
  match n with
  | O => []
  | S n' => first :: N_range (first + 1) n'
  end.

(** [n] successive calls of [createEntity], collecting the identifiers. *)
Fixpoint createEntities (MAX : N) (n : nat) : M EntityManager.t (list Entity) :=
  match n with
  | O => ret []
  | S n' =>
      let* id := EntityManager.createEntity MAX in
      let* ids := createEntities MAX n' in
      ret (id :: ids)
  end.

(** The manager once [MAX] entities were created and none given a signature. *)
Definition exhausted (MAX : N) : EntityManager.t :=
  {| EntityManager.availableEntities := [];
     EntityManager.signatures := replicate (N.to_nat MAX) 0;
     EntityManager.livingEntityCount := MAX |}.

(** The queue and the live identifiers split the range [0 .. MAX-1], the
    counter counts the live ones, and a queued identifier has an empty
    signature. *)
Definition pool_inv (MAX : N) (w : EntityCalls.world) : Prop :=
  EntityManager.availableEntities (EntityCalls.manager w) ++ EntityCalls.live w
    ≡ₚ N_range 0 (N.to_nat MAX)
  ∧ EntityManager.livingEntityCount (EntityCalls.manager w)
    = N.of_nat (length (EntityCalls.live w))
  ∧ length (EntityManager.signatures (EntityCalls.manager w)) = N.to_nat MAX
  ∧ ∀ e, e ∈ EntityManager.availableEntities (EntityCalls.manager w) →
         EntityManager.signatures (EntityCalls.manager w) !! N.to_nat e = Some 0.

(** The identifier that [getComponentTypeID<T>()] returns. *)
Definition typeID {Component : Type} (cm : ComponentManager.t Component)
    (T : type_index) : ComponentTypeID :=
  (umap_index 0 T (ComponentManager.componentTypes cm)).1.

(** The signature stored for [entity] is not empty ([false] outside the
    array). *)
Definition hasSignature (em : EntityManager.t) (entity : Entity) : bool :=
  match EntityManager.signatures em !! N.to_nat entity with
  | Some s => bitset_any s
  | None => false
  end.

(** The component of type [T] stored for [entity], if there is one. *)
Definition componentOf {Component : Type} (co : Coordinator.t Component)
    (T : type_index) (entity : Entity) : option Component :=
  ComponentManager.ComponentStorages (Coordinator.componentManager co) !! T
  ≫= (λ storage, storage !! entity).

(** The slot of [entity] in the signature array, if the array has it. *)
Definition signatureOf {Component : Type} (co : Coordinator.t Component)
    (entity : Entity) : option Signature :=
  EntityManager.signatures (Coordinator.entityManager co) !! N.to_nat entity.

(** Bit [pos] of the signature stored for [entity] ([false] outside the
    array). *)
Definition hasBit {Component : Type} (co : Coordinator.t Component)
    (entity : Entity) (pos : N) : bool :=
  match signatureOf co entity with
  | Some sig => N.testbit sig pos
  | None => false
  end.

(** Every signature of the array is a value of [std::bitset<MAX_COMPONENTS>]:
    it has no bit at position [MAX_COMPONENTS] or above. *)
Definition signatures_fit {Component : Type} (co : Coordinator.t Component) : Prop :=
  Forall (λ s, s < 2 ^ MAX_COMPONENTS)
    (EntityManager.signatures (Coordinator.entityManager co)).

(** * Verification *)

(** ** Identifier ranges *)

Lemma length_N_range first n : length (N_range first n) = n.
Proof. revert first. induction n as [|n IH]; intros first; simpl; [done|]. by rewrite IH. Qed.

Lemma elem_of_N_range x first n :
  x ∈ N_range first n ↔ first ≤ x ∧ x < first + N.of_nat n.
Proof.
  revert first. induction n as [|n IH]; intros first; simpl.
  - rewrite elem_of_nil. lia.
  - rewrite elem_of_cons, IH. lia.
Qed.

Lemma NoDup_N_range first n : NoDup (N_range first n).
Proof.
  revert first. induction n as [|n IH]; intros first; simpl.
  - constructor.
  - constructor; [|apply IH]. rewrite elem_of_N_range. lia.
Qed.

Lemma push_loop_range n entity q :
  EntityManager.push_loop n entity q = q ++ N_range entity n.
Proof.
  revert entity q. induction n as [|n IH]; intros entity q; simpl.
  - by rewrite app_nil_r.
  - rewrite IH. by rewrite <- app_assoc.
Qed.

Lemma incr32_small n : n + 1 < UINT32_MOD → incr32 n = n + 1.
Proof. intros H. unfold incr32. by apply N.mod_small. Qed.

Lemma decr32_small n : 0 < n → n < UINT32_MOD → decr32 n = n - 1.
Proof.
  intros H0 H. unfold decr32.
  replace (n + UINT32_MOD - 1) with ((n - 1) + 1 * UINT32_MOD) by lia.
  rewrite N.Div0.mod_add. apply N.mod_small. lia.
Qed.

(** ** EntityManager: filling the pool *)

Lemma createEntity_front MAX id rest sigs count :
  count < MAX → MAX < UINT32_MOD →
  EntityManager.createEntity MAX (EntityManager.mk (id :: rest) sigs count)
  = Ret id (EntityManager.mk rest sigs (count + 1)).
Proof.
  intros Hlt Hmax. unfold EntityManager.createEntity. method_unfold.
  destruct (N.leb_spec MAX count) as [Hle|_]; [lia|].
  rewrite incr32_small by lia. done.
Qed.

Lemma createEntity_full MAX em :
  MAX ≤ EntityManager.livingEntityCount em →
  EntityManager.createEntity MAX em = Throw too_many_entities em.
Proof.
  intros Hle. unfold EntityManager.createEntity. method_unfold.
  destruct (N.leb_spec MAX (EntityManager.livingEntityCount em)); [done|lia].
Qed.

Lemma createEntities_drain MAX queue sigs count :
  count + N.of_nat (length queue) ≤ MAX → MAX < UINT32_MOD →
  createEntities MAX (length queue) (EntityManager.mk queue sigs count)
  = Ret queue (EntityManager.mk [] sigs (count + N.of_nat (length queue))).
Proof.
  revert count. induction queue as [|id rest IH]; intros count Hle Hmax.
  - simpl. unfold ret. f_equal. f_equal. lia.
  - cbn [length createEntities]. unfold bind at 1.
    rewrite createEntity_front by (simpl in Hle; lia).
    unfold bind at 1. rewrite IH by (simpl in Hle; lia).
    unfold ret. f_equal. f_equal. simpl. lia.
Qed.

Lemma createEntities_new MAX :
  MAX < UINT32_MOD →
  createEntities MAX (N.to_nat MAX) (EntityManager.new MAX)
  = Ret (N_range 0 (N.to_nat MAX)) (exhausted MAX).
Proof.
  intros Hmax. unfold EntityManager.new. rewrite push_loop_range. simpl.
  pose proof (createEntities_drain MAX (N_range 0 (N.to_nat MAX))
                (replicate (N.to_nat MAX) 0) 0) as H.
  rewrite length_N_range in H. rewrite H by lia.
  unfold exhausted. f_equal. f_equal. lia.
Qed.

Lemma destroyEntity_empty_signature entity em :
  EntityManager.signatures em !! N.to_nat entity = Some 0 →
  EntityManager.destroyEntity entity em = Ret tt em.
Proof.
  intros Hsig. unfold EntityManager.destroyEntity. method_unfold. by rewrite Hsig.
Qed.

Lemma destroyEntity_recycle entity em s :
  EntityManager.signatures em !! N.to_nat entity = Some s → s ≠ 0 →
  0 < EntityManager.livingEntityCount em →
  EntityManager.destroyEntity entity em
  = Ret tt (EntityManager.mk
              (EntityManager.availableEntities em ++ [entity])
              (<[N.to_nat entity := 0]> (EntityManager.signatures em))
              (decr32 (EntityManager.livingEntityCount em))).
Proof.
  intros Hsig Hs Hcount. unfold EntityManager.destroyEntity. method_unfold.
  rewrite Hsig. unfold bitset_none.
  destruct (N.eqb_spec s 0) as [|_]; [done|].
  destruct (N.leb_spec (EntityManager.livingEntityCount em) 0); [lia|done].
Qed.

Lemma destroyEntity_underflow entity em s :
  EntityManager.signatures em !! N.to_nat entity = Some s → s ≠ 0 →
  EntityManager.livingEntityCount em = 0 →
  EntityManager.destroyEntity entity em = Throw no_entities_to_destroy em.
Proof.
  intros Hsig Hs Hcount. unfold EntityManager.destroyEntity. method_unfold.
  rewrite Hsig, Hcount. unfold bitset_none.
  by destruct (N.eqb_spec s 0) as [|_].
Qed.

Lemma setSignature_in_range entity signature em old :
  EntityManager.signatures em !! N.to_nat entity = Some old →
  EntityManager.setSignature entity signature em
  = Ret tt (EntityManager.mk
              (EntityManager.availableEntities em)
              (<[N.to_nat entity := signature]> (EntityManager.signatures em))
              (EntityManager.livingEntityCount em)).
Proof.
  intros Hsig. unfold EntityManager.setSignature. method_unfold. by rewrite Hsig.
Qed.

(** C1, as the code has it.  From a fresh manager of capacity [MAX] the first
    [MAX] calls of [createEntity] return [0], ..., [MAX - 1] and the next call
    throws the capacity error.  From there [destroyEntity(e)] of a created
    entity whose signature is still empty returns without doing anything, so
    the following [createEntity] throws the capacity error again; once [e] has
    a non-empty signature, [destroyEntity(e)] followed by [createEntity]
    succeeds and returns [e]. *)
Theorem C1_capacity_then_recycle (MAX : N) :
  MAX < UINT32_MOD →
  createEntities MAX (N.to_nat MAX) (EntityManager.new MAX)
    = Ret (N_range 0 (N.to_nat MAX)) (exhausted MAX)
  ∧ EntityManager.createEntity MAX (exhausted MAX)
    = Throw too_many_entities (exhausted MAX)
  ∧ (∀ e, e < MAX →
       (EntityManager.destroyEntity e;; EntityManager.createEntity MAX) (exhausted MAX)
       = Throw too_many_entities (exhausted MAX))
  ∧ (∀ e s, e < MAX → s ≠ 0 →
       (EntityManager.setSignature e s;;
        EntityManager.destroyEntity e;;
        EntityManager.createEntity MAX) (exhausted MAX)
       = Ret e (exhausted MAX)).
Proof.
  intros Hmax. split; [by apply createEntities_new|].
  split; [by apply createEntity_full|].
  assert (Hlook : ∀ e, e < MAX →
            replicate (N.to_nat MAX) 0 !! N.to_nat e = Some 0).
  { intros e He. apply lookup_replicate_2. lia. }
  split.
  - intros e He. unfold bind.
    rewrite destroyEntity_empty_signature by (simpl; auto).
    by apply createEntity_full.
  - intros e s He Hs. unfold bind.
    rewrite (setSignature_in_range e s _ 0) by (simpl; auto).
    rewrite (destroyEntity_recycle e _ s); simpl.
    + rewrite list_insert_insert_eq, (list_insert_id _ _ _ (Hlook e He)).
      rewrite decr32_small by lia.
      rewrite createEntity_front by lia.
      unfold exhausted. f_equal. f_equal. lia.
    + apply list_lookup_insert_eq. rewrite length_replicate. lia.
    + done.
    + lia.
Qed.

(** C1 at capacity 2. *)
Lemma C1_capacity_then_recycle_witness :
  (2 < UINT32_MOD)
  ∧ createEntities 2 2 (EntityManager.new 2) = Ret [0; 1] (exhausted 2)
  ∧ EntityManager.createEntity 2 (exhausted 2) = Throw too_many_entities (exhausted 2)
  ∧ (EntityManager.setSignature 0 1;;
     EntityManager.destroyEntity 0;;
     EntityManager.createEntity 2) (exhausted 2) = Ret 0 (exhausted 2).
Proof.
  assert (H : 2 < UINT32_MOD) by reflexivity.
  destruct (C1_capacity_then_recycle 2 H) as (H1 & H2 & _ & H4).
  split; [exact H|]. split; [exact H1|]. split; [exact H2|].
  apply (H4 0 1); [reflexivity|discriminate].
Defined.

(** C1 with no signature written, at capacity 2: two entities are created,
    the third [createEntity] throws, and then [destroyEntity(0)] followed by
    [createEntity] does not succeed. *)
Lemma C1_destroy_without_signature_counterexample :
  createEntities 2 2 (EntityManager.new 2) = Ret [0; 1] (exhausted 2)
  ∧ EntityManager.createEntity 2 (exhausted 2) = Throw too_many_entities (exhausted 2)
  ∧ ¬ ∃ id em,
        (EntityManager.destroyEntity 0;; EntityManager.createEntity 2) (exhausted 2)
        = Ret id em.
Proof.
  split; [reflexivity|]. split; [reflexivity|].
  intros (id & em & H). vm_compute in H. discriminate H.
Qed.

(** ** EntityManager: the identifier pool *)

Lemma remove_live (e : N) (l : list N) :
  NoDup l → e ∈ l → l ≡ₚ e :: filter (λ id, id ≠ e) l.
Proof.
  intros Hnd He. apply NoDup_Permutation; [done| |].
  - apply NoDup_cons. split; [|by apply NoDup_filter].
    rewrite list_elem_of_filter. by intros [Hne _].
  - intros x. rewrite elem_of_cons, list_elem_of_filter.
    destruct (decide (x = e)) as [->|Hne]; [by split; auto|].
    split; [auto|]. by intros [?|[_ ?]].
Qed.

Lemma pool_inv_start MAX : pool_inv MAX (EntityCalls.start MAX).
Proof.
  unfold pool_inv, EntityCalls.start. simpl.
  rewrite push_loop_range, app_nil_r. simpl.
  split_and!; [done|done|by rewrite length_replicate|].
  intros e He. apply elem_of_N_range in He.
  apply lookup_replicate_2. lia.
Qed.

Lemma pool_inv_NoDup MAX w : pool_inv MAX w → NoDup (EntityCalls.live w).
Proof.
  intros (Hperm & _). pose proof (NoDup_N_range 0 (N.to_nat MAX)) as Hnd.
  rewrite <- Hperm in Hnd. by apply NoDup_app in Hnd as (_ & _ & ?).
Qed.

Lemma pool_inv_sizes MAX w :
  pool_inv MAX w →
  (length (EntityManager.availableEntities (EntityCalls.manager w))
   + length (EntityCalls.live w))%nat = N.to_nat MAX.
Proof.
  intros (Hperm & _). apply Permutation_length in Hperm.
  by rewrite length_app, length_N_range in Hperm.
Qed.

(** With room left the queue is not empty: [front()] is defined. *)
Lemma pool_inv_create MAX w :
  MAX < UINT32_MOD → pool_inv MAX w →
  EntityManager.livingEntityCount (EntityCalls.manager w) < MAX →
  ∃ id rest,
    EntityManager.availableEntities (EntityCalls.manager w) = id :: rest
    ∧ EntityManager.createEntity MAX (EntityCalls.manager w)
      = Ret id (EntityManager.mk rest
                  (EntityManager.signatures (EntityCalls.manager w))
                  (EntityManager.livingEntityCount (EntityCalls.manager w) + 1)).
Proof.
  intros Hmax Hinv Hroom. pose proof (pool_inv_sizes _ _ Hinv) as Hsz.
  destruct Hinv as (_ & Hcount & _).
  destruct w as [[queue sigs count] live]; simpl in *.
  destruct queue as [|id rest]; simpl in *; [lia|].
  exists id, rest. split; [done|]. by apply createEntity_front.
Qed.

Lemma pool_inv_step MAX c w w' :
  MAX < UINT32_MOD → pool_inv MAX w →
  (∀ e s, c = EntityCalls.SetSignature e s → e ∈ EntityCalls.live w) →
  EntityCalls.step MAX c w = Some w' → pool_inv MAX w'.
Proof.
  intros Hmax Hinv Hdisc Hstep.
  pose proof (pool_inv_sizes _ _ Hinv) as Hsz.
  pose proof (pool_inv_NoDup _ _ Hinv) as Hnd.
  destruct c as [|e|e s]; simpl in Hstep.
  - (* createEntity *)
    destruct (decide (EntityManager.livingEntityCount (EntityCalls.manager w) < MAX))
      as [Hroom|Hfull].
    + destruct (pool_inv_create _ _ Hmax Hinv Hroom) as (id & rest & Hq & Hcreate).
      rewrite Hcreate in Hstep. injection Hstep as <-.
      destruct Hinv as (Hperm & Hcount & Hlen & Hzero).
      unfold pool_inv. simpl. rewrite Hq in *. repeat split.
      * rewrite <- Hperm. simpl. by rewrite Permutation_middle.
      * lia.
      * done.
      * intros x Hx. apply Hzero. by apply elem_of_cons; right.
    + rewrite createEntity_full in Hstep by lia. injection Hstep as <-.
      by destruct w.
  - (* destroyEntity *)
    destruct Hinv as (Hperm & Hcount & Hlen & Hzero).
    destruct (EntityManager.signatures (EntityCalls.manager w) !! N.to_nat e)
      as [s|] eqn:Hsig.
    2:{ unfold EntityManager.destroyEntity in Hstep. method_unfold.
        by rewrite Hsig in Hstep. }
    destruct (decide (s = 0)) as [->|Hs].
    { rewrite destroyEntity_empty_signature in Hstep by done.
      injection Hstep as <-. unfold EntityCalls.recycled.
      rewrite bool_decide_eq_false_2.
      - by destruct w.
      - intros Heq. apply (f_equal length) in Heq.
        rewrite length_app in Heq. simpl in Heq. lia. }
    destruct (decide (EntityManager.livingEntityCount (EntityCalls.manager w) = 0))
      as [Hnone|Hsome].
    { rewrite (destroyEntity_underflow e _ s) in Hstep by done.
      injection Hstep as <-. by destruct w. }
    rewrite (destroyEntity_recycle e _ s) in Hstep by (done || lia).
    injection Hstep as <-. unfold EntityCalls.recycled. simpl.
    rewrite bool_decide_eq_true_2 by done.
    assert (He : e ∈ EntityCalls.live w).
    { assert (Hin : e ∈ N_range 0 (N.to_nat MAX)).
      { apply elem_of_N_range. apply lookup_lt_Some in Hsig. lia. }
      rewrite <- Hperm in Hin. apply elem_of_app in Hin as [Hin|Hin]; [|done].
      apply Hzero in Hin. congruence. }
    pose proof (remove_live e _ Hnd He) as Hrm.
    unfold pool_inv. simpl. repeat split.
    + rewrite <- Hperm. rewrite Hrm at 2.
      rewrite <- app_assoc. simpl. done.
    + apply Permutation_length in Hrm. simpl in Hrm.
      rewrite decr32_small by lia. lia.
    + by rewrite length_insert.
    + intros x Hx. destruct (decide (x = e)) as [->|Hne].
      * apply list_lookup_insert_eq. by apply lookup_lt_Some in Hsig.
      * rewrite list_lookup_insert_ne by lia.
        apply elem_of_app in Hx as [Hx|Hx]; [by apply Hzero|].
        apply list_elem_of_singleton in Hx. done.
  - (* setSignature *)
    destruct Hinv as (Hperm & Hcount & Hlen & Hzero).
    destruct (EntityManager.signatures (EntityCalls.manager w) !! N.to_nat e)
      as [old|] eqn:Hsig.
    2:{ unfold EntityManager.setSignature in Hstep. method_unfold.
        by rewrite Hsig in Hstep. }
    rewrite (setSignature_in_range e s _ old) in Hstep by done.
    injection Hstep as <-. unfold pool_inv. simpl. repeat split; try done.
    + by rewrite length_insert.
    + intros x Hx. rewrite list_lookup_insert_ne; [by apply Hzero|].
      intros Heq. assert (x = e) as -> by lia.
      pose proof (NoDup_N_range 0 (N.to_nat MAX)) as Hall.
      rewrite <- Hperm in Hall. apply NoDup_app in Hall as (_ & Hdisj & _).
      by apply (Hdisj e Hx), (Hdisc e s).
Qed.

Lemma pool_inv_run MAX calls w w' :
  MAX < UINT32_MOD → pool_inv MAX w →
  EntityCalls.signatures_of_live MAX calls w →
  run_calls (EntityCalls.step MAX) calls w = Some w' → pool_inv MAX w'.
Proof.
  intros Hmax. revert w. induction calls as [|c calls IH]; intros w Hinv Hdisc Hrun.
  - simpl in Hrun. by injection Hrun as <-.
  - simpl in Hrun, Hdisc. destruct Hdisc as [Hc Hrest].
    destruct (EntityCalls.step MAX c w) as [w1|] eqn:Hstep; [|done].
    apply (IH w1); [|done|done].
    apply (pool_inv_step MAX c w); [done|done| |done].
    intros e s ->. exact Hc.
Qed.

(** A sequence without [setSignature] trivially keeps the caller's side. *)
Lemma signatures_of_live_create_destroy MAX calls w :
  (∀ e s, EntityCalls.SetSignature e s ∉ calls) →
  EntityCalls.signatures_of_live MAX calls w.
Proof.
  revert w. induction calls as [|c calls IH]; intros w Hpure; simpl; [done|].
  split.
  - destruct c; [done|done|]. exfalso. eapply Hpure. by left.
  - destruct (EntityCalls.step MAX c w); [|done]. apply IH.
    intros e s Hin. eapply Hpure. by right.
Qed.

(** C5.  Along every sequence of [createEntity] and [destroyEntity] calls
    (with signatures written for live entities in between), the identifiers
    that are live are pairwise different, and a [createEntity] that succeeds
    returns an identifier that is not live: an identifier is handed out again
    only after [destroyEntity] pushed it back on the queue.  While fewer than
    [MAX] entities are live, [createEntity] does succeed. *)
Theorem C5_live_identifiers_unique (MAX : N) (calls : list EntityCalls.call)
    (w : EntityCalls.world) :
  MAX < UINT32_MOD →
  EntityCalls.signatures_of_live MAX calls (EntityCalls.start MAX) →
  run_calls (EntityCalls.step MAX) calls (EntityCalls.start MAX) = Some w →
  NoDup (EntityCalls.live w)
  ∧ (∀ id em, EntityManager.createEntity MAX (EntityCalls.manager w) = Ret id em →
              id ∉ EntityCalls.live w)
  ∧ (N.of_nat (length (EntityCalls.live w)) < MAX →
     ∃ id em, EntityManager.createEntity MAX (EntityCalls.manager w) = Ret id em).
Proof.
  intros Hmax Hdisc Hrun.
  pose proof (pool_inv_run MAX calls _ w Hmax (pool_inv_start MAX) Hdisc Hrun) as Hinv.
  split; [by eapply pool_inv_NoDup|]. split.
  - intros id em Hcreate Hlive.
    destruct (decide (EntityManager.livingEntityCount (EntityCalls.manager w) < MAX))
      as [Hroom|Hfull].
    + destruct (pool_inv_create _ _ Hmax Hinv Hroom) as (id' & rest & Hq & Hc).
      rewrite Hc in Hcreate. injection Hcreate as -> _.
      destruct Hinv as (Hperm & _).
      pose proof (NoDup_N_range 0 (N.to_nat MAX)) as Hall.
      rewrite <- Hperm, Hq in Hall. apply NoDup_app in Hall as (_ & Hdisj & _).
      apply (Hdisj id); [by left|done].
    + rewrite createEntity_full in Hcreate by lia. discriminate.
  - intros Hroom.
    destruct (pool_inv_create MAX w Hmax Hinv) as (id & rest & _ & Hc).
    + destruct Hinv as (_ & Hcount & _). lia.
    + eauto.
Qed.

(** C5 on a run at capacity 3 that recycles identifier 0. *)
Lemma C5_live_identifiers_unique_witness :
  ∃ w,
    run_calls (EntityCalls.step 3)
      [EntityCalls.Create; EntityCalls.Create; EntityCalls.SetSignature 0 5;
       EntityCalls.Destroy 0; EntityCalls.Create; EntityCalls.Create]
      (EntityCalls.start 3) = Some w
    ∧ EntityCalls.live w = [0; 2; 1]
    ∧ NoDup (EntityCalls.live w)
    ∧ (∀ id em, EntityManager.createEntity 3 (EntityCalls.manager w) = Ret id em →
                id ∉ EntityCalls.live w)
    ∧ (N.of_nat (length (EntityCalls.live w)) < 3 →
       ∃ id em, EntityManager.createEntity 3 (EntityCalls.manager w) = Ret id em).
Proof.
  eexists. split; [vm_compute; reflexivity|]. split; [reflexivity|].
  apply (C5_live_identifiers_unique 3
           [EntityCalls.Create; EntityCalls.Create; EntityCalls.SetSignature 0 5;
            EntityCalls.Destroy 0; EntityCalls.Create; EntityCalls.Create]).
  - reflexivity.
  - simpl. split_and!; try exact I. apply list_elem_of_In. simpl. auto.
  - vm_compute. reflexivity.
Defined.

(** The caller's side is needed.  At capacity 3, a signature written for
    identifier 1 before it was handed out makes [destroyEntity(1)] queue it a
    second time, and it is then handed out twice. *)
Lemma signature_of_dead_entity_duplicates :
  ∃ w,
    run_calls (EntityCalls.step 3)
      [EntityCalls.SetSignature 1 1; EntityCalls.Create; EntityCalls.Destroy 1;
       EntityCalls.Create; EntityCalls.Create; EntityCalls.Create]
      (EntityCalls.start 3) = Some w
    ∧ EntityCalls.live w = [1; 2; 1; 0].
Proof. eexists. split; vm_compute; reflexivity. Qed.

(** ** ComponentManager: type identifiers *)

Lemma run_calls_app {St Call} (step : Call → St → option St) calls1 calls2 st :
  run_calls step (calls1 ++ calls2) st
  = match run_calls step calls1 st with
    | Some st' => run_calls step calls2 st'
    | None => None
    end.
Proof.
  revert st. induction calls1 as [|c calls1 IH]; intros st; simpl; [done|].
  destruct (step c st); [apply IH|done].
Qed.

Lemma umap_insert_lookup `{Countable K} {V} (k k' : K) (v : V) (m : gmap K V) :
  umap_insert k v m !! k'
  = match m !! k' with
    | Some v' => Some v'
    | None => if decide (k = k') then Some v else None
    end.
Proof.
  unfold umap_insert. destruct (m !! k) as [w|] eqn:Hk.
  - destruct (m !! k') eqn:Hk'; [done|]. case_decide; congruence.
  - rewrite lookup_insert. case_decide; subst.
    + by rewrite Hk.
    + by destruct (m !! k').
Qed.

Lemma umap_insert_present `{Countable K} {V} (k : K) (v v' : V) (m : gmap K V) :
  m !! k = Some v' → umap_insert k v m = m.
Proof. intros Hk. unfold umap_insert. by rewrite Hk. Qed.

Section ComponentManagerFacts.
Context {Component : Type}.
Implicit Types (cm : ComponentManager.t Component) (T : type_index).

Lemma getComponentTypeID_present cm T i :
  ComponentManager.componentTypes cm !! T = Some i →
  ComponentManager.getComponentTypeID T cm = Ret i cm.
Proof.
  intros Hi. unfold ComponentManager.getComponentTypeID, umap_index.
  method_unfold. rewrite Hi. by destruct cm.
Qed.

Lemma getComponentTypeID_absent cm T :
  ComponentManager.componentTypes cm !! T = None →
  ComponentManager.getComponentTypeID T cm
  = Ret 0 (ComponentManager.mk
             (<[T := 0]> (ComponentManager.componentTypes cm))
             (ComponentManager.ComponentStorages cm)
             (ComponentManager.nextComponentType cm)).
Proof.
  intros Hi. unfold ComponentManager.getComponentTypeID, umap_index.
  method_unfold. by rewrite Hi.
Qed.

Lemma GetComponentStorage_types {A} T (method : M (gmap Entity Component) A) cm cm' :
  after (ComponentManager.GetComponentStorage T method cm) = Some cm' →
  ComponentManager.componentTypes cm' = ComponentManager.componentTypes cm
  ∧ ComponentManager.nextComponentType cm' = ComponentManager.nextComponentType cm.
Proof.
  unfold ComponentManager.GetComponentStorage. method_unfold.
  destruct (ComponentManager.ComponentStorages cm !! T) as [storage|]; [|done].
  destruct (method storage); simpl; intros Heq; by simplify_eq.
Qed.

(** What a call does to the identifier table and to the counter. *)
Lemma step_types (c : ComponentCalls.call Component) cm cm' :
  ComponentCalls.step c cm = Some cm' →
  match c with
  | ComponentCalls.RegisterComponent T =>
      ComponentManager.componentTypes cm'
      = umap_insert T (ComponentManager.nextComponentType cm)
          (ComponentManager.componentTypes cm)
      ∧ ComponentManager.nextComponentType cm'
        = incr8 (ComponentManager.nextComponentType cm)
  | ComponentCalls.GetComponentTypeID T =>
      ComponentManager.componentTypes cm'
      = (umap_index 0 T (ComponentManager.componentTypes cm)).2
      ∧ ComponentManager.nextComponentType cm' = ComponentManager.nextComponentType cm
  | _ =>
      ComponentManager.componentTypes cm' = ComponentManager.componentTypes cm
      ∧ ComponentManager.nextComponentType cm' = ComponentManager.nextComponentType cm
  end.
Proof.
  destruct c as [T|T|T e v|T e|T e|e]; simpl.
  - intros Heq. by simplify_eq.
  - unfold ComponentManager.getComponentTypeID. method_unfold.
    destruct (umap_index 0 T (ComponentManager.componentTypes cm)).
    simpl. intros Heq. by simplify_eq.
  - apply GetComponentStorage_types.
  - apply GetComponentStorage_types.
  - apply GetComponentStorage_types.
  - intros Heq. by simplify_eq.
Qed.

(** An entry of the identifier table is never overwritten nor removed. *)
Lemma step_keeps_id (c : ComponentCalls.call Component) cm cm' T i :
  ComponentCalls.step c cm = Some cm' →
  ComponentManager.componentTypes cm !! T = Some i →
  ComponentManager.componentTypes cm' !! T = Some i.
Proof.
  intros Hstep Hi. apply step_types in Hstep.
  destruct c as [U|U| | | |]; destruct Hstep as [-> _]; try done.
  - by rewrite umap_insert_lookup, Hi.
  - unfold umap_index.
    destruct (ComponentManager.componentTypes cm !! U) eqn:HU; simpl; [done|].
    rewrite lookup_insert_ne; [done|]. congruence.
Qed.

Lemma run_keeps_id (calls : list (ComponentCalls.call Component)) cm cm' T i :
  run_calls ComponentCalls.step calls cm = Some cm' →
  ComponentManager.componentTypes cm !! T = Some i →
  ComponentManager.componentTypes cm' !! T = Some i.
Proof.
  revert cm. induction calls as [|c calls IH]; intros cm Hrun Hi; simpl in Hrun.
  - by simplify_eq.
  - destruct (ComponentCalls.step c cm) as [cm1|] eqn:Hstep; [|done].
    eauto using step_keeps_id.
Qed.

(** Without [registerComponent<T>], [T] has no identifier or the default one. *)
Lemma run_unregistered (calls : list (ComponentCalls.call Component)) cm cm' T :
  run_calls ComponentCalls.step calls cm = Some cm' →
  ComponentCalls.RegisterComponent T ∉ calls →
  ComponentManager.componentTypes cm !! T = None
  ∨ ComponentManager.componentTypes cm !! T = Some 0 →
  ComponentManager.componentTypes cm' !! T = None
  ∨ ComponentManager.componentTypes cm' !! T = Some 0.
Proof.
  revert cm. induction calls as [|c calls IH]; intros cm Hrun Hnot Hcm; simpl in Hrun.
  - by simplify_eq.
  - destruct (ComponentCalls.step c cm) as [cm1|] eqn:Hstep; [|done].
    apply not_elem_of_cons in Hnot as [Hc Hnot].
    apply (IH cm1); [done|done|].
    destruct Hcm as [Hcm|Hcm]; [|right; eauto using step_keeps_id].
    apply step_types in Hstep.
    destruct c as [U|U| | | |]; destruct Hstep as [-> _]; auto.
    + left. rewrite umap_insert_lookup, Hcm. case_decide; congruence.
    + unfold umap_index.
      destruct (ComponentManager.componentTypes cm !! U) eqn:HU; simpl; auto.
      rewrite lookup_insert. case_decide; auto.
Qed.

Lemma run_counter_unmoved (calls : list (ComponentCalls.call Component)) cm cm' :
  run_calls ComponentCalls.step calls cm = Some cm' →
  (∀ U, ComponentCalls.RegisterComponent U ∉ calls) →
  ComponentManager.nextComponentType cm' = ComponentManager.nextComponentType cm.
Proof.
  revert cm. induction calls as [|c calls IH]; intros cm Hrun Hnot; simpl in Hrun.
  - by simplify_eq.
  - destruct (ComponentCalls.step c cm) as [cm1|] eqn:Hstep; [|done].
    rewrite (IH cm1); [|done|].
    + apply step_types in Hstep.
      destruct c as [U| | | | |]; try by destruct Hstep.
      exfalso. apply (Hnot U). by left.
    + intros U HU. apply (Hnot U). by right.
Qed.
End ComponentManagerFacts.

(** C7.  After any calls on a fresh manager, the identifier lookup of a type
    [T] that was never registered returns the default identifier 0 (it
    neither throws nor is undefined), and 0 is also what the lookup of the
    first type ever registered returns. *)
Theorem C7_unregistered_lookup_returns_zero {Component : Type}
    (calls : list (ComponentCalls.call Component))
    (cm : ComponentManager.t Component) (T : type_index) :
  run_calls ComponentCalls.step calls ComponentManager.new = Some cm →
  ComponentCalls.RegisterComponent T ∉ calls →
  (∃ cm', ComponentManager.getComponentTypeID T cm = Ret 0 cm')
  ∧ (∀ first before later,
       calls = before ++ ComponentCalls.RegisterComponent first :: later →
       (∀ U, ComponentCalls.RegisterComponent U ∉ before) →
       ComponentManager.getComponentTypeID first cm = Ret 0 cm).
Proof.
  intros Hrun Hnot. split.
  - destruct (run_unregistered calls _ cm T Hrun Hnot) as [HT|HT]; [by left| |].
    + eexists. by apply getComponentTypeID_absent.
    + eexists. by apply getComponentTypeID_present.
  - intros first before later -> Hbefore.
    rewrite run_calls_app in Hrun.
    destruct (run_calls ComponentCalls.step before ComponentManager.new)
      as [cm1|] eqn:Hrun1; [|done].
    cbn [run_calls] in Hrun.
    destruct (ComponentCalls.step (ComponentCalls.RegisterComponent first) cm1)
      as [cm2|] eqn:Hstep; [|done].
    apply getComponentTypeID_present. apply (run_keeps_id later cm2); [done|].
    pose proof (run_counter_unmoved before _ cm1 Hrun1 Hbefore) as Hnext.
    pose proof (run_unregistered before _ cm1 first Hrun1 (Hbefore first)) as Hid.
    apply step_types in Hstep as [-> _].
    rewrite umap_insert_lookup, Hnext. simpl.
    destruct Hid as [->| ->]; [by left| |done]. by case_decide.
Qed.

(** C7 on a run that looks up [Velocity] without registering it. *)
Lemma C7_unregistered_lookup_returns_zero_witness :
  ∃ cm : ComponentManager.t N,
    run_calls ComponentCalls.step
      [ComponentCalls.GetComponentTypeID "Render";
       ComponentCalls.RegisterComponent "Position";
       ComponentCalls.RegisterComponent "Render";
       ComponentCalls.AddComponent "Position" 4 7]
      ComponentManager.new = Some cm
    ∧ (∃ cm', ComponentManager.getComponentTypeID "Velocity" cm = Ret 0 cm')
    ∧ ComponentManager.getComponentTypeID "Position" cm = Ret 0 cm.
Proof.
  eexists. split; [vm_compute; reflexivity|].
  match goal with
  | |- _ ∧ ComponentManager.getComponentTypeID _ ?cm = _ =>
      destruct (C7_unregistered_lookup_returns_zero (Component := N)
                  [ComponentCalls.GetComponentTypeID "Render";
                   ComponentCalls.RegisterComponent "Position";
                   ComponentCalls.RegisterComponent "Render";
                   ComponentCalls.AddComponent "Position" 4 7] cm "Velocity")
        as [Hzero Hfirst]
  end.
  - vm_compute. reflexivity.
  - intros Hin. repeat (apply elem_of_cons in Hin as [Hin|Hin]; [discriminate Hin|]).
    by apply elem_of_nil in Hin.
  - split; [exact Hzero|].
    apply (Hfirst "Position" [ComponentCalls.GetComponentTypeID "Render"]
             [ComponentCalls.RegisterComponent "Render";
              ComponentCalls.AddComponent "Position" 4 7]); [reflexivity|].
    intros U Hin. apply elem_of_cons in Hin as [Hin|Hin]; [discriminate Hin|].
    by apply elem_of_nil in Hin.
Defined.

(** C2, as the code has it.  When [T] is registered with identifier [i], a
    second [registerComponent<T>()] leaves the identifier table and the
    stores as they are: the lookup still returns [i], so the signature bits
    computed from [i] still stand for [T].  Only the counter of the next
    identifier moves on (modulo 256). *)
Theorem C2_second_registration_keeps_id {Component : Type}
    (cm : ComponentManager.t Component) (T : type_index) (i : ComponentTypeID)
    (storage : gmap Entity Component) :
  ComponentManager.componentTypes cm !! T = Some i →
  ComponentManager.ComponentStorages cm !! T = Some storage →
  (ComponentManager.registerComponent T;; ComponentManager.getComponentTypeID T) cm
  = Ret i (ComponentManager.mk
             (ComponentManager.componentTypes cm)
             (ComponentManager.ComponentStorages cm)
             (incr8 (ComponentManager.nextComponentType cm))).
Proof.
  intros Hi Hstorage. unfold ComponentManager.registerComponent.
  unfold bind at 1. unfold bind at 1. unfold get, put.
  rewrite (umap_insert_present T _ i) by done.
  rewrite (umap_insert_present T _ storage) by done.
  by apply getComponentTypeID_present.
Qed.

(** C2 for [Position], registered first. *)
Lemma C2_second_registration_keeps_id_witness :
  let cm : ComponentManager.t N :=
    ComponentManager.mk {["Position" := 0]} {["Position" := {[3 := 8]}]} 1 in
  ComponentManager.registerComponent "Position"
      (ComponentManager.new (Component := N))
    = Ret tt (ComponentManager.mk {["Position" := 0]} {["Position" := ∅]} 1)
  ∧ (ComponentManager.registerComponent "Position";;
     ComponentManager.getComponentTypeID "Position") cm
    = Ret 0 (ComponentManager.mk {["Position" := 0]} {["Position" := {[3 := 8]}]} 2).
Proof.
  split; [reflexivity|].
  exact (C2_second_registration_keeps_id
           (ComponentManager.mk {["Position" := 0]} {["Position" := {[3 := 8]}]} 1)
           "Position" 0 {[3 := 8]} eq_refl eq_refl).
Defined.

(** The identifier of a type registered twice: the same before and after the
    second registration. *)
Lemma C2_reassignment_counterexample :
  ∃ cm : ComponentManager.t unit,
    (ComponentManager.registerComponent "Position";;
     let* i := ComponentManager.getComponentTypeID "Position" in
     ComponentManager.registerComponent "Position";;
     let* j := ComponentManager.getComponentTypeID "Position" in
     ret (i, j)) ComponentManager.new
    = Ret (0, 0) cm.
Proof. eexists. vm_compute. reflexivity. Qed.

(** ** SystemManager: required signatures and membership *)

Lemma requiredSignature_declared sm S sigS :
  SystemManager.signatures sm !! S = Some sigS → requiredSignature sm S = sigS.
Proof. intros H. unfold requiredSignature, umap_index. by rewrite H. Qed.

Lemma requiredSignature_undeclared sm S :
  SystemManager.signatures sm !! S = None → requiredSignature sm S = 0.
Proof. intros H. unfold requiredSignature, umap_index. by rewrite H. Qed.

(** The loop of [entitySignatureChanged] over the part [m] of the systems. *)
Lemma signature_changed_loop entity entitySignature sm (m : gmap type_index System.t) :
  let r := map_fold (SystemManager.signature_changed_body entity entitySignature) sm m in
  (∀ S, SystemManager.systems r !! S
        = match m !! S with
          | Some system => Some (rematched sm entity entitySignature S system)
          | None => SystemManager.systems sm !! S
          end)
  ∧ (∀ S, SystemManager.signatures r !! S
          = match SystemManager.signatures sm !! S with
            | Some sigS => Some sigS
            | None => match m !! S with Some _ => Some 0 | None => None end
            end).
Proof.
  cbv zeta.
  apply (map_fold_weak_ind (λ r m,
    (∀ S, SystemManager.systems r !! S
          = match m !! S with
            | Some system => Some (rematched sm entity entitySignature S system)
            | None => SystemManager.systems sm !! S
            end)
    ∧ (∀ S, SystemManager.signatures r !! S
            = match SystemManager.signatures sm !! S with
              | Some sigS => Some sigS
              | None => match m !! S with Some _ => Some 0 | None => None end
              end))); clear m.
  - split; intros S; rewrite lookup_empty; [done|].
    by destruct (SystemManager.signatures sm !! S).
  - intros T system m r Hfresh [Hsys Hsig].
    assert (Hread : umap_index 0 T (SystemManager.signatures r)
                    = (requiredSignature sm T,
                       match SystemManager.signatures sm !! T with
                       | Some _ => SystemManager.signatures r
                       | None => <[T := 0]> (SystemManager.signatures r)
                       end)).
    { unfold requiredSignature, umap_index. rewrite (Hsig T), Hfresh.
      by destruct (SystemManager.signatures sm !! T). }
    unfold SystemManager.signature_changed_body. rewrite Hread. simpl.
    split; intros S.
    + rewrite !lookup_insert. case_decide; subst; [done|]. apply Hsys.
    + destruct (SystemManager.signatures sm !! T) eqn:HT.
      * rewrite (Hsig S), lookup_insert. case_decide; subst; [|done].
        by rewrite HT.
      * rewrite !lookup_insert. case_decide; subst; [by rewrite HT|]. apply Hsig.
Qed.

Lemma entitySignatureChanged_returns entity entitySignature sm :
  SystemManager.entitySignatureChanged entity entitySignature sm
  = Ret tt (map_fold (SystemManager.signature_changed_body entity entitySignature)
              sm (SystemManager.systems sm)).
Proof. done. Qed.

Lemma entitySignatureChanged_systems entity entitySignature sm sm' S :
  SystemManager.entitySignatureChanged entity entitySignature sm = Ret tt sm' →
  SystemManager.systems sm' !! S
  = rematched sm entity entitySignature S <$> SystemManager.systems sm !! S.
Proof.
  rewrite entitySignatureChanged_returns. intros Heq. simplify_eq.
  destruct (signature_changed_loop entity entitySignature sm
              (SystemManager.systems sm)) as [Hsys _].
  rewrite (Hsys S). by destruct (SystemManager.systems sm !! S).
Qed.

Lemma entitySignatureChanged_signatures entity entitySignature sm sm' S :
  SystemManager.entitySignatureChanged entity entitySignature sm = Ret tt sm' →
  SystemManager.signatures sm' !! S
  = match SystemManager.signatures sm !! S with
    | Some sigS => Some sigS
    | None => match SystemManager.systems sm !! S with
              | Some _ => Some 0
              | None => None
              end
    end.
Proof.
  rewrite entitySignatureChanged_returns. intros Heq. simplify_eq.
  by destruct (signature_changed_loop entity entitySignature sm
                 (SystemManager.systems sm)) as [_ Hsig].
Qed.

Lemma entities_insert_member entity other system :
  other ∈ System.entities (System.entities_insert entity system)
  ↔ other = entity ∨ other ∈ System.entities system.
Proof. simpl. by rewrite elem_of_union, elem_of_singleton. Qed.

Lemma entities_erase_member entity other system :
  other ∈ System.entities (System.entities_erase entity system)
  ↔ other ∈ System.entities system ∧ other ≠ entity.
Proof. simpl. by rewrite elem_of_difference, elem_of_singleton. Qed.

Lemma entities_insert_present entity system :
  entity ∈ System.entities system → System.entities_insert entity system = system.
Proof.
  intros Hin. destruct system as [members]. unfold System.entities_insert.
  simpl in *. f_equal. apply set_eq. intros x.
  rewrite elem_of_union, elem_of_singleton. split; [|auto].
  by intros [->|?].
Qed.

Lemma entities_erase_absent entity system :
  entity ∉ System.entities system → System.entities_erase entity system = system.
Proof.
  intros Hnotin. destruct system as [members]. unfold System.entities_erase.
  simpl in *. f_equal. apply set_eq. intros x.
  rewrite elem_of_difference, elem_of_singleton. split; [by intros [? _]|].
  intros Hx. split; [done|]. by intros ->.
Qed.

Lemma rematched_member sm entity entitySignature S system :
  entity ∈ System.entities (rematched sm entity entitySignature S system)
  ↔ N.land entitySignature (requiredSignature sm S) = requiredSignature sm S.
Proof.
  unfold rematched, bitset_and.
  destruct (N.eqb_spec (N.land entitySignature (requiredSignature sm S))
              (requiredSignature sm S)) as [Hmatch|Hmiss].
  - rewrite entities_insert_member. split; auto.
  - rewrite entities_erase_member. split; [by intros [_ ?]|done].
Qed.

Lemma rematched_others sm entity entitySignature S system other :
  other ≠ entity →
  other ∈ System.entities (rematched sm entity entitySignature S system)
  ↔ other ∈ System.entities system.
Proof.
  intros Hne. unfold rematched. destruct (_ =? _).
  - rewrite entities_insert_member. split; [by intros [?|?]|auto].
  - rewrite entities_erase_member. split; [by intros [? _]|auto].
Qed.

Lemma entitySignatureChanged_member (sm : SystemManager.t)
    (e : Entity) (s : Signature) (S : type_index) (system : System.t) :
  SystemManager.systems sm !! S = Some system →
  ∃ sm',
    SystemManager.entitySignatureChanged e s sm = Ret tt sm'
    ∧ SystemManager.systems sm' !! S = Some (rematched sm e s S system).
Proof.
  intros HS. eexists. split; [done|].
  by rewrite (entitySignatureChanged_systems e s sm _ S eq_refl), HS.
Qed.

(** C3.  After [entitySignatureChanged(e, s)] the entity [e] is in the entity
    set of a registered system [S] exactly when [s] has all the bits of the
    signature required by [S] (a superset test, not an equality); the other
    members of the set are untouched. *)
Theorem C3_membership_follows_superset_test (sm : SystemManager.t)
    (e : Entity) (s : Signature) (S : type_index) (system : System.t) :
  SystemManager.systems sm !! S = Some system →
  ∃ sm' system',
    SystemManager.entitySignatureChanged e s sm = Ret tt sm'
    ∧ SystemManager.systems sm' !! S = Some system'
    ∧ (N.land s (requiredSignature sm S) = requiredSignature sm S →
       e ∈ System.entities system')
    ∧ (N.land s (requiredSignature sm S) ≠ requiredSignature sm S →
       e ∉ System.entities system')
    ∧ (∀ other, other ≠ e →
         other ∈ System.entities system' ↔ other ∈ System.entities system).
Proof.
  intros HS.
  destruct (entitySignatureChanged_member sm e s S system HS) as (sm' & Hret & Hsys).
  exists sm', (rematched sm e s S system). split_and!; [done|done| | |].
  - intros Hmatch. by apply rematched_member.
  - intros Hmiss Hin. by apply rematched_member in Hin.
  - intros other Hne. by apply rematched_others.
Qed.

(** C3 on a system requiring bits 0 and 1, for an entity with bits 0, 1, 2. *)
Lemma C3_membership_follows_superset_test_witness :
  let sm := SystemManager.mk {["Physics" := 3]}
              {["Physics" := System.mk {[7]}]} in
  ∃ sm' system',
    SystemManager.entitySignatureChanged 2 7 sm = Ret tt sm'
    ∧ SystemManager.systems sm' !! "Physics" = Some system'
    ∧ 2 ∈ System.entities system'
    ∧ 7 ∈ System.entities system'.
Proof.
  intros sm.
  destruct (C3_membership_follows_superset_test sm 2 7 "Physics" (System.mk {[7]}))
    as (sm' & system' & Hret & Hsys & Hin & _ & Hothers).
  - vm_compute. reflexivity.
  - exists sm', system'. split; [exact Hret|]. split; [exact Hsys|]. split.
    + apply Hin. vm_compute. reflexivity.
    + apply Hothers; [discriminate|]. simpl. apply elem_of_singleton. reflexivity.
Defined.

Lemma system_step_keeps_system (c : SystemCalls.call) sm sm' S :
  SystemCalls.step c sm = Some sm' →
  is_Some (SystemManager.systems sm !! S) →
  is_Some (SystemManager.systems sm' !! S).
Proof.
  intros Hstep [system HS]. destruct c as [T|T|T sig|e|e s]; simpl in Hstep.
  - simplify_eq. simpl. rewrite umap_insert_lookup, HS. eauto.
  - unfold SystemManager.getSystem in Hstep. method_unfold.
    destruct (SystemManager.systems sm !! T); simpl in Hstep; simplify_eq; eauto.
  - simplify_eq. simpl. eauto.
  - simplify_eq. simpl. rewrite lookup_fmap, HS. simpl. eauto.
  - simplify_eq.
    rewrite (entitySignatureChanged_systems e s sm _ S eq_refl), HS. simpl. eauto.
Qed.

Lemma system_run_keeps_system (calls : list SystemCalls.call) sm sm' S :
  run_calls SystemCalls.step calls sm = Some sm' →
  is_Some (SystemManager.systems sm !! S) →
  is_Some (SystemManager.systems sm' !! S).
Proof.
  revert sm. induction calls as [|c calls IH]; intros sm Hrun HS; simpl in Hrun.
  - by simplify_eq.
  - destruct (SystemCalls.step c sm) as [sm1|] eqn:Hstep; [|done].
    eauto using system_step_keeps_system.
Qed.

Lemma system_run_registered (calls : list SystemCalls.call) sm sm' S :
  run_calls SystemCalls.step calls sm = Some sm' →
  SystemCalls.RegisterSystem S ∈ calls →
  is_Some (SystemManager.systems sm' !! S).
Proof.
  revert sm. induction calls as [|c calls IH]; intros sm Hrun Hin; simpl in Hrun.
  - by apply elem_of_nil in Hin.
  - destruct (SystemCalls.step c sm) as [sm1|] eqn:Hstep; [|done].
    apply elem_of_cons in Hin as [<-|Hin]; [|eauto].
    apply (system_run_keeps_system calls sm1); [done|].
    simpl in Hstep. simplify_eq. simpl. rewrite umap_insert_lookup.
    destruct (SystemManager.systems sm !! S); [eauto|].
    rewrite decide_True by done. eauto.
Qed.

(** An entry of the signature map is never overwritten nor removed. *)
Lemma system_step_keeps_signature (c : SystemCalls.call) sm sm' S sigS :
  SystemCalls.step c sm = Some sm' →
  SystemManager.signatures sm !! S = Some sigS →
  SystemManager.signatures sm' !! S = Some sigS.
Proof.
  intros Hstep HS. destruct c as [T|T|T sig|e|e s]; simpl in Hstep.
  - by simplify_eq.
  - unfold SystemManager.getSystem in Hstep. method_unfold.
    destruct (SystemManager.systems sm !! T); simpl in Hstep; by simplify_eq.
  - simplify_eq. simpl. by rewrite umap_insert_lookup, HS.
  - by simplify_eq.
  - simplify_eq.
    by rewrite (entitySignatureChanged_signatures e s sm _ S eq_refl), HS.
Qed.

Lemma system_run_keeps_signature (calls : list SystemCalls.call) sm sm' S sigS :
  run_calls SystemCalls.step calls sm = Some sm' →
  SystemManager.signatures sm !! S = Some sigS →
  SystemManager.signatures sm' !! S = Some sigS.
Proof.
  revert sm. induction calls as [|c calls IH]; intros sm Hrun HS; simpl in Hrun.
  - by simplify_eq.
  - destruct (SystemCalls.step c sm) as [sm1|] eqn:Hstep; [|done].
    eauto using system_step_keeps_signature.
Qed.

(** Without [setSignature<S>], [S] has no signature or the empty one. *)
Lemma system_run_undeclared (calls : list SystemCalls.call) sm sm' S :
  run_calls SystemCalls.step calls sm = Some sm' →
  (∀ sig, SystemCalls.SetSignature S sig ∉ calls) →
  SystemManager.signatures sm !! S = None
  ∨ SystemManager.signatures sm !! S = Some 0 →
  SystemManager.signatures sm' !! S = None
  ∨ SystemManager.signatures sm' !! S = Some 0.
Proof.
  revert sm. induction calls as [|c calls IH]; intros sm Hrun Hnot Hsm; simpl in Hrun.
  - by simplify_eq.
  - destruct (SystemCalls.step c sm) as [sm1|] eqn:Hstep; [|done].
    apply (IH sm1); [done| |].
    { intros sig Hin. apply (Hnot sig). by right. }
    destruct Hsm as [Hsm|Hsm]; [|right; eauto using system_step_keeps_signature].
    destruct c as [T|T|T sig|e|e s]; simpl in Hstep.
    + simplify_eq. by left.
    + unfold SystemManager.getSystem in Hstep. method_unfold.
      destruct (SystemManager.systems sm !! T); simpl in Hstep; simplify_eq; by left.
    + simplify_eq. simpl. left. rewrite umap_insert_lookup, Hsm.
      case_decide; [|done]. subst. exfalso. apply (Hnot sig). by left.
    + simplify_eq. by left.
    + simplify_eq.
      rewrite (entitySignatureChanged_signatures e s sm _ S eq_refl), Hsm.
      destruct (SystemManager.systems sm !! S); auto.
Qed.

(** C10.  A system [S] that was registered and for which [setSignature] was
    never called has no entry in the signature map, or the empty one.  The
    lookup [signatures[type]] of [entitySignatureChanged(e, s)] reads the
    empty signature for [S] and leaves the entry of [S] in the map as the
    empty signature (inserting it when [S] had none); the test
    [(s & empty) == empty] holds for every [s], so the call puts [e] in the
    entity set of [S], whatever [s]. *)
Theorem C10_undeclared_system_takes_every_entity (calls : list SystemCalls.call)
    (sm : SystemManager.t) (S : type_index) (e : Entity) (s : Signature) :
  run_calls SystemCalls.step calls SystemManager.new = Some sm →
  SystemCalls.RegisterSystem S ∈ calls →
  (∀ sig, SystemCalls.SetSignature S sig ∉ calls) →
  requiredSignature sm S = 0
  ∧ (SystemManager.signatures sm !! S = None
     ∨ SystemManager.signatures sm !! S = Some 0)
  ∧ ∃ sm' system',
      SystemManager.entitySignatureChanged e s sm = Ret tt sm'
      ∧ SystemManager.signatures sm' !! S = Some 0
      ∧ SystemManager.systems sm' !! S = Some system'
      ∧ e ∈ System.entities system'.
Proof.
  intros Hrun Hreg Hnot.
  assert (Hentry : SystemManager.signatures sm !! S = None
                   ∨ SystemManager.signatures sm !! S = Some 0).
  { apply (system_run_undeclared calls SystemManager.new sm S Hrun Hnot). by left. }
  assert (Hreq : requiredSignature sm S = 0).
  { destruct Hentry as [H|H].
    - by apply requiredSignature_undeclared.
    - by apply requiredSignature_declared. }
  split; [done|]. split; [done|].
  destruct (system_run_registered calls _ sm S Hrun Hreg) as [system HS].
  destruct (entitySignatureChanged_member sm e s S system HS) as (sm' & Hret & Hsys).
  exists sm', (rematched sm e s S system). split_and!; [done| |done|].
  - rewrite (entitySignatureChanged_signatures e s sm sm' S Hret), HS.
    by destruct Hentry as [-> | ->].
  - apply rematched_member. rewrite Hreq. apply N.land_0_r.
Qed.

(** C10 on a manager with a declared system and an undeclared one: [Audio]
    has no entry in the signature map before the call and the empty
    signature after it. *)
Lemma C10_undeclared_system_takes_every_entity_witness :
  ∃ sm,
    run_calls SystemCalls.step
      [SystemCalls.RegisterSystem "Physics"; SystemCalls.SetSignature "Physics" 3;
       SystemCalls.RegisterSystem "Audio"]
      SystemManager.new = Some sm
    ∧ SystemManager.signatures sm !! "Audio" = None
    ∧ requiredSignature sm "Audio" = 0
    ∧ ∃ sm' system',
        SystemManager.entitySignatureChanged 9 4 sm = Ret tt sm'
        ∧ SystemManager.signatures sm' !! "Audio" = Some 0
        ∧ SystemManager.systems sm' !! "Audio" = Some system'
        ∧ 9 ∈ System.entities system'.
Proof.
  eexists. split; [vm_compute; reflexivity|]. split; [vm_compute; reflexivity|].
  match goal with
  | |- requiredSignature ?sm _ = _ ∧ _ =>
      destruct (C10_undeclared_system_takes_every_entity
                  [SystemCalls.RegisterSystem "Physics";
                   SystemCalls.SetSignature "Physics" 3;
                   SystemCalls.RegisterSystem "Audio"] sm "Audio" 9 4)
        as (Hreq & _ & Hcall)
  end.
  - vm_compute. reflexivity.
  - apply list_elem_of_In. simpl. auto.
  - intros sig Hin.
    repeat (apply elem_of_cons in Hin as [Hin|Hin]; [discriminate Hin|]).
    by apply elem_of_nil in Hin.
  - split; [exact Hreq|exact Hcall].
Defined.

(** C8, as the code has it.  The first entry that the signature map gets for
    a system type [T] is final.  [setSignature<T>(s1)] makes the entry when
    there is none; once there is one (made by [setSignature], or the empty
    signature that [entitySignatureChanged] inserts for a registered system
    without an entry), no later call changes it, and [setSignature<T>(s2)]
    returns with the manager as it was. *)
Theorem C8_signature_entry_is_final (sm : SystemManager.t) (T : type_index) :
  (∀ s1, SystemManager.signatures sm !! T = None →
     ∃ sm1, SystemManager.setSignature T s1 sm = Ret tt sm1
            ∧ SystemManager.signatures sm1 !! T = Some s1)
  ∧ (∀ sigT calls sm' s2,
       SystemManager.signatures sm !! T = Some sigT →
       run_calls SystemCalls.step calls sm = Some sm' →
       SystemManager.signatures sm' !! T = Some sigT
       ∧ SystemManager.setSignature T s2 sm' = Ret tt sm'
       ∧ requiredSignature sm' T = sigT).
Proof.
  split.
  - intros s1 Hnone. eexists. split; [done|]. simpl.
    rewrite umap_insert_lookup, Hnone. by rewrite decide_True.
  - intros sigT calls sm' s2 HT Hrun.
    pose proof (system_run_keeps_signature calls sm sm' T sigT Hrun HT) as HT'.
    split_and!; [done| |by apply requiredSignature_declared].
    unfold SystemManager.setSignature. method_unfold.
    rewrite (umap_insert_present T s2 sigT) by done. by destruct sm'.
Qed.

(** C8 for a system declared with signature 1 and then with signature 2. *)
Lemma C8_signature_entry_is_final_witness :
  let sm := SystemManager.mk ∅ {["Physics" := System.new]} in
  let sm1 := SystemManager.mk {["Physics" := 1]} {["Physics" := System.new]} in
  let sm2 := SystemManager.mk {["Physics" := 1]} {["Physics" := System.mk {[5]}]} in
  SystemManager.setSignature "Physics" 1 sm = Ret tt sm1
  ∧ run_calls SystemCalls.step [SystemCalls.EntitySignatureChanged 5 1] sm1 = Some sm2
  ∧ SystemManager.signatures sm2 !! "Physics" = Some 1
  ∧ SystemManager.setSignature "Physics" 2 sm2 = Ret tt sm2
  ∧ requiredSignature sm2 "Physics" = 1.
Proof.
  intros sm sm1 sm2. split; [vm_compute; reflexivity|].
  split; [vm_compute; reflexivity|].
  destruct (C8_signature_entry_is_final sm1 "Physics") as [_ Hfinal].
  apply (Hfinal 1 [SystemCalls.EntitySignatureChanged 5 1] sm2 2);
    vm_compute; reflexivity.
Defined.

(** [setSignature<S>(1)] called after an [entitySignatureChanged] that found
    the registered system [S] without an entry: the required signature of [S]
    is the empty one, not 1, before and after [setSignature<S>(2)]. *)
Lemma C8_first_declaration_ignored_counterexample :
  ∃ sm1 sm2,
    (SystemManager.registerSystem "S";;
     SystemManager.entitySignatureChanged 0 4;;
     SystemManager.setSignature "S" 1) SystemManager.new = Ret tt sm1
    ∧ SystemManager.setSignature "S" 2 sm1 = Ret tt sm2
    ∧ SystemManager.signatures sm1 !! "S" = Some 0
    ∧ SystemManager.signatures sm2 !! "S" ≠ Some 1.
Proof.
  eexists. eexists. split; [vm_compute; reflexivity|].
  split; [vm_compute; reflexivity|].
  split; [vm_compute; reflexivity|].
  vm_compute. discriminate.
Qed.

(** ** Coordinator *)

Lemma EntityManager_destroyEntity_clears entity em em' :
  EntityManager.destroyEntity entity em = Ret tt em' →
  EntityManager.signatures em' !! N.to_nat entity = Some 0.
Proof.
  unfold EntityManager.destroyEntity. method_unfold.
  destruct (EntityManager.signatures em !! N.to_nat entity) as [s|] eqn:Hsig; [|done].
  unfold bitset_none. destruct (N.eqb_spec s 0) as [->|_].
  - intros Heq. by simplify_eq.
  - destruct (EntityManager.livingEntityCount em <=? 0); [done|].
    intros Heq. simplify_eq. simpl.
    apply list_lookup_insert_eq. by apply lookup_lt_Some in Hsig.
Qed.

Section CoordinatorFacts.
Context {Component : Type}.
Implicit Types (co : Coordinator.t Component) (T S : type_index).

Lemma Coordinator_destroyEntity_parts entity co co' :
  Coordinator.destroyEntity entity co = Ret tt co' →
  EntityManager.destroyEntity entity (Coordinator.entityManager co)
    = Ret tt (Coordinator.entityManager co')
  ∧ ComponentManager.ComponentStorages (Coordinator.componentManager co')
    = delete entity <$> ComponentManager.ComponentStorages (Coordinator.componentManager co)
  ∧ SystemManager.systems (Coordinator.systemManager co')
    = System.entities_erase entity <$> SystemManager.systems (Coordinator.systemManager co).
Proof.
  unfold Coordinator.destroyEntity, Coordinator.onEntityManager,
    Coordinator.onComponentManager, Coordinator.onSystemManager.
  method_unfold.
  destruct (EntityManager.destroyEntity entity (Coordinator.entityManager co))
    as [[] em'|x em'|]; [|done|done].
  intros Heq. by simplify_eq.
Qed.

(** When does [destroyEntity] return: the identifier indexes the signature
    array and, if its signature is not empty, some entity is counted live. *)
Lemma Coordinator_destroyEntity_returns entity co s :
  EntityManager.signatures (Coordinator.entityManager co) !! N.to_nat entity = Some s →
  s = 0 ∨ 0 < EntityManager.livingEntityCount (Coordinator.entityManager co) →
  ∃ co', Coordinator.destroyEntity entity co = Ret tt co'.
Proof.
  intros Hsig Hok.
  unfold Coordinator.destroyEntity, Coordinator.onEntityManager,
    Coordinator.onComponentManager, Coordinator.onSystemManager.
  unfold bind, zoom.
  destruct (decide (s = 0)) as [->|Hs].
  - rewrite destroyEntity_empty_signature by done. eauto.
  - rewrite (destroyEntity_recycle entity _ s) by (done || by destruct Hok). eauto.
Qed.
End CoordinatorFacts.

(** C4.  When [destroyEntity(e)] of the coordinator has returned, [e] does
    not exist, its signature is empty, no component store holds an entry for
    [e], and no system has [e] in its entity set. *)
Theorem C4_destroyed_entity_leaves_no_trace {Component : Type} (MAX : N)
    (co co' : Coordinator.t Component) (e : Entity) :
  Coordinator.destroyEntity e co = Ret tt co' →
  Coordinator.entityExists MAX e co' = Ret false co'
  ∧ Coordinator.getEntitySignature e co' = Ret 0 co'
  ∧ (∀ T storage,
       ComponentManager.ComponentStorages (Coordinator.componentManager co') !! T
       = Some storage → storage !! e = None)
  ∧ (∀ S system,
       SystemManager.systems (Coordinator.systemManager co') !! S = Some system →
       e ∉ System.entities system).
Proof.
  intros Hdestroy.
  apply Coordinator_destroyEntity_parts in Hdestroy as (Hem & Hcm & Hsm).
  apply EntityManager_destroyEntity_clears in Hem.
  split_and!.
  - unfold Coordinator.entityExists, Coordinator.onEntityManager,
      EntityManager.entityExists. method_unfold.
    destruct (e <? MAX); [rewrite Hem; simpl|]; by destruct co'.
  - unfold Coordinator.getEntitySignature, Coordinator.onEntityManager,
      EntityManager.getSignature. method_unfold.
    rewrite Hem. by destruct co'.
  - intros T storage. rewrite Hcm, lookup_fmap.
    destruct (_ !! T) as [storage0|]; simpl; [|done].
    intros Heq. simplify_eq. apply lookup_delete_eq.
  - intros S system. rewrite Hsm, lookup_fmap.
    destruct (_ !! S) as [system0|]; simpl; [|done].
    intros Heq. simplify_eq. rewrite entities_erase_member. by intros [_ ?].
Qed.

(** C4 for entity 0 that has a component, a signature and a membership. *)
Lemma C4_destroyed_entity_leaves_no_trace_witness :
  let co : Coordinator.t N :=
    Coordinator.mk
      (ComponentManager.mk {["Position" := 0]} {["Position" := {[0 := 10; 1 := 11]}]} 1)
      (EntityManager.mk [2] [1; 1; 0] 2)
      (SystemManager.mk {["Physics" := 1]} {["Physics" := System.mk {[0; 1]}]}) in
  let co' : Coordinator.t N :=
    Coordinator.mk
      (ComponentManager.mk {["Position" := 0]} {["Position" := {[1 := 11]}]} 1)
      (EntityManager.mk [2; 0] [0; 1; 0] 1)
      (SystemManager.mk {["Physics" := 1]} {["Physics" := System.mk {[1]}]}) in
  Coordinator.destroyEntity 0 co = Ret tt co'
  ∧ Coordinator.entityExists 3 0 co' = Ret false co'
  ∧ Coordinator.getEntitySignature 0 co' = Ret 0 co'.
Proof.
  intros co co'.
  assert (H : Coordinator.destroyEntity 0 co = Ret tt co') by (vm_compute; reflexivity).
  split; [exact H|].
  destruct (C4_destroyed_entity_leaves_no_trace 3 co co' 0 H) as (H1 & H2 & _).
  split; [exact H1|exact H2].
Defined.


Section AddComponent.
Context {Component : Type}.
Implicit Types (co : Coordinator.t Component) (T S : type_index).

(** [addComponent<T>(entity, component)] statement by statement, for a
    registered [T] and an identifier that indexes the signature array. *)
Lemma Coordinator_addComponent_steps T entity component co storage sig :
  ComponentManager.ComponentStorages (Coordinator.componentManager co) !! T
    = Some storage →
  EntityManager.signatures (Coordinator.entityManager co) !! N.to_nat entity
    = Some sig →
  let cm := Coordinator.componentManager co in
  let em := Coordinator.entityManager co in
  let sm := Coordinator.systemManager co in
  let id := typeID cm T in
  let cm' :=
    ComponentManager.mk
      (umap_index 0 T (ComponentManager.componentTypes cm)).2
      (<[T := umap_insert entity component storage]>
         (ComponentManager.ComponentStorages cm))
      (ComponentManager.nextComponentType cm) in
  Coordinator.addComponent T entity component co
  = if id <? MAX_COMPONENTS
    then Ret tt (Coordinator.mk cm'
                   (EntityManager.mk
                      (EntityManager.availableEntities em)
                      (<[N.to_nat entity := N.setbit sig id]>
                         (EntityManager.signatures em))
                      (EntityManager.livingEntityCount em))
                   (map_fold
                      (SystemManager.signature_changed_body entity (N.setbit sig id))
                      sm (SystemManager.systems sm)))
    else Throw out_of_range (Coordinator.mk cm' em sm).
Proof.
  intros Hstorage Hsig. cbv zeta.
  unfold Coordinator.addComponent, Coordinator.onComponentManager,
    Coordinator.onEntityManager, Coordinator.onSystemManager,
    ComponentManager.addComponent, ComponentManager.GetComponentStorage,
    ComponentManager.getComponentTypeID, ComponentStorage.insertData,
    EntityManager.getSignature, EntityManager.setSignature,
    SystemManager.entitySignatureChanged, bitset_set, typeID.
  method_unfold. rewrite Hstorage. simpl. rewrite Hsig. simpl.
  destruct (umap_index 0 T _) as [id types] eqn:Hindex. simpl.
  destruct (id <? MAX_COMPONENTS); simpl; [|done].
  by rewrite Hsig.
Qed.

Lemma Coordinator_getComponent_stored T entity co storage component :
  ComponentManager.ComponentStorages (Coordinator.componentManager co) !! T
    = Some storage →
  storage !! entity = Some component →
  Coordinator.getComponent T entity co = Ret component co.
Proof.
  intros Hstorage Hcomponent.
  unfold Coordinator.getComponent, Coordinator.onComponentManager,
    ComponentManager.getComponent, ComponentManager.GetComponentStorage,
    ComponentStorage.getData.
  method_unfold. rewrite Hstorage. simpl. rewrite Hcomponent.
  rewrite insert_id by done. by destruct co as [[] ? ?].
Qed.

End AddComponent.




(** The round trip of [addComponent] and [getComponent] when the entity held
    no component of the type. *)
Lemma Coordinator_addComponent_getComponent_fresh {Component : Type}
    (co : Coordinator.t Component) (T : type_index) (e : Entity) (v : Component)
    (storage : gmap Entity Component) (sig : Signature) :
  ComponentManager.ComponentStorages (Coordinator.componentManager co) !! T
    = Some storage →
  storage !! e = None →
  EntityManager.signatures (Coordinator.entityManager co) !! N.to_nat e = Some sig →
  ∃ co', after (Coordinator.addComponent T e v co) = Some co'
         ∧ Coordinator.getComponent T e co' = Ret v co'.
Proof.
  intros Hstorage Hfresh Hsig.
  pose proof (Coordinator_addComponent_steps T e v co storage sig Hstorage Hsig)
    as Hadd. cbv zeta in Hadd.
  assert (Hins : umap_insert e v storage = <[e := v]> storage).
  { unfold umap_insert. by rewrite Hfresh. }
  rewrite Hins in Hadd.
  destruct (_ <? MAX_COMPONENTS); eexists; rewrite Hadd; (split; [done|]);
    apply (Coordinator_getComponent_stored T e _ (<[e := v]> storage));
    simpl; by rewrite lookup_insert_eq.
Qed.

(** C6 at its failing input.  [Position] is registered, entity 0 is created
    and given the [Position] 10; [addComponent<Position>(0, 20)] followed by
    [getComponent<Position>(0)] returns 10, not 20: the [emplace] of
    [insertData] does not replace the entry although [insertData] is
    documented to insert or update. *)
Theorem C6_add_then_get_returns_old_value :
  returned
    ((Coordinator.registerComponent "Position";;
      let* e := Coordinator.createEntity 5000 in
      Coordinator.addComponent "Position" e 10;;
      Coordinator.addComponent "Position" e 20;;
      Coordinator.getComponent "Position" e)
       (Coordinator.init 5000 (Component := N)))
  = Some 10.
Proof. vm_compute. reflexivity. Qed.

(** * Further properties of the kernel *)

(** ** EntityManager *)

Lemma entityExists_in_range MAX entity em s :
  entity < MAX →
  EntityManager.signatures em !! N.to_nat entity = Some s →
  EntityManager.entityExists MAX entity em = Ret (bitset_any s) em.
Proof.
  intros Hlt Hsig. unfold EntityManager.entityExists. method_unfold.
  destruct (N.ltb_spec entity MAX); [|lia]. by rewrite Hsig.
Qed.

Lemma entityExists_out_of_range MAX entity em :
  MAX ≤ entity → EntityManager.entityExists MAX entity em = Ret false em.
Proof.
  intros Hge. unfold EntityManager.entityExists. method_unfold.
  by destruct (N.ltb_spec entity MAX); [lia|].
Qed.

Lemma getEntities_loop_filter MAX n entity acc em :
  (N.to_nat entity + n ≤ length (EntityManager.signatures em))%nat →
  entity + N.of_nat n ≤ MAX →
  EntityManager.getEntities_loop MAX n entity acc em
  = Ret (acc ++ filter (λ e, Is_true (hasSignature em e)) (N_range entity n)) em.
Proof.
  revert entity acc. induction n as [|n IH]; intros entity acc Hlen Hmax.
  - simpl. unfold ret. by rewrite app_nil_r.
  - cbn [EntityManager.getEntities_loop N_range]. unfold bind at 1.
    destruct (lookup_lt_is_Some_2 (EntityManager.signatures em) (N.to_nat entity))
      as [s Hs]; [lia|].
    rewrite (entityExists_in_range MAX entity em s) by (done || lia).
    rewrite IH by lia.
    assert (Hhas : hasSignature em entity = bitset_any s).
    { unfold hasSignature. by rewrite Hs. }
    destruct (bitset_any s).
    + rewrite filter_cons_True by (by rewrite Hhas). by rewrite <- app_assoc.
    + rewrite filter_cons_False; [done|]. rewrite Hhas. by intros [].
Qed.

Lemma filter_N_range_sorted (P : N → Prop) `{!∀ x, Decision (P x)} first n :
  StronglySorted N.lt (filter P (N_range first n)).
Proof.
  revert first. induction n as [|n IH]; intros first; simpl; [constructor|].
  rewrite filter_cons. destruct (decide (P first)); [|apply IH].
  constructor; [apply IH|]. apply Forall_forall. intros x Hx.
  apply list_elem_of_filter in Hx as [_ Hx]. apply elem_of_N_range in Hx. lia.
Qed.

(** X1.  On a manager whose signature array has its [MAX] slots,
    [getEntities] returns, in increasing order and without touching the
    manager, exactly the identifiers for which [entityExists] answers true. *)
Theorem X1_getEntities_lists_existing (MAX : N) (em : EntityManager.t) :
  length (EntityManager.signatures em) = N.to_nat MAX →
  ∃ entities,
    EntityManager.getEntities MAX em = Ret entities em
    ∧ StronglySorted N.lt entities
    ∧ ∀ e, e ∈ entities ↔ EntityManager.entityExists MAX e em = Ret true em.
Proof.
  intros Hlen. eexists. split_and!.
  - unfold EntityManager.getEntities.
    rewrite getEntities_loop_filter by lia. simpl. reflexivity.
  - apply filter_N_range_sorted.
  - intros e. rewrite list_elem_of_filter, elem_of_N_range.
    destruct (decide (e < MAX)) as [Hlt|Hge].
    + destruct (lookup_lt_is_Some_2 (EntityManager.signatures em) (N.to_nat e))
        as [s Hs]; [lia|].
      rewrite (entityExists_in_range MAX e em s) by done.
      unfold hasSignature. rewrite Hs.
      destruct (bitset_any s); simpl.
      * split; [done|]. intros _. split; [done|lia].
      * split; [by intros [[] _]|done].
    + rewrite entityExists_out_of_range by lia. split; [lia|done].
Qed.

(** X1 on a manager of capacity 4 with signatures on identifiers 1 and 3. *)
Lemma X1_getEntities_lists_existing_witness :
  let em := EntityManager.mk [2] [0; 5; 0; 1] 3 in
  ∃ entities,
    EntityManager.getEntities 4 em = Ret entities em
    ∧ entities = [1; 3]
    ∧ StronglySorted N.lt entities
    ∧ ∀ e, e ∈ entities ↔ EntityManager.entityExists 4 e em = Ret true em.
Proof.
  intros em.
  destruct (X1_getEntities_lists_existing 4 em eq_refl) as (l & Hget & Hrest).
  exists l. split; [exact Hget|]. split; [|exact Hrest].
  assert (H : EntityManager.getEntities 4 em = Ret [1; 3] em) by reflexivity.
  rewrite Hget in H. by injection H.
Defined.

Lemma pool_inv_queued MAX w e :
  pool_inv MAX w →
  e ∈ EntityManager.availableEntities (EntityCalls.manager w) →
  e < MAX ∧ (e ∉ EntityCalls.live w)
  ∧ EntityManager.signatures (EntityCalls.manager w) !! N.to_nat e = Some 0.
Proof.
  intros (Hperm & _ & _ & Hzero) He. split_and!; [| |by apply Hzero].
  - assert (Hin : e ∈ N_range 0 (N.to_nat MAX)).
    { rewrite <- Hperm. apply elem_of_app. by left. }
    apply elem_of_N_range in Hin. lia.
  - pose proof (NoDup_N_range 0 (N.to_nat MAX)) as Hall.
    rewrite <- Hperm in Hall. apply NoDup_app in Hall as (_ & Hdisj & _).
    by apply Hdisj.
Qed.

(** X2.  On a manager reached from a fresh one, [createEntity] is never
    undefined.  With fewer than [MAX] live entities it returns an identifier
    below [MAX] that is not live and whose signature is empty, so
    [entityExists] answers false for the new entity; with [MAX] live
    entities it throws the capacity error and leaves the manager as it was. *)
Theorem X2_createEntity_on_reachable_manager (MAX : N)
    (calls : list EntityCalls.call) (w : EntityCalls.world) :
  MAX < UINT32_MOD →
  EntityCalls.signatures_of_live MAX calls (EntityCalls.start MAX) →
  run_calls (EntityCalls.step MAX) calls (EntityCalls.start MAX) = Some w →
  (N.of_nat (length (EntityCalls.live w)) < MAX
   ∧ ∃ id em,
       EntityManager.createEntity MAX (EntityCalls.manager w) = Ret id em
       ∧ id < MAX ∧ (id ∉ EntityCalls.live w)
       ∧ EntityManager.getSignature id em = Ret 0 em
       ∧ EntityManager.entityExists MAX id em = Ret false em)
  ∨ (N.of_nat (length (EntityCalls.live w)) = MAX
     ∧ EntityManager.createEntity MAX (EntityCalls.manager w)
       = Throw too_many_entities (EntityCalls.manager w)).
Proof.
  intros Hmax Hdisc Hrun.
  pose proof (pool_inv_run MAX calls _ w Hmax (pool_inv_start MAX) Hdisc Hrun) as Hinv.
  pose proof (pool_inv_sizes _ _ Hinv) as Hsz.
  pose proof Hinv as (_ & Hcount & _).
  destruct (decide (N.of_nat (length (EntityCalls.live w)) < MAX)) as [Hroom|Hfull].
  - left. split; [done|].
    destruct (pool_inv_create MAX w Hmax Hinv) as (id & rest & Hq & Hc); [lia|].
    destruct (pool_inv_queued MAX w id Hinv) as (Hid & Hlive & Hsig).
    { rewrite Hq. by left. }
    eexists id, _. split; [exact Hc|]. split_and!; [done|done| |].
    + unfold EntityManager.getSignature. method_unfold. by rewrite Hsig.
    + by rewrite (entityExists_in_range MAX id _ 0).
  - right. split; [lia|]. apply createEntity_full. lia.
Qed.

(** X2 on a manager of capacity 2 with one live entity. *)
Lemma X2_createEntity_on_reachable_manager_witness :
  ∃ w,
    run_calls (EntityCalls.step 2) [EntityCalls.Create; EntityCalls.SetSignature 0 1]
      (EntityCalls.start 2) = Some w
    ∧ ∃ id em,
        EntityManager.createEntity 2 (EntityCalls.manager w) = Ret id em
        ∧ id < 2 ∧ (id ∉ EntityCalls.live w)
        ∧ EntityManager.getSignature id em = Ret 0 em
        ∧ EntityManager.entityExists 2 id em = Ret false em.
Proof.
  eexists. split; [vm_compute; reflexivity|].
  match goal with
  | |- context [EntityManager.createEntity 2 (EntityCalls.manager ?w)] =>
      destruct (X2_createEntity_on_reachable_manager 2
                  [EntityCalls.Create; EntityCalls.SetSignature 0 1] w)
        as [[_ H]|[Hfull _]]
  end.
  - reflexivity.
  - simpl. split_and!; try exact I. apply list_elem_of_In. simpl. auto.
  - vm_compute. reflexivity.
  - exact H.
  - vm_compute in Hfull. discriminate Hfull.
Defined.

(** X3.  On a manager reached from a fresh one, an identifier for which
    [entityExists] answers true is live, and [livingEntityCount] is the
    number of live identifiers, at most [MAX]. *)
Theorem X3_existing_entities_are_live (MAX : N)
    (calls : list EntityCalls.call) (w : EntityCalls.world) :
  MAX < UINT32_MOD →
  EntityCalls.signatures_of_live MAX calls (EntityCalls.start MAX) →
  run_calls (EntityCalls.step MAX) calls (EntityCalls.start MAX) = Some w →
  EntityManager.livingEntityCount (EntityCalls.manager w)
    = N.of_nat (length (EntityCalls.live w))
  ∧ EntityManager.livingEntityCount (EntityCalls.manager w) ≤ MAX
  ∧ ∀ e, EntityManager.entityExists MAX e (EntityCalls.manager w)
         = Ret true (EntityCalls.manager w) →
         e ∈ EntityCalls.live w.
Proof.
  intros Hmax Hdisc Hrun.
  pose proof (pool_inv_run MAX calls _ w Hmax (pool_inv_start MAX) Hdisc Hrun) as Hinv.
  pose proof (pool_inv_sizes _ _ Hinv) as Hsz.
  pose proof Hinv as (Hperm & Hcount & Hlen & Hzero).
  split_and!; [done|lia|].
  intros e Hexists.
  destruct (decide (e < MAX)) as [Hlt|Hge].
  2:{ rewrite entityExists_out_of_range in Hexists by lia. discriminate. }
  destruct (lookup_lt_is_Some_2 (EntityManager.signatures (EntityCalls.manager w))
              (N.to_nat e)) as [s Hs]; [lia|].
  rewrite (entityExists_in_range MAX e _ s) in Hexists by done.
  assert (Hin : e ∈ N_range 0 (N.to_nat MAX)) by (apply elem_of_N_range; lia).
  rewrite <- Hperm in Hin. apply elem_of_app in Hin as [Hin|Hin]; [|done].
  apply Hzero in Hin. rewrite Hs in Hin. injection Hin as ->.
  by injection Hexists.
Qed.

(** X3 on a run at capacity 3 with two live entities, one with a signature. *)
Lemma X3_existing_entities_are_live_witness :
  ∃ w,
    run_calls (EntityCalls.step 3)
      [EntityCalls.Create; EntityCalls.Create; EntityCalls.SetSignature 1 6]
      (EntityCalls.start 3) = Some w
    ∧ EntityManager.livingEntityCount (EntityCalls.manager w) = 2
    ∧ EntityManager.entityExists 3 1 (EntityCalls.manager w)
      = Ret true (EntityCalls.manager w)
    ∧ 1 ∈ EntityCalls.live w.
Proof.
  eexists. split; [vm_compute; reflexivity|].
  match goal with
  | |- EntityManager.livingEntityCount (EntityCalls.manager ?w) = _ ∧ _ =>
      destruct (X3_existing_entities_are_live 3
                  [EntityCalls.Create; EntityCalls.Create;
                   EntityCalls.SetSignature 1 6] w)
        as (Hcount & _ & Hlive)
  end.
  - reflexivity.
  - simpl. split_and!; try exact I. apply list_elem_of_In. simpl. auto.
  - vm_compute. reflexivity.
  - split; [exact Hcount|].
    assert (Hex : EntityManager.entityExists 3 1
                    (EntityManager.mk [2] [0; 6; 0] 2)
                  = Ret true (EntityManager.mk [2] [0; 6; 0] 2)) by reflexivity.
    split; [exact Hex|]. apply Hlive. exact Hex.
Defined.

(** X4.  The queue is first-in first-out.  On a manager reached from a
    fresh one, after [destroyEntity(e)] of an entity with a non-empty
    signature the next calls of [createEntity] hand out every identifier that
    was queued before, in queue order, and [e] only after them. *)
Theorem X4_recycled_identifier_is_reused_last (MAX : N)
    (calls : list EntityCalls.call) (w : EntityCalls.world) (e : Entity)
    (s : Signature) :
  MAX < UINT32_MOD →
  EntityCalls.signatures_of_live MAX calls (EntityCalls.start MAX) →
  run_calls (EntityCalls.step MAX) calls (EntityCalls.start MAX) = Some w →
  EntityManager.signatures (EntityCalls.manager w) !! N.to_nat e = Some s →
  s ≠ 0 →
  let queue := EntityManager.availableEntities (EntityCalls.manager w) in
  ∃ em,
    (EntityManager.destroyEntity e;; createEntities MAX (S (length queue)))
      (EntityCalls.manager w)
    = Ret (queue ++ [e]) em.
Proof.
  intros Hmax Hdisc Hrun Hsig Hs queue.
  pose proof (pool_inv_run MAX calls _ w Hmax (pool_inv_start MAX) Hdisc Hrun) as Hinv.
  pose proof (pool_inv_sizes _ _ Hinv) as Hsz.
  pose proof Hinv as (Hperm & Hcount & Hlen & Hzero).
  assert (He : e ∈ EntityCalls.live w).
  { assert (Hin : e ∈ N_range 0 (N.to_nat MAX)).
    { apply elem_of_N_range. apply lookup_lt_Some in Hsig. lia. }
    rewrite <- Hperm in Hin. apply elem_of_app in Hin as [Hin|Hin]; [|done].
    apply Hzero in Hin. congruence. }
  assert (Hpos : (0 < length (EntityCalls.live w))%nat).
  { destruct (EntityCalls.live w); [by apply elem_of_nil in He|simpl; lia]. }
  eexists. unfold bind.
  rewrite (destroyEntity_recycle e _ s) by (done || lia).
  fold queue. replace (S (length queue)) with (length (queue ++ [e]))
    by (rewrite length_app; simpl; lia).
  rewrite createEntities_drain; [reflexivity| |done].
  rewrite decr32_small by lia. rewrite length_app. simpl. subst queue. lia.
Qed.

(** X4 at capacity 3: identifier 0 is destroyed while 2 is still queued. *)
Lemma X4_recycled_identifier_is_reused_last_witness :
  ∃ w em,
    run_calls (EntityCalls.step 3)
      [EntityCalls.Create; EntityCalls.Create; EntityCalls.SetSignature 0 1]
      (EntityCalls.start 3) = Some w
    ∧ EntityManager.availableEntities (EntityCalls.manager w) = [2]
    ∧ (EntityManager.destroyEntity 0;; createEntities 3 2) (EntityCalls.manager w)
      = Ret [2; 0] em.
Proof.
  eexists.
  match goal with
  | |- ∃ em, run_calls _ ?calls _ = Some ?w ∧ _ =>
      assert (Hrun : run_calls (EntityCalls.step 3) calls (EntityCalls.start 3)
                     = Some w) by (vm_compute; reflexivity);
      destruct (X4_recycled_identifier_is_reused_last 3 calls w 0 1) as [em Hem]
  end.
  - reflexivity.
  - simpl. split_and!; try exact I. apply list_elem_of_In. simpl. auto.
  - exact Hrun.
  - reflexivity.
  - discriminate.
  - exists em. split; [exact Hrun|]. split; [reflexivity|exact Hem].
Defined.

(** X5.  Writing a signature and reading it back: for an identifier inside
    the array, [setSignature(e, s)] followed by [getSignature(e)] returns [s];
    the queue, the counter and the signature of every other identifier are
    as before. *)
Theorem X5_setSignature_getSignature (em : EntityManager.t) (e : Entity)
    (s old : Signature) :
  EntityManager.signatures em !! N.to_nat e = Some old →
  ∃ em',
    EntityManager.setSignature e s em = Ret tt em'
    ∧ EntityManager.getSignature e em' = Ret s em'
    ∧ EntityManager.availableEntities em' = EntityManager.availableEntities em
    ∧ EntityManager.livingEntityCount em' = EntityManager.livingEntityCount em
    ∧ ∀ other, other ≠ e →
        EntityManager.signatures em' !! N.to_nat other
        = EntityManager.signatures em !! N.to_nat other.
Proof.
  intros Hsig. eexists. split; [by apply (setSignature_in_range e s em old)|].
  split_and!; [|done|done|].
  - unfold EntityManager.getSignature. method_unfold.
    rewrite list_lookup_insert_eq; [done|]. by apply lookup_lt_Some in Hsig.
  - intros other Hne. simpl. apply list_lookup_insert_ne. lia.
Qed.

(** X5 on a manager of capacity 3. *)
Lemma X5_setSignature_getSignature_witness :
  let em := EntityManager.mk [2] [4; 1; 0] 2 in
  ∃ em',
    EntityManager.setSignature 1 9 em = Ret tt em'
    ∧ EntityManager.getSignature 1 em' = Ret 9 em'
    ∧ EntityManager.signatures em' !! N.to_nat 0 = Some 4.
Proof.
  intros em.
  destruct (X5_setSignature_getSignature em 1 9 1 eq_refl)
    as (em' & Hset & Hget & _ & _ & Hothers).
  exists em'. split; [exact Hset|]. split; [exact Hget|].
  rewrite (Hothers 0); [reflexivity|discriminate].
Defined.

(** ** ComponentManager *)

Lemma umap_index_present `{Countable K} {V} (dflt v : V) (k : K) (m : gmap K V) :
  m !! k = Some v → umap_index dflt k m = (v, m).
Proof. intros Hk. unfold umap_index. by rewrite Hk. Qed.

Lemma umap_insert_absent `{Countable K} {V} (k : K) (v : V) (m : gmap K V) :
  m !! k = None → umap_insert k v m = <[k := v]> m.
Proof. intros Hk. unfold umap_insert. by rewrite Hk. Qed.

Lemma incr8_bound n : incr8 n < UINT8_MOD.
Proof. unfold incr8. by apply N.mod_lt. Qed.

Lemma register_sequence {Component : Type} (Ts : list type_index)
    (cm0 : ComponentManager.t Component) :
  NoDup Ts →
  (∀ T, T ∈ Ts → ComponentManager.componentTypes cm0 !! T = None) →
  ComponentManager.nextComponentType cm0 < UINT8_MOD →
  ∃ cm,
    run_calls ComponentCalls.step (ComponentCalls.RegisterComponent <$> Ts) cm0
    = Some cm
    ∧ ∀ i T, Ts !! i = Some T →
        ComponentManager.componentTypes cm !! T
        = Some ((ComponentManager.nextComponentType cm0 + N.of_nat i) mod UINT8_MOD).
Proof.
  revert cm0. induction Ts as [|T Ts IH]; intros cm0 Hnd Hfresh Hnext.
  - eexists. split; [done|]. intros i T Hi. by rewrite lookup_nil in Hi.
  - apply NoDup_cons in Hnd as [HT Hnd].
    rewrite fmap_cons. cbn [run_calls].
    destruct (ComponentCalls.step (ComponentCalls.RegisterComponent T) cm0)
      as [cm1|] eqn:Hstep; [|discriminate Hstep].
    pose proof (step_types _ _ _ Hstep) as [Htypes Hnext1].
    destruct (IH cm1) as (cm & Hrun & Hids); [done| | |].
    { intros U HU. rewrite Htypes, umap_insert_lookup.
      rewrite Hfresh by (by right). rewrite decide_False; [done|].
      by intros ->. }
    { rewrite Hnext1. apply incr8_bound. }
    exists cm. split; [done|]. intros [|i] U Hi; simpl in Hi.
    + injection Hi as <-. eapply (run_keeps_id _ cm1 cm); [exact Hrun|].
      rewrite Htypes, umap_insert_lookup.
      rewrite Hfresh by (by left). rewrite decide_True by done.
      f_equal. rewrite N.add_0_r. symmetry. by apply N.mod_small.
    + rewrite (Hids i U Hi). f_equal. rewrite Hnext1. unfold incr8.
      rewrite N.Div0.add_mod_idemp_l. f_equal. lia.
Qed.

(** X6.  Identifiers follow the registration order: when pairwise different
    component types are registered on a fresh manager, the type registered at
    position [i] (from 0) gets the identifier [i] modulo 256, so the 257th
    type shares identifier 0 with the first. *)
Theorem X6_identifiers_follow_registration_order {Component : Type}
    (Ts : list type_index) :
  NoDup Ts →
  ∃ cm : ComponentManager.t Component,
    run_calls ComponentCalls.step (ComponentCalls.RegisterComponent <$> Ts)
      ComponentManager.new = Some cm
    ∧ ∀ i T, Ts !! i = Some T →
        ComponentManager.getComponentTypeID T cm
        = Ret (N.of_nat i mod UINT8_MOD) cm.
Proof.
  intros Hnd.
  destruct (register_sequence Ts (ComponentManager.new (Component := Component)))
    as (cm & Hrun & Hids); [done|done|done|].
  exists cm. split; [done|]. intros i T Hi.
  apply getComponentTypeID_present. by rewrite (Hids i T Hi).
Qed.

(** X6 for three component types. *)
Lemma X6_identifiers_follow_registration_order_witness :
  ∃ cm : ComponentManager.t N,
    run_calls ComponentCalls.step
      (ComponentCalls.RegisterComponent <$> ["Position"; "Velocity"; "Render"])
      ComponentManager.new = Some cm
    ∧ ComponentManager.getComponentTypeID "Render" cm = Ret 2 cm.
Proof.
  destruct (X6_identifiers_follow_registration_order (Component := N)
              ["Position"; "Velocity"; "Render"]) as (cm & Hrun & Hids).
  - repeat (apply NoDup_cons; split;
            [intros Hin; repeat (apply elem_of_cons in Hin as [Hin|Hin];
                                 [discriminate Hin|]);
             by apply elem_of_nil in Hin|]).
    apply NoDup_nil. exact I.
  - exists cm. split; [exact Hrun|]. exact (Hids 2%nat "Render" eq_refl).
Defined.

(** ** SystemManager *)

(** X7.  Registering and fetching a system.  For a type without a system,
    [registerSystem<T>()] stores a new system with no entities and
    [getSystem<T>()] returns it; before the registration [getSystem<T>()]
    throws [std::out_of_range].  For a type that has a system,
    [registerSystem<T>()] leaves the manager as it was and returns a new
    empty system, while [getSystem<T>()] goes on returning the stored one. *)
Theorem X7_registerSystem_getSystem (sm : SystemManager.t) (T : type_index) :
  (SystemManager.systems sm !! T = None →
     SystemManager.getSystem T sm = Throw out_of_range sm
     ∧ (SystemManager.registerSystem T;; SystemManager.getSystem T) sm
       = Ret System.new
           (SystemManager.mk (SystemManager.signatures sm)
              (<[T := System.new]> (SystemManager.systems sm))))
  ∧ (∀ system, SystemManager.systems sm !! T = Some system →
       SystemManager.registerSystem T sm = Ret System.new sm
       ∧ SystemManager.getSystem T sm = Ret system sm).
Proof.
  split.
  - intros Hnone. split.
    + unfold SystemManager.getSystem. method_unfold. by rewrite Hnone.
    + unfold SystemManager.registerSystem, SystemManager.getSystem.
      method_unfold. rewrite (umap_insert_absent T) by done.
      by rewrite lookup_insert_eq.
  - intros system Hsome. split.
    + unfold SystemManager.registerSystem. method_unfold.
      rewrite (umap_insert_present T _ system) by done. by destruct sm.
    + unfold SystemManager.getSystem. method_unfold. by rewrite Hsome.
Qed.

(** X7 on a manager that has a [Physics] system with two entities. *)
Lemma X7_registerSystem_getSystem_witness :
  let sm := SystemManager.mk {["Physics" := 3]}
              {["Physics" := System.mk {[1; 4]}]} in
  SystemManager.getSystem "Audio" sm = Throw out_of_range sm
  ∧ SystemManager.registerSystem "Physics" sm = Ret System.new sm
  ∧ SystemManager.getSystem "Physics" sm = Ret (System.mk {[1; 4]}) sm.
Proof.
  intros sm.
  destruct (X7_registerSystem_getSystem sm "Audio") as [Hfresh _].
  destruct (X7_registerSystem_getSystem sm "Physics") as [_ Hkept].
  destruct (Hfresh eq_refl) as [Hthrow _].
  destruct (Hkept (System.mk {[1; 4]}) eq_refl) as [Hreg Hget].
  split; [exact Hthrow|]. split; [exact Hreg|exact Hget].
Defined.

Lemma rematched_twice sm sm' entity entitySignature S system :
  requiredSignature sm' S = requiredSignature sm S →
  rematched sm' entity entitySignature S (rematched sm entity entitySignature S system)
  = rematched sm entity entitySignature S system.
Proof.
  intros Hreq. unfold rematched. rewrite Hreq.
  destruct (_ =? _).
  - apply entities_insert_present. apply entities_insert_member. by left.
  - apply entities_erase_absent. rewrite entities_erase_member. by intros [_ ?].
Qed.

(** X8.  [entitySignatureChanged] is idempotent: a second call with the same
    entity and signature leaves the manager exactly as the first call left
    it. *)
Theorem X8_entitySignatureChanged_idempotent (sm sm1 : SystemManager.t)
    (e : Entity) (s : Signature) :
  SystemManager.entitySignatureChanged e s sm = Ret tt sm1 →
  SystemManager.entitySignatureChanged e s sm1 = Ret tt sm1.
Proof.
  intros Hfirst. rewrite entitySignatureChanged_returns. f_equal.
  set (sm2 := map_fold _ _ _).
  assert (Hsecond : SystemManager.entitySignatureChanged e s sm1 = Ret tt sm2)
    by done.
  assert (Hsigs : SystemManager.signatures sm2 = SystemManager.signatures sm1).
  { apply map_eq. intros S.
    rewrite (entitySignatureChanged_signatures e s sm1 sm2 S Hsecond).
    destruct (SystemManager.signatures sm1 !! S) eqn:H1; [done|].
    rewrite (entitySignatureChanged_systems e s sm sm1 S Hfirst).
    rewrite (entitySignatureChanged_signatures e s sm sm1 S Hfirst) in H1.
    destruct (SystemManager.signatures sm !! S); [done|].
    by destruct (SystemManager.systems sm !! S). }
  assert (Hsys : SystemManager.systems sm2 = SystemManager.systems sm1).
  { apply map_eq. intros S.
    rewrite (entitySignatureChanged_systems e s sm1 sm2 S Hsecond).
    rewrite (entitySignatureChanged_systems e s sm sm1 S Hfirst).
    destruct (SystemManager.systems sm !! S) as [system|] eqn:HS; [|done].
    simpl. f_equal. apply rematched_twice.
    pose proof (entitySignatureChanged_signatures e s sm sm1 S Hfirst) as H1.
    rewrite HS in H1.
    destruct (SystemManager.signatures sm !! S) as [sigS|] eqn:Hsig.
    - by rewrite (requiredSignature_declared sm1 S sigS),
                 (requiredSignature_declared sm S sigS).
    - by rewrite (requiredSignature_declared sm1 S 0),
                 (requiredSignature_undeclared sm S). }
  destruct sm1, sm2. simpl in *. by subst.
Qed.

(** X8 on a manager with a declared and an undeclared system. *)
Lemma X8_entitySignatureChanged_idempotent_witness :
  let sm := SystemManager.mk {["Physics" := 3]}
              {["Physics" := System.mk {[1]}; "Audio" := System.new]} in
  ∃ sm1,
    SystemManager.entitySignatureChanged 1 2 sm = Ret tt sm1
    ∧ SystemManager.entitySignatureChanged 1 2 sm1 = Ret tt sm1
    ∧ sm1 ≠ sm.
Proof.
  intros sm. eexists. split; [vm_compute; reflexivity|]. split.
  - apply (X8_entitySignatureChanged_idempotent sm). vm_compute. reflexivity.
  - intros Heq. apply (f_equal (λ m, SystemManager.signatures m !! "Audio")) in Heq.
    vm_compute in Heq. discriminate Heq.
Defined.

(** ** Coordinator: components of an entity *)

Lemma setbit_nonzero (s pos : N) : N.setbit s pos ≠ 0.
Proof.
  intros Heq. pose proof (N.setbit_eq s pos) as Hbit.
  rewrite Heq in Hbit. by rewrite N.bits_0 in Hbit.
Qed.

Section RegisteredTypes.
Context {Component : Type}.
Implicit Types (co : Coordinator.t Component) (T U S : type_index).

Lemma typeID_registered (cm : ComponentManager.t Component) T id :
  ComponentManager.componentTypes cm !! T = Some id → typeID cm T = id.
Proof. intros Hid. unfold typeID. by rewrite (umap_index_present 0 id). Qed.

Lemma addComponent_registered T entity component co id storage sig :
  ComponentManager.componentTypes (Coordinator.componentManager co) !! T = Some id →
  ComponentManager.ComponentStorages (Coordinator.componentManager co) !! T
    = Some storage →
  signatureOf co entity = Some sig →
  id < MAX_COMPONENTS →
  let cm := Coordinator.componentManager co in
  let em := Coordinator.entityManager co in
  let sm := Coordinator.systemManager co in
  Coordinator.addComponent T entity component co
  = Ret tt
      (Coordinator.mk
         (ComponentManager.mk (ComponentManager.componentTypes cm)
            (<[T := umap_insert entity component storage]>
               (ComponentManager.ComponentStorages cm))
            (ComponentManager.nextComponentType cm))
         (EntityManager.mk (EntityManager.availableEntities em)
            (<[N.to_nat entity := N.setbit sig id]> (EntityManager.signatures em))
            (EntityManager.livingEntityCount em))
         (map_fold (SystemManager.signature_changed_body entity (N.setbit sig id))
            sm (SystemManager.systems sm))).
Proof.
  intros Hid Hstorage Hsig Hlt. cbv zeta.
  rewrite (Coordinator_addComponent_steps T entity component co storage sig)
    by done.
  rewrite (typeID_registered _ T id) by done.
  rewrite (umap_index_present 0 id) by done. simpl.
  by destruct (N.ltb_spec id MAX_COMPONENTS); [|lia].
Qed.

Lemma removeComponent_registered T entity co id storage sig :
  ComponentManager.componentTypes (Coordinator.componentManager co) !! T = Some id →
  ComponentManager.ComponentStorages (Coordinator.componentManager co) !! T
    = Some storage →
  signatureOf co entity = Some sig →
  let cm := Coordinator.componentManager co in
  let em := Coordinator.entityManager co in
  let sm := Coordinator.systemManager co in
  let cm' :=
    ComponentManager.mk (ComponentManager.componentTypes cm)
      (<[T := delete entity storage]> (ComponentManager.ComponentStorages cm))
      (ComponentManager.nextComponentType cm) in
  Coordinator.removeComponent T entity co
  = if id <? MAX_COMPONENTS
    then Ret tt
           (Coordinator.mk cm'
              (EntityManager.mk (EntityManager.availableEntities em)
                 (<[N.to_nat entity := N.clearbit sig id]>
                    (EntityManager.signatures em))
                 (EntityManager.livingEntityCount em))
              (map_fold
                 (SystemManager.signature_changed_body entity (N.clearbit sig id))
                 sm (SystemManager.systems sm)))
    else Throw out_of_range (Coordinator.mk cm' em sm).
Proof.
  intros Hid Hstorage Hsig. unfold signatureOf in Hsig. cbv zeta.
  unfold Coordinator.removeComponent, Coordinator.onComponentManager,
    Coordinator.onEntityManager, Coordinator.onSystemManager,
    ComponentManager.removeComponent, ComponentManager.GetComponentStorage,
    ComponentManager.getComponentTypeID, ComponentStorage.removeData,
    EntityManager.getSignature, EntityManager.setSignature,
    SystemManager.entitySignatureChanged, bitset_set.
  method_unfold. rewrite Hstorage. simpl. rewrite Hsig. simpl.
  rewrite (umap_index_present 0 id) by done. simpl.
  destruct (id <? MAX_COMPONENTS); simpl; [|done].
  by rewrite Hsig.
Qed.

Lemma hasComponent_registered T entity co id sig :
  ComponentManager.componentTypes (Coordinator.componentManager co) !! T = Some id →
  signatureOf co entity = Some sig →
  Coordinator.hasComponent T entity co
  = if id <? MAX_COMPONENTS then Ret (N.testbit sig id) co
    else Throw out_of_range co.
Proof.
  intros Hid Hsig. unfold signatureOf in Hsig.
  unfold Coordinator.hasComponent, Coordinator.onComponentManager,
    Coordinator.onEntityManager, ComponentManager.getComponentTypeID,
    EntityManager.getSignature, bitset_test.
  method_unfold. rewrite Hsig. simpl.
  rewrite (umap_index_present 0 id) by done. simpl.
  destruct co as [[] [] []]. simpl. by destruct (id <? MAX_COMPONENTS).
Qed.

Lemma getComponent_registered T entity co storage :
  ComponentManager.ComponentStorages (Coordinator.componentManager co) !! T
    = Some storage →
  Coordinator.getComponent T entity co
  = match storage !! entity with
    | Some component => Ret component co
    | None => Throw out_of_range co
    end.
Proof.
  intros Hstorage.
  unfold Coordinator.getComponent, Coordinator.onComponentManager,
    ComponentManager.getComponent, ComponentManager.GetComponentStorage,
    ComponentStorage.getData.
  method_unfold. rewrite Hstorage. simpl.
  destruct (storage !! entity); simpl;
    rewrite insert_id by done; by destruct co as [[] ? ?].
Qed.

Lemma entityExists_signature MAX entity co sig :
  signatureOf co entity = Some sig → entity < MAX →
  Coordinator.entityExists MAX entity co = Ret (bitset_any sig) co.
Proof.
  intros Hsig Hlt. unfold Coordinator.entityExists, Coordinator.onEntityManager, zoom.
  rewrite (entityExists_in_range MAX entity _ sig) by done. by destruct co.
Qed.

Lemma signatureOf_set co entity old signature other
    (cm : ComponentManager.t Component) queue count sm :
  signatureOf co entity = Some old →
  signatureOf
    (Coordinator.mk cm
       (EntityManager.mk queue
          (<[N.to_nat entity := signature]>
             (EntityManager.signatures (Coordinator.entityManager co)))
          count) sm) other
  = if decide (other = entity) then Some signature else signatureOf co other.
Proof.
  intros Hsig. unfold signatureOf in *. simpl. case_decide as Hother.
  - subst. apply list_lookup_insert_eq. by apply lookup_lt_Some in Hsig.
  - apply list_lookup_insert_ne. lia.
Qed.

Lemma componentOf_insert co T storage storage' U entity cm_types cm_next em sm :
  ComponentManager.ComponentStorages (Coordinator.componentManager co) !! T
    = Some storage →
  componentOf
    (Coordinator.mk
       (ComponentManager.mk cm_types
          (<[T := storage']> (ComponentManager.ComponentStorages
                                (Coordinator.componentManager co)))
          cm_next) em sm) U entity
  = if decide (T = U) then storage' !! entity else componentOf co U entity.
Proof.
  intros Hstorage. unfold componentOf. simpl. rewrite lookup_insert.
  by case_decide.
Qed.
End RegisteredTypes.

(** X9.  [addComponent<T>(e, v)] for a registered type whose identifier is a
    signature bit and an identifier [e] inside the signature array: the call
    returns; [e] then has a component of type [T] (the one it had, or [v] if
    it had none), the bit of [T] in its signature, [hasComponent<T>(e)] and
    [entityExists(e)] answer true, and [e] is in the entity set of a
    registered system exactly when its new signature has the bits the system
    requires.  The components and signatures of other entities, and the
    other components of [e], are untouched. *)
Theorem X9_addComponent_effect {Component : Type} (MAX : N)
    (co : Coordinator.t Component) (T : type_index) (e : Entity) (v : Component)
    (id : ComponentTypeID) (storage : gmap Entity Component) (sig : Signature) :
  ComponentManager.componentTypes (Coordinator.componentManager co) !! T = Some id →
  ComponentManager.ComponentStorages (Coordinator.componentManager co) !! T
    = Some storage →
  signatureOf co e = Some sig →
  id < MAX_COMPONENTS →
  ∃ co',
    Coordinator.addComponent T e v co = Ret tt co'
    ∧ componentOf co' T e = Some (default v (componentOf co T e))
    ∧ signatureOf co' e = Some (N.setbit sig id)
    ∧ Coordinator.hasComponent T e co' = Ret true co'
    ∧ (e < MAX → Coordinator.entityExists MAX e co' = Ret true co')
    ∧ (∀ U other, U ≠ T ∨ other ≠ e →
         componentOf co' U other = componentOf co U other)
    ∧ (∀ other, other ≠ e → signatureOf co' other = signatureOf co other)
    ∧ (∀ S system,
         SystemManager.systems (Coordinator.systemManager co) !! S = Some system →
         let sigS := requiredSignature (Coordinator.systemManager co) S in
         ∃ system',
           SystemManager.systems (Coordinator.systemManager co') !! S = Some system'
           ∧ (e ∈ System.entities system' ↔ N.land (N.setbit sig id) sigS = sigS)
           ∧ ∀ other, other ≠ e →
               other ∈ System.entities system' ↔ other ∈ System.entities system).
Proof.
  intros Hid Hstorage Hsig Hlt.
  pose proof (addComponent_registered T e v co id storage sig Hid Hstorage Hsig Hlt)
    as Hadd. cbv zeta in Hadd.
  eexists. split; [exact Hadd|].
  pose proof (λ other cm queue count sm,
                signatureOf_set co e sig (N.setbit sig id) other cm queue count sm Hsig)
    as Hsig'.
  split_and!.
  - rewrite (componentOf_insert co T storage) by done. rewrite decide_True by done.
    rewrite umap_insert_lookup. unfold componentOf. rewrite Hstorage. simpl.
    destruct (storage !! e); [done|]. by rewrite decide_True.
  - by rewrite Hsig', decide_True.
  - rewrite (hasComponent_registered T e _ id (N.setbit sig id)).
    + destruct (N.ltb_spec id MAX_COMPONENTS); [|lia]. by rewrite N.setbit_eq.
    + done.
    + by rewrite Hsig', decide_True.
  - intros He. rewrite (entityExists_signature MAX e _ (N.setbit sig id)).
    + unfold bitset_any. by destruct (N.eqb_spec (N.setbit sig id) 0) as
        [?%setbit_nonzero|].
    + by rewrite Hsig', decide_True.
    + done.
  - intros U other Hother.
    rewrite (componentOf_insert co T storage) by done.
    case_decide as HTU; [|done]. subst U.
    destruct Hother as [?|Hother]; [done|].
    rewrite umap_insert_lookup. unfold componentOf. rewrite Hstorage. simpl.
    destruct (storage !! other); [done|]. rewrite decide_False; [done|].
    by intros ->.
  - intros other Hother. by rewrite Hsig', decide_False.
  - intros S system HS sigS. subst sigS.
    exists (rematched (Coordinator.systemManager co) e (N.setbit sig id) S system).
    simpl. split_and!.
    + by rewrite (entitySignatureChanged_systems e (N.setbit sig id)
                    (Coordinator.systemManager co) _ S eq_refl), HS.
    + apply rematched_member.
    + intros other Hne. by apply rematched_others.
Qed.

(** X9 for an entity that gets [Velocity] in addition to [Position]. *)
Lemma X9_addComponent_effect_witness :
  let co : Coordinator.t N :=
    Coordinator.mk
      (ComponentManager.mk {["Position" := 0; "Velocity" := 1]}
         {["Position" := {[0 := 10]}; "Velocity" := ∅]} 2)
      (EntityManager.mk [1; 2] [1; 0; 0] 1)
      (SystemManager.mk {["Physics" := 3]} {["Physics" := System.new]}) in
  ∃ co',
    Coordinator.addComponent "Velocity" 0 7 co = Ret tt co'
    ∧ componentOf co' "Velocity" 0 = Some 7
    ∧ signatureOf co' 0 = Some 3
    ∧ Coordinator.hasComponent "Velocity" 0 co' = Ret true co'
    ∧ Coordinator.entityExists 3 0 co' = Ret true co'
    ∧ componentOf co' "Position" 0 = Some 10.
Proof.
  intros co.
  destruct (X9_addComponent_effect 3 co "Velocity" 0 7 1 ∅ 1)
    as (co' & Hadd & Hcomp & Hsig & Hhas & Hexists & Hframe & _);
    [reflexivity..|].
  exists co'. split; [exact Hadd|]. split; [exact Hcomp|]. split; [exact Hsig|].
  split; [exact Hhas|]. split; [apply Hexists; reflexivity|].
  rewrite (Hframe "Position" 0); [reflexivity|]. left. discriminate.
Defined.

(** X10.  [tryGetComponent<T>(e)] for a registered type whose identifier is
    a signature bit: without the bit of [T] in the signature of [e] it
    returns the null pointer; with the bit it returns the stored component;
    with the bit but no entry in the store of [T] it throws
    [std::out_of_range] like [getComponent].  The coordinator is unchanged
    in every case. *)
Theorem X10_tryGetComponent_cases {Component : Type}
    (co : Coordinator.t Component) (T : type_index) (e : Entity)
    (id : ComponentTypeID) (storage : gmap Entity Component) (sig : Signature) :
  ComponentManager.componentTypes (Coordinator.componentManager co) !! T = Some id →
  ComponentManager.ComponentStorages (Coordinator.componentManager co) !! T
    = Some storage →
  signatureOf co e = Some sig →
  id < MAX_COMPONENTS →
  (N.testbit sig id = false → Coordinator.tryGetComponent T e co = Ret None co)
  ∧ (∀ v, N.testbit sig id = true → storage !! e = Some v →
       Coordinator.tryGetComponent T e co = Ret (Some v) co)
  ∧ (N.testbit sig id = true → storage !! e = None →
       Coordinator.tryGetComponent T e co = Throw out_of_range co).
Proof.
  intros Hid Hstorage Hsig Hlt.
  assert (Htry : Coordinator.tryGetComponent T e co
                 = if N.testbit sig id
                   then match storage !! e with
                        | Some v => Ret (Some v) co
                        | None => Throw out_of_range co
                        end
                   else Ret None co).
  { unfold Coordinator.tryGetComponent, bind.
    rewrite (hasComponent_registered T e co id sig) by done.
    destruct (N.ltb_spec id MAX_COMPONENTS); [|lia].
    destruct (N.testbit sig id); [|done].
    rewrite (getComponent_registered T e co storage) by done.
    by destruct (storage !! e). }
  rewrite Htry. split_and!.
  - by intros ->.
  - by intros v -> ->.
  - by intros -> ->.
Qed.

(** X10 for an entity with [Position] and without [Velocity]. *)
Lemma X10_tryGetComponent_cases_witness :
  let co : Coordinator.t N :=
    Coordinator.mk
      (ComponentManager.mk {["Position" := 0; "Velocity" := 1]}
         {["Position" := {[0 := 10]}; "Velocity" := ∅]} 2)
      (EntityManager.mk [1; 2] [1; 0; 0] 1)
      SystemManager.new in
  Coordinator.tryGetComponent "Position" 0 co = Ret (Some 10) co
  ∧ Coordinator.tryGetComponent "Velocity" 0 co = Ret None co.
Proof.
  intros co.
  destruct (X10_tryGetComponent_cases co "Position" 0 0 {[0 := 10]} 1)
    as (_ & Hsome & _); [reflexivity..|].
  destruct (X10_tryGetComponent_cases co "Velocity" 0 1 ∅ 1)
    as (Hnone & _ & _); [reflexivity..|].
  split; [apply Hsome; reflexivity|apply Hnone; reflexivity].
Defined.

(** X11.  [removeComponent<T>(e)] for a registered type whose identifier is
    a signature bit and an identifier [e] inside the signature array: the
    call returns whether or not [e] had the component; afterwards [e] has no
    component of type [T], the bit of [T] is cleared, [hasComponent<T>(e)]
    answers false, [getComponent<T>(e)] throws [std::out_of_range],
    [tryGetComponent<T>(e)] returns the null pointer, and [e] is in the
    entity set of a registered system exactly when the remaining signature
    has the bits the system requires.  Other entities and the other
    components of [e] are untouched. *)
Theorem X11_removeComponent_effect {Component : Type}
    (co : Coordinator.t Component) (T : type_index) (e : Entity)
    (id : ComponentTypeID) (storage : gmap Entity Component) (sig : Signature) :
  ComponentManager.componentTypes (Coordinator.componentManager co) !! T = Some id →
  ComponentManager.ComponentStorages (Coordinator.componentManager co) !! T
    = Some storage →
  signatureOf co e = Some sig →
  id < MAX_COMPONENTS →
  ∃ co',
    Coordinator.removeComponent T e co = Ret tt co'
    ∧ componentOf co' T e = None
    ∧ signatureOf co' e = Some (N.clearbit sig id)
    ∧ Coordinator.hasComponent T e co' = Ret false co'
    ∧ Coordinator.getComponent T e co' = Throw out_of_range co'
    ∧ Coordinator.tryGetComponent T e co' = Ret None co'
    ∧ (∀ U other, U ≠ T ∨ other ≠ e →
         componentOf co' U other = componentOf co U other)
    ∧ (∀ other, other ≠ e → signatureOf co' other = signatureOf co other)
    ∧ (∀ S system,
         SystemManager.systems (Coordinator.systemManager co) !! S = Some system →
         let sigS := requiredSignature (Coordinator.systemManager co) S in
         ∃ system',
           SystemManager.systems (Coordinator.systemManager co') !! S = Some system'
           ∧ (e ∈ System.entities system' ↔ N.land (N.clearbit sig id) sigS = sigS)
           ∧ ∀ other, other ≠ e →
               other ∈ System.entities system' ↔ other ∈ System.entities system).
Proof.
  intros Hid Hstorage Hsig Hlt.
  pose proof (removeComponent_registered T e co id storage sig Hid Hstorage Hsig)
    as Hremove. cbv zeta in Hremove.
  destruct (N.ltb_spec id MAX_COMPONENTS); [|lia].
  eexists. split; [exact Hremove|].
  pose proof (λ other cm queue count sm,
                signatureOf_set co e sig (N.clearbit sig id) other cm queue count sm Hsig)
    as Hsig'.
  assert (Hbit : N.testbit (N.clearbit sig id) id = false) by apply N.clearbit_eq.
  match goal with
  | |- componentOf ?co' _ _ = _ ∧ _ =>
      assert (Hhas : Coordinator.hasComponent T e co' = Ret false co')
  end.
  { rewrite (hasComponent_registered T e _ id (N.clearbit sig id)).
    - destruct (N.ltb_spec id MAX_COMPONENTS); [|lia]. by rewrite Hbit.
    - done.
    - by rewrite Hsig', decide_True. }
  split_and!.
  - rewrite (componentOf_insert co T storage) by done. rewrite decide_True by done.
    apply lookup_delete_eq.
  - by rewrite Hsig', decide_True.
  - exact Hhas.
  - rewrite (getComponent_registered T e _ (delete e storage)).
    + by rewrite lookup_delete_eq.
    + simpl. apply lookup_insert_eq.
  - unfold Coordinator.tryGetComponent, bind. by rewrite Hhas.
  - intros U other Hother.
    rewrite (componentOf_insert co T storage) by done.
    case_decide as HTU; [|done]. subst U.
    destruct Hother as [?|Hother]; [done|].
    rewrite lookup_delete_ne by done. unfold componentOf. by rewrite Hstorage.
  - intros other Hother. by rewrite Hsig', decide_False.
  - intros S system HS sigS. subst sigS.
    exists (rematched (Coordinator.systemManager co) e (N.clearbit sig id) S system).
    simpl. split_and!.
    + by rewrite (entitySignatureChanged_systems e (N.clearbit sig id)
                    (Coordinator.systemManager co) _ S eq_refl), HS.
    + apply rematched_member.
    + intros other Hne. by apply rematched_others.
Qed.

(** X11 for an entity that loses [Position] and leaves the [Physics] set. *)
Lemma X11_removeComponent_effect_witness :
  let co : Coordinator.t N :=
    Coordinator.mk
      (ComponentManager.mk {["Position" := 0; "Velocity" := 1]}
         {["Position" := {[0 := 10]}; "Velocity" := {[0 := 7]}]} 2)
      (EntityManager.mk [1; 2] [3; 0; 0] 1)
      (SystemManager.mk {["Physics" := 3]} {["Physics" := System.mk {[0]}]}) in
  ∃ co',
    Coordinator.removeComponent "Position" 0 co = Ret tt co'
    ∧ componentOf co' "Position" 0 = None
    ∧ signatureOf co' 0 = Some 2
    ∧ Coordinator.hasComponent "Position" 0 co' = Ret false co'
    ∧ Coordinator.tryGetComponent "Position" 0 co' = Ret None co'
    ∧ componentOf co' "Velocity" 0 = Some 7
    ∧ SystemManager.systems (Coordinator.systemManager co') !! "Physics"
      = Some (System.mk ∅).
Proof.
  intros co.
  destruct (X11_removeComponent_effect co "Position" 0 0 {[0 := 10]} 3)
    as (co' & Hremove & Hcomp & Hsig & Hhas & _ & Htry & Hframe & _);
    [reflexivity..|].
  exists co'. split; [exact Hremove|]. split; [exact Hcomp|]. split; [exact Hsig|].
  split; [exact Hhas|]. split; [exact Htry|]. split.
  - rewrite (Hframe "Velocity" 0); [reflexivity|]. left. discriminate.
  - assert (H : after (Coordinator.removeComponent "Position" 0 co) = Some co')
      by (by rewrite Hremove).
    vm_compute in H. injection H as <-. vm_compute. reflexivity.
Defined.

Lemma clearbit_setbit (s pos : N) :
  N.testbit s pos = false → N.clearbit (N.setbit s pos) pos = s.
Proof.
  intros Hbit. apply N.bits_inj. intros m.
  rewrite N.clearbit_eqb, N.setbit_eqb.
  destruct (N.eqb_spec pos m) as [->|_]; simpl; [by rewrite Hbit|].
  by rewrite andb_true_r.
Qed.

Lemma requiredSignature_after_change sm sm1 e s S system :
  SystemManager.entitySignatureChanged e s sm = Ret tt sm1 →
  SystemManager.systems sm !! S = Some system →
  requiredSignature sm1 S = requiredSignature sm S.
Proof.
  intros Hchange HS.
  pose proof (entitySignatureChanged_signatures e s sm sm1 S Hchange) as H1.
  rewrite HS in H1.
  destruct (SystemManager.signatures sm !! S) as [sigS|] eqn:Hsig.
  - by rewrite (requiredSignature_declared sm1 S sigS),
               (requiredSignature_declared sm S sigS).
  - by rewrite (requiredSignature_declared sm1 S 0),
               (requiredSignature_undeclared sm S).
Qed.

(** X12.  Adding and then removing a component: for a registered type whose
    identifier is a signature bit and an entity that had neither the
    component nor the bit, [addComponent<T>(e, v)] followed by
    [removeComponent<T>(e)] returns and leaves the component manager and the
    entity manager exactly as they were; [e] is then in the entity set of a
    registered system exactly when its signature has the bits the system
    requires. *)
Theorem X12_add_then_remove_restores {Component : Type}
    (co : Coordinator.t Component) (T : type_index) (e : Entity) (v : Component)
    (id : ComponentTypeID) (storage : gmap Entity Component) (sig : Signature) :
  ComponentManager.componentTypes (Coordinator.componentManager co) !! T = Some id →
  ComponentManager.ComponentStorages (Coordinator.componentManager co) !! T
    = Some storage →
  signatureOf co e = Some sig →
  id < MAX_COMPONENTS →
  storage !! e = None →
  N.testbit sig id = false →
  ∃ co',
    (Coordinator.addComponent T e v;; Coordinator.removeComponent T e) co
    = Ret tt co'
    ∧ Coordinator.componentManager co' = Coordinator.componentManager co
    ∧ Coordinator.entityManager co' = Coordinator.entityManager co
    ∧ ∀ S system,
        SystemManager.systems (Coordinator.systemManager co) !! S = Some system →
        let sigS := requiredSignature (Coordinator.systemManager co) S in
        ∃ system',
          SystemManager.systems (Coordinator.systemManager co') !! S = Some system'
          ∧ (e ∈ System.entities system' ↔ N.land sig sigS = sigS)
          ∧ ∀ other, other ≠ e →
              other ∈ System.entities system' ↔ other ∈ System.entities system.
Proof.
  intros Hid Hstorage Hsig Hlt Hfresh Hbit.
  unfold bind.
  rewrite (addComponent_registered T e v co id storage sig) by done. cbv zeta.
  set (sm1 := map_fold _ (Coordinator.systemManager co) _).
  rewrite (removeComponent_registered T e _ id (umap_insert e v storage)
             (N.setbit sig id)); cycle 1.
  { done. }
  { simpl. apply lookup_insert_eq. }
  { by rewrite (signatureOf_set co e sig), decide_True. }
  cbv zeta. simpl. destruct (N.ltb_spec id MAX_COMPONENTS); [|lia].
  eexists. split; [reflexivity|]. simpl. split_and!.
  - rewrite insert_insert_eq, (umap_insert_absent e v storage) by done.
    rewrite delete_insert_id by done. rewrite insert_id by done.
    by destruct (Coordinator.componentManager co).
  - rewrite list_insert_insert_eq, clearbit_setbit by done.
    rewrite list_insert_id by done. by destruct (Coordinator.entityManager co).
  - intros S system HS.
    assert (Hfirst : SystemManager.entitySignatureChanged e (N.setbit sig id)
                       (Coordinator.systemManager co) = Ret tt sm1) by done.
    pose proof (entitySignatureChanged_systems e _ _ sm1 S Hfirst) as H1.
    rewrite HS in H1. simpl in H1.
    rewrite clearbit_setbit by done.
    destruct (entitySignatureChanged_member sm1 e sig S _ H1) as (sm2 & Hsecond & H2).
    injection Hsecond as <-.
    eexists. split; [exact H2|].
    assert (Hreq : requiredSignature sm1 S = requiredSignature (Coordinator.systemManager co) S)
      by (by apply (requiredSignature_after_change _ _ e (N.setbit sig id) S system)).
    split.
    + rewrite rematched_member. by rewrite Hreq.
    + intros other Hne. rewrite rematched_others by done.
      by apply rematched_others.
Qed.

(** X12 for an entity that gets and loses [Velocity]. *)
Lemma X12_add_then_remove_restores_witness :
  let co : Coordinator.t N :=
    Coordinator.mk
      (ComponentManager.mk {["Position" := 0; "Velocity" := 1]}
         {["Position" := {[0 := 10]}; "Velocity" := ∅]} 2)
      (EntityManager.mk [1; 2] [1; 0; 0] 1)
      (SystemManager.mk {["Physics" := 3]} {["Physics" := System.new]}) in
  (Coordinator.addComponent "Velocity" 0 7;;
   Coordinator.removeComponent "Velocity" 0) co = Ret tt co.
Proof.
  intros co.
  destruct (X12_add_then_remove_restores co "Velocity" 0 7 1 ∅ 1)
    as (co' & Hrun & _); [reflexivity..|].
  assert (H : after ((Coordinator.addComponent "Velocity" 0 7;;
                      Coordinator.removeComponent "Velocity" 0) co) = Some co)
    by (vm_compute; reflexivity).
  rewrite Hrun in H. injection H as ->. exact Hrun.
Defined.



(** ** Coordinator: destroying an entity *)

Lemma EntityManager_destroyEntity_throws entity em x em' :
  EntityManager.destroyEntity entity em = Throw x em' →
  x = no_entities_to_destroy ∧ em' = em
  ∧ EntityManager.livingEntityCount em = 0
  ∧ hasSignature em entity = true.
Proof.
  unfold EntityManager.destroyEntity, hasSignature. method_unfold.
  destruct (EntityManager.signatures em !! N.to_nat entity) as [s|]; [|done].
  unfold bitset_none, bitset_any. destruct (s =? 0); [done|].
  destruct (N.leb_spec (EntityManager.livingEntityCount em) 0); [|done].
  intros Heq. simplify_eq. split_and!; [done|done|lia|done].
Qed.

Lemma EntityManager_destroyEntity_others entity em em' other :
  EntityManager.destroyEntity entity em = Ret tt em' → other ≠ entity →
  EntityManager.signatures em' !! N.to_nat other
  = EntityManager.signatures em !! N.to_nat other.
Proof.
  unfold EntityManager.destroyEntity. method_unfold.
  destruct (EntityManager.signatures em !! N.to_nat entity) as [s|]; [|done].
  destruct (bitset_none s); [by intros; simplify_eq|].
  destruct (EntityManager.livingEntityCount em <=? 0); [done|].
  intros Heq Hne. simplify_eq. simpl. apply list_lookup_insert_ne. lia.
Qed.

(** X14.  [destroyEntity(e)] of the coordinator throws in one situation
    only: the signature of [e] is not empty while no entity is counted live.
    The exception is the one of the entity manager, and the coordinator is
    exactly as before the call: the components of [e] stay in their stores
    and [e] stays in the entity sets. *)
Theorem X14_destroyEntity_throw_changes_nothing {Component : Type}
    (co : Coordinator.t Component) (e : Entity) :
  (∀ x co', Coordinator.destroyEntity e co = Throw x co' →
     x = no_entities_to_destroy ∧ co' = co
     ∧ EntityManager.livingEntityCount (Coordinator.entityManager co) = 0
     ∧ hasSignature (Coordinator.entityManager co) e = true)
  ∧ (EntityManager.livingEntityCount (Coordinator.entityManager co) = 0 →
     hasSignature (Coordinator.entityManager co) e = true →
     Coordinator.destroyEntity e co = Throw no_entities_to_destroy co).
Proof.
  split.
  - intros x co'.
    unfold Coordinator.destroyEntity, Coordinator.onEntityManager,
      Coordinator.onComponentManager, Coordinator.onSystemManager.
    unfold bind, zoom.
    destruct (EntityManager.destroyEntity e (Coordinator.entityManager co))
      as [[] em'|x' em'|] eqn:Hem; [done| |done].
    intros Heq. simplify_eq.
    apply EntityManager_destroyEntity_throws in Hem as (-> & -> & Hcount & Hsig).
    split_and!; [done| |done|done]. by destruct co.
  - intros Hcount Hsig. unfold hasSignature in Hsig.
    destruct (EntityManager.signatures (Coordinator.entityManager co) !! N.to_nat e)
      as [s|] eqn:Hs; [|done].
    unfold Coordinator.destroyEntity, Coordinator.onEntityManager. unfold bind, zoom.
    rewrite (destroyEntity_underflow e _ s); [by destruct co|done| |done].
    intros ->. done.
Qed.

(** X14 after a component was added to identifier 1 that was never handed
    out by [createEntity]. *)
Lemma X14_destroyEntity_throw_changes_nothing_witness :
  ∃ co : Coordinator.t N,
    (Coordinator.registerComponent "Position";;
     Coordinator.addComponent "Position" 1 9) (Coordinator.init 3) = Ret tt co
    ∧ Coordinator.destroyEntity 1 co = Throw no_entities_to_destroy co
    ∧ Coordinator.getComponent "Position" 1 co = Ret 9 co.
Proof.
  eexists. split; [vm_compute; reflexivity|]. split.
  - match goal with
    | |- Coordinator.destroyEntity 1 ?co = _ =>
        destruct (X14_destroyEntity_throw_changes_nothing co 1) as [_ Hthrow]
    end.
    apply Hthrow; reflexivity.
  - vm_compute. reflexivity.
Defined.

Section DestroyEntity.
Context {Component : Type}.
Implicit Types (co : Coordinator.t Component).

(** The coordinator that a returning [destroyEntity(e)] leaves. *)
Lemma Coordinator_destroyEntity_result entity co co' :
  Coordinator.destroyEntity entity co = Ret tt co' →
  ∃ em',
    EntityManager.destroyEntity entity (Coordinator.entityManager co) = Ret tt em'
    ∧ co' = Coordinator.mk
              (ComponentManager.mk
                 (ComponentManager.componentTypes (Coordinator.componentManager co))
                 (delete entity <$> ComponentManager.ComponentStorages
                                      (Coordinator.componentManager co))
                 (ComponentManager.nextComponentType (Coordinator.componentManager co)))
              em'
              (SystemManager.mk
                 (SystemManager.signatures (Coordinator.systemManager co))
                 (System.entities_erase entity
                    <$> SystemManager.systems (Coordinator.systemManager co))).
Proof.
  unfold Coordinator.destroyEntity, Coordinator.onEntityManager,
    Coordinator.onComponentManager, Coordinator.onSystemManager.
  method_unfold.
  destruct (EntityManager.destroyEntity entity (Coordinator.entityManager co))
    as [[] em'|x em'|]; [|done|done].
  intros Heq. simplify_eq. by eexists.
Qed.
End DestroyEntity.

(** X15.  A returning [destroyEntity(e)] touches nothing of any other
    entity: its signature, its component of every type and its membership in
    every system are as before; no system and no component type is added or
    lost. *)
Theorem X15_destroyEntity_spares_other_entities {Component : Type}
    (co co' : Coordinator.t Component) (e other : Entity) :
  Coordinator.destroyEntity e co = Ret tt co' →
  other ≠ e →
  signatureOf co' other = signatureOf co other
  ∧ (∀ T, componentOf co' T other = componentOf co T other)
  ∧ (∀ S system,
       SystemManager.systems (Coordinator.systemManager co) !! S = Some system →
       ∃ system',
         SystemManager.systems (Coordinator.systemManager co') !! S = Some system'
         ∧ (other ∈ System.entities system' ↔ other ∈ System.entities system))
  ∧ (∀ S, SystemManager.systems (Coordinator.systemManager co') !! S = None
          ↔ SystemManager.systems (Coordinator.systemManager co) !! S = None)
  ∧ ComponentManager.componentTypes (Coordinator.componentManager co')
    = ComponentManager.componentTypes (Coordinator.componentManager co)
  ∧ SystemManager.signatures (Coordinator.systemManager co')
    = SystemManager.signatures (Coordinator.systemManager co).
Proof.
  intros Hdestroy Hne.
  apply Coordinator_destroyEntity_result in Hdestroy as (em' & Hem & ->).
  split_and!; [| | | |done|done].
  - unfold signatureOf. simpl. by apply (EntityManager_destroyEntity_others e).
  - intros T. unfold componentOf. simpl. rewrite lookup_fmap.
    destruct (_ !! T) as [storage|]; simpl; [|done].
    by apply lookup_delete_ne.
  - intros S system HS. simpl. rewrite lookup_fmap, HS. simpl.
    eexists. split; [done|]. rewrite entities_erase_member.
    split; [by intros [? _]|auto].
  - intros S. simpl. rewrite lookup_fmap.
    by destruct (_ !! S).
Qed.

(** X15 for entity 1 while entity 0 is destroyed. *)
Lemma X15_destroyEntity_spares_other_entities_witness :
  let co : Coordinator.t N :=
    Coordinator.mk
      (ComponentManager.mk {["Position" := 0]} {["Position" := {[0 := 10; 1 := 11]}]} 1)
      (EntityManager.mk [2] [1; 1; 0] 2)
      (SystemManager.mk {["Physics" := 1]} {["Physics" := System.mk {[0; 1]}]}) in
  ∃ co',
    Coordinator.destroyEntity 0 co = Ret tt co'
    ∧ signatureOf co' 1 = Some 1
    ∧ componentOf co' "Position" 1 = Some 11.
Proof.
  intros co.
  destruct (Coordinator_destroyEntity_returns 0 co 1) as [co' Hdestroy];
    [reflexivity|right; reflexivity|].
  destruct (X15_destroyEntity_spares_other_entities co co' 0 1 Hdestroy)
    as (Hsig & Hcomp & _); [discriminate|].
  exists co'. split; [exact Hdestroy|]. split.
  - rewrite Hsig. reflexivity.
  - rewrite Hcomp. reflexivity.
Defined.

(** X16.  Destroying twice: when [destroyEntity(e)] has returned, a second
    [destroyEntity(e)] returns as well and leaves the coordinator exactly as
    the first call left it. *)
Theorem X16_destroyEntity_twice {Component : Type}
    (co co' : Coordinator.t Component) (e : Entity) :
  Coordinator.destroyEntity e co = Ret tt co' →
  Coordinator.destroyEntity e co' = Ret tt co'.
Proof.
  intros Hdestroy.
  apply Coordinator_destroyEntity_result in Hdestroy as (em' & Hem & ->).
  apply EntityManager_destroyEntity_clears in Hem.
  unfold Coordinator.destroyEntity, Coordinator.onEntityManager,
    Coordinator.onComponentManager, Coordinator.onSystemManager.
  unfold bind, zoom. simpl.
  rewrite destroyEntity_empty_signature by done. simpl.
  unfold ComponentManager.entityDestroyed, SystemManager.entityDestroyed.
  method_unfold. f_equal. f_equal; f_equal.
  - apply map_eq. intros T. rewrite !lookup_fmap.
    destruct (_ !! T) as [storage|]; simpl; [|done].
    unfold ComponentManager.storage_destroyed. simpl.
    by rewrite delete_delete_eq.
  - apply map_eq. intros S. rewrite !lookup_fmap.
    destruct (_ !! S) as [system|]; simpl; [|done].
    f_equal. apply entities_erase_absent.
    rewrite entities_erase_member. by intros [_ ?].
Qed.

(** X16 for entity 0. *)
Lemma X16_destroyEntity_twice_witness :
  let co : Coordinator.t N :=
    Coordinator.mk
      (ComponentManager.mk {["Position" := 0]} {["Position" := {[0 := 10; 1 := 11]}]} 1)
      (EntityManager.mk [2] [1; 1; 0] 2)
      (SystemManager.mk {["Physics" := 1]} {["Physics" := System.mk {[0; 1]}]}) in
  ∃ co',
    Coordinator.destroyEntity 0 co = Ret tt co'
    ∧ Coordinator.destroyEntity 0 co' = Ret tt co'
    ∧ co' ≠ co.
Proof.
  intros co.
  destruct (Coordinator_destroyEntity_returns 0 co 1) as [co' Hdestroy];
    [reflexivity|right; reflexivity|].
  exists co'. split; [exact Hdestroy|]. split.
  - exact (X16_destroyEntity_twice co co' 0 Hdestroy).
  - intros ->. vm_compute in Hdestroy. discriminate Hdestroy.
Defined.



(** ** Coordinator: queries over pairs of component types *)

Section Queries.
Context {Component : Type}.
Implicit Types (co : Coordinator.t Component) (T U : type_index).

Lemma hasComponent_both T1 T2 entityA entityB co id1 id2 sigA sigB :
  ComponentManager.componentTypes (Coordinator.componentManager co) !! T1 = Some id1 →
  ComponentManager.componentTypes (Coordinator.componentManager co) !! T2 = Some id2 →
  id1 < MAX_COMPONENTS → id2 < MAX_COMPONENTS →
  signatureOf co entityA = Some sigA →
  signatureOf co entityB = Some sigB →
  and_then (Coordinator.hasComponent T1 entityA) (Coordinator.hasComponent T2 entityB) co
  = Ret (N.testbit sigA id1 && N.testbit sigB id2) co.
Proof.
  intros H1 H2 Hlt1 Hlt2 HA HB. unfold and_then, bind.
  rewrite (hasComponent_registered T1 entityA co id1 sigA) by done.
  destruct (N.ltb_spec id1 MAX_COMPONENTS); [|lia].
  destruct (N.testbit sigA id1); simpl; [|done].
  rewrite (hasComponent_registered T2 entityB co id2 sigB) by done.
  by destruct (N.ltb_spec id2 MAX_COMPONENTS); [|lia].
Qed.

Lemma hasComponentPair_registered T1 T2 entityA entityB co id1 id2 sigA sigB :
  ComponentManager.componentTypes (Coordinator.componentManager co) !! T1 = Some id1 →
  ComponentManager.componentTypes (Coordinator.componentManager co) !! T2 = Some id2 →
  id1 < MAX_COMPONENTS → id2 < MAX_COMPONENTS →
  signatureOf co entityA = Some sigA →
  signatureOf co entityB = Some sigB →
  Coordinator.hasComponentPair T1 T2 entityA entityB co
  = Ret ((N.testbit sigA id1 && N.testbit sigB id2)
         || (N.testbit sigA id2 && N.testbit sigB id1)) co.
Proof.
  intros H1 H2 Hlt1 Hlt2 HA HB. unfold Coordinator.hasComponentPair, or_else.
  unfold bind at 1.
  rewrite (hasComponent_both T1 T2 entityA entityB co id1 id2 sigA sigB) by done.
  destruct (N.testbit sigA id1 && N.testbit sigB id2); simpl; [done|].
  by rewrite (hasComponent_both T2 T1 entityA entityB co id2 id1 sigA sigB).
Qed.
End Queries.

(** X18.  [hasComponentPair<T1, T2>(a, b)] for registered types whose
    identifiers are signature bits and identifiers inside the signature
    array: it answers true exactly when [a] has the bit of [T1] and [b] the
    bit of [T2], or [a] has the bit of [T2] and [b] the bit of [T1]; it
    leaves the coordinator unchanged, and exchanging the two entities or the
    two types gives the same answer. *)
Theorem X18_hasComponentPair_either_order {Component : Type}
    (co : Coordinator.t Component) (T1 T2 : type_index) (a b : Entity)
    (id1 id2 : ComponentTypeID) (sigA sigB : Signature) :
  ComponentManager.componentTypes (Coordinator.componentManager co) !! T1 = Some id1 →
  ComponentManager.componentTypes (Coordinator.componentManager co) !! T2 = Some id2 →
  id1 < MAX_COMPONENTS → id2 < MAX_COMPONENTS →
  signatureOf co a = Some sigA →
  signatureOf co b = Some sigB →
  Coordinator.hasComponentPair T1 T2 a b co
    = Ret ((N.testbit sigA id1 && N.testbit sigB id2)
           || (N.testbit sigA id2 && N.testbit sigB id1)) co
  ∧ Coordinator.hasComponentPair T1 T2 b a co
    = Coordinator.hasComponentPair T1 T2 a b co
  ∧ Coordinator.hasComponentPair T2 T1 a b co
    = Coordinator.hasComponentPair T1 T2 a b co.
Proof.
  intros H1 H2 Hlt1 Hlt2 HA HB.
  rewrite (hasComponentPair_registered T1 T2 a b co id1 id2 sigA sigB) by done.
  rewrite (hasComponentPair_registered T1 T2 b a co id1 id2 sigB sigA) by done.
  rewrite (hasComponentPair_registered T2 T1 a b co id2 id1 sigA sigB) by done.
  split_and!; [done| |]; f_equal;
    by destruct (N.testbit sigA id1), (N.testbit sigA id2),
                (N.testbit sigB id1), (N.testbit sigB id2).
Qed.

(** X18 for [Position] on entity 0 and [Velocity] on entity 1. *)
Lemma X18_hasComponentPair_either_order_witness :
  let co : Coordinator.t N :=
    Coordinator.mk
      (ComponentManager.mk {["Position" := 0; "Velocity" := 1]}
         {["Position" := {[0 := 10]}; "Velocity" := {[1 := 7]}]} 2)
      (EntityManager.mk [2] [1; 2; 0] 2)
      SystemManager.new in
  Coordinator.hasComponentPair "Position" "Velocity" 0 1 co = Ret true co
  ∧ Coordinator.hasComponentPair "Position" "Velocity" 1 0 co = Ret true co
  ∧ Coordinator.hasComponentPair "Velocity" "Position" 0 1 co = Ret true co.
Proof.
  intros co.
  destruct (X18_hasComponentPair_either_order co "Position" "Velocity" 0 1 0 1 1 2)
    as (Hvalue & Hswap & Htypes); [reflexivity..|].
  rewrite Hswap, Htypes. split; [exact Hvalue|]. split; exact Hvalue.
Defined.

(** X19.  After [addComponent<T1>(e, v1)] and [addComponent<T2>(e, v2)],
    for registered types whose identifiers are signature bits,
    [hasComponent] answers true for both types and
    [hasComponentPair<T1, T2>(e, e)] answers true. *)
Theorem X19_both_added_then_pair {Component : Type}
    (co : Coordinator.t Component) (T1 T2 : type_index) (e : Entity)
    (v1 v2 : Component) (id1 id2 : ComponentTypeID)
    (storage1 storage2 : gmap Entity Component) (sig : Signature) :
  ComponentManager.componentTypes (Coordinator.componentManager co) !! T1 = Some id1 →
  ComponentManager.componentTypes (Coordinator.componentManager co) !! T2 = Some id2 →
  ComponentManager.ComponentStorages (Coordinator.componentManager co) !! T1
    = Some storage1 →
  ComponentManager.ComponentStorages (Coordinator.componentManager co) !! T2
    = Some storage2 →
  id1 < MAX_COMPONENTS → id2 < MAX_COMPONENTS →
  signatureOf co e = Some sig →
  ∃ co',
    (Coordinator.addComponent T1 e v1;; Coordinator.addComponent T2 e v2) co
    = Ret tt co'
    ∧ Coordinator.hasComponent T1 e co' = Ret true co'
    ∧ Coordinator.hasComponent T2 e co' = Ret true co'
    ∧ Coordinator.hasComponentPair T1 T2 e e co' = Ret true co'.
Proof.
  intros H1 H2 Hs1 Hs2 Hlt1 Hlt2 Hsig. unfold bind.
  rewrite (addComponent_registered T1 e v1 co id1 storage1 sig) by done.
  cbv zeta.
  set (co1 := Coordinator.mk _ _ _).
  assert (Hsig1 : signatureOf co1 e = Some (N.setbit sig id1)).
  { subst co1. by rewrite (signatureOf_set co e sig), decide_True. }
  assert (Hs2' : ∃ storage,
            ComponentManager.ComponentStorages (Coordinator.componentManager co1) !! T2
            = Some storage).
  { subst co1. simpl. rewrite lookup_insert. case_decide; eauto. }
  destruct Hs2' as [storage2' Hs2'].
  rewrite (addComponent_registered T2 e v2 co1 id2 storage2' (N.setbit sig id1))
    by done.
  cbv zeta.
  set (co2 := Coordinator.mk _ _ _).
  assert (Hsig2 : signatureOf co2 e = Some (N.setbit (N.setbit sig id1) id2)).
  { subst co2. by rewrite (signatureOf_set co1 e (N.setbit sig id1)), decide_True. }
  assert (Hbit1 : N.testbit (N.setbit (N.setbit sig id1) id2) id1 = true).
  { rewrite N.setbit_eqb, N.setbit_eq. apply orb_true_r. }
  assert (Hbit2 : N.testbit (N.setbit (N.setbit sig id1) id2) id2 = true)
    by apply N.setbit_eq.
  exists co2. split; [done|]. split_and!.
  - rewrite (hasComponent_registered T1 e co2 id1 _ H1 Hsig2).
    destruct (N.ltb_spec id1 MAX_COMPONENTS); [|lia]. by rewrite Hbit1.
  - rewrite (hasComponent_registered T2 e co2 id2 _ H2 Hsig2).
    destruct (N.ltb_spec id2 MAX_COMPONENTS); [|lia]. by rewrite Hbit2.
  - rewrite (hasComponentPair_registered T1 T2 e e co2 id1 id2 _ _
               H1 H2 Hlt1 Hlt2 Hsig2 Hsig2).
    by rewrite Hbit1, Hbit2.
Qed.

(** X19 for [Position] and [Velocity] on a new entity. *)
Lemma X19_both_added_then_pair_witness :
  let co : Coordinator.t N :=
    Coordinator.mk
      (ComponentManager.mk {["Position" := 0; "Velocity" := 1]}
         {["Position" := ∅; "Velocity" := ∅]} 2)
      (EntityManager.mk [1; 2] [0; 0; 0] 1)
      SystemManager.new in
  ∃ co',
    (Coordinator.addComponent "Position" 0 10;;
     Coordinator.addComponent "Velocity" 0 7) co = Ret tt co'
    ∧ Coordinator.hasComponent "Position" 0 co' = Ret true co'
    ∧ Coordinator.hasComponent "Velocity" 0 co' = Ret true co'
    ∧ Coordinator.hasComponentPair "Position" "Velocity" 0 0 co' = Ret true co'.
Proof.
  intros co.
  exact (X19_both_added_then_pair co "Position" "Velocity" 0 10 7 0 1 ∅ ∅ 0
           eq_refl eq_refl eq_refl eq_refl eq_refl eq_refl eq_refl).
Defined.

Section AllEntitiesWith.
Context {Component : Type}.
Implicit Types (co : Coordinator.t Component) (T U : type_index).

Lemma hasComponent_outside_array T entity co :
  signatureOf co entity = None → Coordinator.hasComponent T entity co = Undefined.
Proof.
  intros Hsig. unfold signatureOf in Hsig.
  unfold Coordinator.hasComponent, Coordinator.onEntityManager,
    EntityManager.getSignature.
  method_unfold. by rewrite Hsig.
Qed.

Lemma hasComponent_true_iff T entity co id :
  ComponentManager.componentTypes (Coordinator.componentManager co) !! T = Some id →
  id < MAX_COMPONENTS →
  Coordinator.hasComponent T entity co = Ret true co ↔ hasBit co entity id = true.
Proof.
  intros Hid Hlt. unfold hasBit.
  destruct (signatureOf co entity) as [sig|] eqn:Hsig.
  - rewrite (hasComponent_registered T entity co id sig) by done.
    destruct (N.ltb_spec id MAX_COMPONENTS); [|lia].
    split; [by intros [=]|by intros ->].
  - by rewrite hasComponent_outside_array.
Qed.

Lemma getAllEntitiesWith_loop_filter T1 T2 co id1 id2 entities acc :
  ComponentManager.componentTypes (Coordinator.componentManager co) !! T1 = Some id1 →
  ComponentManager.componentTypes (Coordinator.componentManager co) !! T2 = Some id2 →
  id1 < MAX_COMPONENTS → id2 < MAX_COMPONENTS →
  Forall (λ e, is_Some (signatureOf co e)) entities →
  Coordinator.getAllEntitiesWith_loop T1 T2 entities acc co
  = Ret (acc ++ filter (λ e, Is_true (hasBit co e id1 && hasBit co e id2)) entities)
      co.
Proof.
  intros H1 H2 Hlt1 Hlt2 Hall. revert acc.
  induction Hall as [|e entities [sig Hsig] Hall IH]; intros acc.
  - simpl. unfold ret. by rewrite app_nil_r.
  - cbn [Coordinator.getAllEntitiesWith_loop]. unfold bind at 1.
    rewrite (hasComponent_both T1 T2 e e co id1 id2 sig sig) by done.
    rewrite IH.
    assert (Hboth : hasBit co e id1 && hasBit co e id2
                    = N.testbit sig id1 && N.testbit sig id2).
    { unfold hasBit. by rewrite Hsig. }
    destruct (N.testbit sig id1 && N.testbit sig id2).
    + rewrite filter_cons_True by (by rewrite Hboth). by rewrite <- app_assoc.
    + rewrite filter_cons_False; [done|]. rewrite Hboth. by intros [].
Qed.
End AllEntitiesWith.

(** X20.  [getAllEntitiesWith<T1, T2>()] for registered types whose
    identifiers are signature bits: it returns, in increasing order and
    without touching the coordinator, exactly the identifiers for which
    [hasComponent] answers true for both types. *)
Theorem X20_getAllEntitiesWith_lists_both {Component : Type} (MAX : N)
    (co : Coordinator.t Component) (T1 T2 : type_index)
    (id1 id2 : ComponentTypeID) :
  length (EntityManager.signatures (Coordinator.entityManager co)) = N.to_nat MAX →
  ComponentManager.componentTypes (Coordinator.componentManager co) !! T1 = Some id1 →
  ComponentManager.componentTypes (Coordinator.componentManager co) !! T2 = Some id2 →
  id1 < MAX_COMPONENTS → id2 < MAX_COMPONENTS →
  ∃ entities,
    Coordinator.getAllEntitiesWith MAX T1 T2 co = Ret entities co
    ∧ StronglySorted N.lt entities
    ∧ ∀ e, e ∈ entities
           ↔ Coordinator.hasComponent T1 e co = Ret true co
             ∧ Coordinator.hasComponent T2 e co = Ret true co.
Proof.
  intros Hlen H1 H2 Hlt1 Hlt2.
  set (existing := filter (λ e, Is_true (hasSignature (Coordinator.entityManager co) e))
                     (N_range 0 (N.to_nat MAX))).
  assert (Hget : EntityManager.getEntities MAX (Coordinator.entityManager co)
                 = Ret existing (Coordinator.entityManager co)).
  { unfold EntityManager.getEntities. by rewrite getEntities_loop_filter by lia. }
  assert (Hin : ∀ e, e ∈ existing → is_Some (signatureOf co e)).
  { intros e He. apply list_elem_of_filter in He as [_ He].
    apply elem_of_N_range in He. apply lookup_lt_is_Some_2. lia. }
  exists (filter (λ e, Is_true (hasBit co e id1 && hasBit co e id2)) existing).
  split_and!.
  - unfold Coordinator.getAllEntitiesWith, Coordinator.onEntityManager.
    unfold bind at 1. unfold zoom. rewrite Hget.
    replace (Coordinator.mk (Coordinator.componentManager co)
               (Coordinator.entityManager co) (Coordinator.systemManager co))
      with co by (by destruct co).
    rewrite (getAllEntitiesWith_loop_filter T1 T2 co id1 id2) by
      (done || by apply Forall_forall).
    done.
  - subst existing. rewrite list_filter_filter. apply filter_N_range_sorted.
  - intros e. rewrite list_elem_of_filter.
    rewrite (hasComponent_true_iff T1 e co id1), (hasComponent_true_iff T2 e co id2)
      by done.
    rewrite andb_True, !Is_true_true. split; [by intros [? _]|].
    intros [Hb1 Hb2]. split; [done|].
    subst existing. apply list_elem_of_filter. unfold hasBit in Hb1.
    destruct (signatureOf co e) as [sig|] eqn:Hsig; [|done].
    unfold signatureOf in Hsig. split.
    + unfold hasSignature. rewrite Hsig. unfold bitset_any.
      destruct (N.eqb_spec sig 0) as [->|]; [|done].
      by rewrite N.bits_0 in Hb1.
    + apply elem_of_N_range. apply lookup_lt_Some in Hsig. lia.
Qed.

(** X20 on three entities of which 0 and 2 have both components. *)
Lemma X20_getAllEntitiesWith_lists_both_witness :
  let co : Coordinator.t N :=
    Coordinator.mk
      (ComponentManager.mk {["Position" := 0; "Render" := 1]}
         {["Position" := {[0 := 1; 1 := 2; 2 := 3]}; "Render" := {[0 := 4; 2 := 5]}]} 2)
      (EntityManager.mk [] [3; 1; 3] 3)
      SystemManager.new in
  ∃ entities,
    Coordinator.getAllEntitiesWith 3 "Position" "Render" co = Ret entities co
    ∧ entities = [0; 2]
    ∧ StronglySorted N.lt entities.
Proof.
  intros co.
  destruct (X20_getAllEntitiesWith_lists_both 3 co "Position" "Render" 0 1)
    as (l & Hget & Hsorted & _); [reflexivity..|].
  exists l. split; [exact Hget|]. split; [|exact Hsorted].
  assert (H : Coordinator.getAllEntitiesWith 3 "Position" "Render" co = Ret [0; 2] co)
    by (vm_compute; reflexivity).
  rewrite Hget in H. by injection H.
Defined.

(** ** Coordinator: a component type that was never registered *)

(** X21.  For a type [T] that was neither registered nor looked up before,
    [hasComponent<T>(e)] does not fail: it inserts identifier 0 for [T] and
    answers with bit 0 of the signature of [e], the bit of the first
    registered type.  [tryGetComponent<T>(e)] returns the null pointer when
    that bit is clear and dereferences the null storage pointer (undefined
    behaviour) when it is set, as [getComponent], [addComponent] and
    [removeComponent] of [T] always do. *)
Theorem X21_unregistered_type_reads_bit_zero {Component : Type}
    (co : Coordinator.t Component) (T : type_index) (e : Entity) (sig : Signature) :
  ComponentManager.componentTypes (Coordinator.componentManager co) !! T = None →
  ComponentManager.ComponentStorages (Coordinator.componentManager co) !! T = None →
  signatureOf co e = Some sig →
  let co0 :=
    Coordinator.mk
      (ComponentManager.mk
         (<[T := 0]> (ComponentManager.componentTypes (Coordinator.componentManager co)))
         (ComponentManager.ComponentStorages (Coordinator.componentManager co))
         (ComponentManager.nextComponentType (Coordinator.componentManager co)))
      (Coordinator.entityManager co) (Coordinator.systemManager co) in
  Coordinator.hasComponent T e co = Ret (N.testbit sig 0) co0
  ∧ (N.testbit sig 0 = false → Coordinator.tryGetComponent T e co = Ret None co0)
  ∧ (N.testbit sig 0 = true → Coordinator.tryGetComponent T e co = Undefined)
  ∧ Coordinator.getComponent T e co = Undefined
  ∧ (∀ v, Coordinator.addComponent T e v co = Undefined)
  ∧ Coordinator.removeComponent T e co = Undefined.
Proof.
  intros Hid Hstorage Hsig co0. unfold signatureOf in Hsig.
  assert (Hhas : Coordinator.hasComponent T e co = Ret (N.testbit sig 0) co0).
  { unfold Coordinator.hasComponent, Coordinator.onComponentManager,
      Coordinator.onEntityManager, ComponentManager.getComponentTypeID,
      EntityManager.getSignature, bitset_test, umap_index.
    method_unfold. rewrite Hsig. simpl. rewrite Hid. simpl.
    subst co0. by destruct co as [? [] ?]. }
  assert (Hget : ∀ co1 : Coordinator.t Component,
            ComponentManager.ComponentStorages (Coordinator.componentManager co1) !! T
            = None →
            Coordinator.getComponent T e co1 = Undefined).
  { intros co1 Hnone.
    unfold Coordinator.getComponent, Coordinator.onComponentManager,
      ComponentManager.getComponent, ComponentManager.GetComponentStorage.
    method_unfold. by rewrite Hnone. }
  split_and!.
  - exact Hhas.
  - intros Hbit. unfold Coordinator.tryGetComponent, bind. by rewrite Hhas, Hbit.
  - intros Hbit. unfold Coordinator.tryGetComponent, bind. rewrite Hhas, Hbit.
    by rewrite Hget.
  - by apply Hget.
  - intros v.
    unfold Coordinator.addComponent, Coordinator.onComponentManager,
      ComponentManager.addComponent, ComponentManager.GetComponentStorage.
    method_unfold. by rewrite Hstorage.
  - unfold Coordinator.removeComponent, Coordinator.onComponentManager,
      ComponentManager.removeComponent, ComponentManager.GetComponentStorage.
    method_unfold. by rewrite Hstorage.
Qed.

(** X21 for [Velocity], never registered, on an entity with [Position]. *)
Lemma X21_unregistered_type_reads_bit_zero_witness :
  let co : Coordinator.t N :=
    Coordinator.mk
      (ComponentManager.mk {["Position" := 0]} {["Position" := {[0 := 10]}]} 1)
      (EntityManager.mk [1; 2] [1; 0; 0] 1)
      SystemManager.new in
  returned (Coordinator.hasComponent "Velocity" 0 co) = Some true
  ∧ Coordinator.tryGetComponent "Velocity" 0 co = Undefined
  ∧ returned (Coordinator.tryGetComponent "Velocity" 1 co) = Some None.
Proof.
  intros co.
  destruct (X21_unregistered_type_reads_bit_zero co "Velocity" 0 1)
    as (Hhas & _ & Htry & _); [reflexivity..|].
  destruct (X21_unregistered_type_reads_bit_zero co "Velocity" 1 0)
    as (_ & Hnull & _); [reflexivity..|].
  split; [by rewrite Hhas|]. split; [by apply Htry|].
  by rewrite Hnull.
Defined.

(** ** Coordinator: system membership as components come and go *)

Lemma land_superset (s r : N) :
  N.land s r = r ↔ ∀ pos, N.testbit r pos = true → N.testbit s pos = true.
Proof.
  split.
  - intros Hland pos Hr. rewrite <- Hland, N.land_spec in Hr.
    by apply andb_true_iff in Hr as [? _].
  - intros Hbits. apply N.bits_inj. intros pos. rewrite N.land_spec.
    destruct (N.testbit r pos) eqn:Hr; [|apply andb_false_r].
    by rewrite (Hbits pos Hr).
Qed.

(** X22.  The test of [entitySignatureChanged] is an inclusion of bits:
    after the call, the entity is in the entity set of a registered system
    exactly when every bit of the signature required by the system is set in
    the entity signature. *)
Theorem X22_membership_is_bit_inclusion (sm : SystemManager.t) (e : Entity)
    (s : Signature) (S : type_index) (system : System.t) :
  SystemManager.systems sm !! S = Some system →
  ∃ sm' system',
    SystemManager.entitySignatureChanged e s sm = Ret tt sm'
    ∧ SystemManager.systems sm' !! S = Some system'
    ∧ (e ∈ System.entities system'
       ↔ ∀ pos, N.testbit (requiredSignature sm S) pos = true →
                N.testbit s pos = true).
Proof.
  intros HS.
  destruct (entitySignatureChanged_member sm e s S system HS) as (sm' & Hret & Hsys).
  exists sm', (rematched sm e s S system). split_and!; [done|done|].
  rewrite rematched_member. apply land_superset.
Qed.

(** X22 for a system requiring bits 0 and 1 and an entity with bit 0 only. *)
Lemma X22_membership_is_bit_inclusion_witness :
  let sm := SystemManager.mk {["Physics" := 3]}
              {["Physics" := System.mk {[2]}]} in
  ∃ sm' system',
    SystemManager.entitySignatureChanged 2 1 sm = Ret tt sm'
    ∧ SystemManager.systems sm' !! "Physics" = Some system'
    ∧ 2 ∉ System.entities system'.
Proof.
  intros sm.
  destruct (X22_membership_is_bit_inclusion sm 2 1 "Physics" (System.mk {[2]}))
    as (sm' & system' & Hret & Hsys & Hiff); [reflexivity|].
  exists sm', system'. split; [exact Hret|]. split; [exact Hsys|].
  intros Hin. destruct Hiff as [Hbits _].
  specialize (Hbits Hin 1 eq_refl). discriminate Hbits.
Defined.

Section Membership.
Context {Component : Type}.
Implicit Types (co : Coordinator.t Component) (T U S : type_index).

Lemma Coordinator_getSystem_registered S co system :
  SystemManager.systems (Coordinator.systemManager co) !! S = Some system →
  Coordinator.getSystem S co = Ret system co.
Proof.
  intros HS. unfold Coordinator.getSystem, Coordinator.onSystemManager,
    SystemManager.getSystem.
  method_unfold. rewrite HS. by destruct co.
Qed.

(** The system of [S] and its required signature once the signature of
    [entity] changed to [signature]. *)
Lemma signature_change_rematches S entity signature sm system :
  SystemManager.systems sm !! S = Some system →
  let sm' := map_fold (SystemManager.signature_changed_body entity signature)
               sm (SystemManager.systems sm) in
  SystemManager.systems sm' !! S = Some (rematched sm entity signature S system)
  ∧ requiredSignature sm' S = requiredSignature sm S.
Proof.
  intros HS sm'. split.
  - by rewrite (entitySignatureChanged_systems entity signature sm sm' S eq_refl), HS.
  - by apply (requiredSignature_after_change sm sm' entity signature S system).
Qed.
End Membership.

(** X23.  A system that requires exactly the bits of two different
    registered types [T1] and [T2], and an entity with neither bit: after
    [addComponent<T1>] the entity is not in the entity set of the system,
    after [addComponent<T2>] it is, and after [removeComponent<T1>] it is
    not any more. *)
Theorem X23_membership_follows_components {Component : Type}
    (co : Coordinator.t Component) (T1 T2 S : type_index) (e : Entity)
    (v1 v2 : Component) (id1 id2 : ComponentTypeID)
    (storage1 storage2 : gmap Entity Component) (sig : Signature)
    (system : System.t) :
  ComponentManager.componentTypes (Coordinator.componentManager co) !! T1 = Some id1 →
  ComponentManager.componentTypes (Coordinator.componentManager co) !! T2 = Some id2 →
  ComponentManager.ComponentStorages (Coordinator.componentManager co) !! T1
    = Some storage1 →
  ComponentManager.ComponentStorages (Coordinator.componentManager co) !! T2
    = Some storage2 →
  id1 < MAX_COMPONENTS → id2 < MAX_COMPONENTS → id1 ≠ id2 →
  signatureOf co e = Some sig →
  N.testbit sig id1 = false → N.testbit sig id2 = false →
  SystemManager.systems (Coordinator.systemManager co) !! S = Some system →
  requiredSignature (Coordinator.systemManager co) S = N.setbit (N.setbit 0 id1) id2 →
  returned
    ((Coordinator.addComponent T1 e v1;;
      let* system1 := Coordinator.getSystem S in
      Coordinator.addComponent T2 e v2;;
      let* system2 := Coordinator.getSystem S in
      Coordinator.removeComponent T1 e;;
      let* system3 := Coordinator.getSystem S in
      ret (bool_decide (e ∈ System.entities system1),
           bool_decide (e ∈ System.entities system2),
           bool_decide (e ∈ System.entities system3))) co)
  = Some (false, true, false).
Proof.
  intros H1 H2 Hs1 Hs2 Hlt1 Hlt2 Hne Hsig Hb1 Hb2 HS Hreq.
  assert (Hrequired : ∀ pos, N.testbit (N.setbit (N.setbit 0 id1) id2) pos = true
                             ↔ pos = id1 ∨ pos = id2).
  { intros pos. rewrite !N.setbit_eqb, N.bits_0, orb_false_r, orb_true_iff.
    rewrite !N.eqb_eq. split; intros [?|?]; auto. }
  (* addComponent<T1> *)
  unfold bind at 1.
  rewrite (addComponent_registered T1 e v1 co id1 storage1 sig) by done. cbv zeta.
  set (co1 := Coordinator.mk _ _ _).
  destruct (signature_change_rematches S e (N.setbit sig id1)
              (Coordinator.systemManager co) system HS) as [Hsys1 Hreq1].
  set (system1 := rematched _ e (N.setbit sig id1) S system) in *.
  change (SystemManager.systems (Coordinator.systemManager co1) !! S = Some system1)
    in Hsys1.
  change (requiredSignature (Coordinator.systemManager co1) S
          = requiredSignature (Coordinator.systemManager co) S) in Hreq1.
  assert (Hsig1 : signatureOf co1 e = Some (N.setbit sig id1)).
  { subst co1. by rewrite (signatureOf_set co e sig), decide_True. }
  assert (Hs2' : ∃ storage,
            ComponentManager.ComponentStorages (Coordinator.componentManager co1) !! T2
            = Some storage).
  { subst co1. simpl. rewrite lookup_insert. case_decide; eauto. }
  destruct Hs2' as [storage2' Hs2'].
  unfold bind at 1. rewrite (Coordinator_getSystem_registered S co1 system1) by done.
  (* addComponent<T2> *)
  unfold bind at 1.
  rewrite (addComponent_registered T2 e v2 co1 id2 storage2' (N.setbit sig id1))
    by done. cbv zeta.
  set (co2 := Coordinator.mk _ _ _).
  destruct (signature_change_rematches S e (N.setbit (N.setbit sig id1) id2)
              (Coordinator.systemManager co1) system1 Hsys1) as [Hsys2 Hreq2].
  set (system2 := rematched _ e (N.setbit (N.setbit sig id1) id2) S system1) in *.
  change (SystemManager.systems (Coordinator.systemManager co2) !! S = Some system2)
    in Hsys2.
  change (requiredSignature (Coordinator.systemManager co2) S
          = requiredSignature (Coordinator.systemManager co1) S) in Hreq2.
  assert (Hsig2 : signatureOf co2 e = Some (N.setbit (N.setbit sig id1) id2)).
  { subst co2. by rewrite (signatureOf_set co1 e (N.setbit sig id1)), decide_True. }
  assert (Hs1' : ∃ storage,
            ComponentManager.ComponentStorages (Coordinator.componentManager co2) !! T1
            = Some storage).
  { subst co2 co1. simpl. rewrite !lookup_insert. repeat case_decide; eauto. }
  destruct Hs1' as [storage1' Hs1'].
  unfold bind at 1. rewrite (Coordinator_getSystem_registered S co2 system2) by done.
  (* removeComponent<T1> *)
  unfold bind at 1.
  rewrite (removeComponent_registered T1 e co2 id1 storage1'
             (N.setbit (N.setbit sig id1) id2)) by done. cbv zeta.
  destruct (N.ltb_spec id1 MAX_COMPONENTS); [|lia].
  set (co3 := Coordinator.mk _ _ _).
  destruct (signature_change_rematches S e
              (N.clearbit (N.setbit (N.setbit sig id1) id2) id1)
              (Coordinator.systemManager co2) system2 Hsys2) as [Hsys3 _].
  set (system3 := rematched _ e _ S system2) in *.
  change (SystemManager.systems (Coordinator.systemManager co3) !! S = Some system3)
    in Hsys3.
  unfold bind at 1. rewrite (Coordinator_getSystem_registered S co3 system3) by done.
  unfold ret, returned. f_equal.
  assert (Hin1 : e ∉ System.entities system1).
  { subst system1. rewrite rematched_member, land_superset, Hreq.
    intros Hbits. specialize (Hbits id2 (proj2 (Hrequired id2) (or_intror eq_refl))).
    rewrite N.setbit_eqb, Hb2, orb_false_r, N.eqb_eq in Hbits. done. }
  assert (Hin2 : e ∈ System.entities system2).
  { subst system2. rewrite rematched_member, land_superset, Hreq1, Hreq.
    intros pos [->| ->]%Hrequired.
    - rewrite N.setbit_eqb, N.setbit_eq. apply orb_true_r.
    - apply N.setbit_eq. }
  assert (Hin3 : e ∉ System.entities system3).
  { subst system3. rewrite rematched_member, land_superset, Hreq2, Hreq1, Hreq.
    intros Hbits. specialize (Hbits id1 (proj2 (Hrequired id1) (or_introl eq_refl))).
    by rewrite N.clearbit_eq in Hbits. }
  by rewrite (bool_decide_eq_false_2 _ Hin1), (bool_decide_eq_true_2 _ Hin2),
             (bool_decide_eq_false_2 _ Hin3).
Qed.

(** X23 for [Position], [Velocity] and a [Physics] system requiring both. *)
Lemma X23_membership_follows_components_witness :
  let co : Coordinator.t N :=
    Coordinator.mk
      (ComponentManager.mk {["Position" := 0; "Velocity" := 1]}
         {["Position" := ∅; "Velocity" := ∅]} 2)
      (EntityManager.mk [1; 2] [0; 0; 0] 1)
      (SystemManager.mk {["Physics" := 3]} {["Physics" := System.new]}) in
  returned
    ((Coordinator.addComponent "Position" 0 10;;
      let* system1 := Coordinator.getSystem "Physics" in
      Coordinator.addComponent "Velocity" 0 7;;
      let* system2 := Coordinator.getSystem "Physics" in
      Coordinator.removeComponent "Position" 0;;
      let* system3 := Coordinator.getSystem "Physics" in
      ret (bool_decide (0 ∈ System.entities system1),
           bool_decide (0 ∈ System.entities system2),
           bool_decide (0 ∈ System.entities system3))) co)
  = Some (false, true, false).
Proof.
  intros co.
  apply (X23_membership_follows_components co "Position" "Velocity" "Physics" 0 10 7
           0 1 ∅ ∅ 0 System.new); try reflexivity.
  discriminate.
Defined.

(** ** Coordinator: the width of the signatures *)

Lemma lt_pow2_bits (s n : N) :
  s < 2 ^ n ↔ ∀ pos, n ≤ pos → N.testbit s pos = false.
Proof.
  split.
  - intros Hlt pos Hpos. destruct (decide (s = 0)) as [->|Hs]; [apply N.bits_0|].
    apply N.bits_above_log2. apply N.log2_lt_pow2 in Hlt; lia.
  - intros Hbits. destruct (decide (s < 2 ^ n)) as [|Hge]; [done|].
    assert (Hs : s ≠ 0).
    { intros ->. apply Hge. apply N.neq_0_lt_0. by apply N.pow_nonzero. }
    assert (Hlog : n ≤ N.log2 s) by (apply N.log2_le_pow2; lia).
    pose proof (N.bit_log2 s Hs) as Hbit. by rewrite (Hbits _ Hlog) in Hbit.
Qed.

Lemma setbit_fits (s pos n : N) : s < 2 ^ n → pos < n → N.setbit s pos < 2 ^ n.
Proof.
  rewrite !lt_pow2_bits. intros Hs Hpos m Hm. rewrite N.setbit_eqb, (Hs m Hm).
  destruct (N.eqb_spec pos m); [lia|done].
Qed.

Lemma clearbit_fits (s pos n : N) : s < 2 ^ n → N.clearbit s pos < 2 ^ n.
Proof.
  rewrite !lt_pow2_bits. intros Hs m Hm. by rewrite N.clearbit_eqb, (Hs m Hm).
Qed.

Section SignatureWidth.
Context {Component : Type}.
Implicit Types (co : Coordinator.t Component) (T : type_index).

(** The signature array after a call that adds or removes a component:
    untouched, or with one slot rewritten by [set] at a valid position. *)
Lemma addComponent_signatures T entity component co co' :
  after (Coordinator.addComponent T entity component co) = Some co' →
  EntityManager.signatures (Coordinator.entityManager co')
    = EntityManager.signatures (Coordinator.entityManager co)
  ∨ ∃ sig id,
      id < MAX_COMPONENTS ∧ signatureOf co entity = Some sig
      ∧ EntityManager.signatures (Coordinator.entityManager co')
        = <[N.to_nat entity := N.setbit sig id]>
            (EntityManager.signatures (Coordinator.entityManager co)).
Proof.
  destruct (ComponentManager.ComponentStorages (Coordinator.componentManager co) !! T)
    as [storage|] eqn:Hstorage.
  2:{ unfold Coordinator.addComponent, Coordinator.onComponentManager,
        ComponentManager.addComponent, ComponentManager.GetComponentStorage.
      method_unfold. by rewrite Hstorage. }
  destruct (signatureOf co entity) as [sig|] eqn:Hsig.
  2:{ unfold signatureOf in Hsig.
      unfold Coordinator.addComponent, Coordinator.onComponentManager,
        Coordinator.onEntityManager,
        ComponentManager.addComponent, ComponentManager.GetComponentStorage,
        ComponentStorage.insertData, EntityManager.getSignature.
      method_unfold. rewrite Hstorage. simpl. by rewrite Hsig. }
  rewrite (Coordinator_addComponent_steps T entity component co storage sig) by done.
  cbv zeta. destruct (N.ltb_spec (typeID (Coordinator.componentManager co) T)
                        MAX_COMPONENTS); simpl; intros [= <-]; simpl.
  - right. eauto.
  - by left.
Qed.

Lemma removeComponent_signatures T entity co co' :
  after (Coordinator.removeComponent T entity co) = Some co' →
  EntityManager.signatures (Coordinator.entityManager co')
    = EntityManager.signatures (Coordinator.entityManager co)
  ∨ ∃ sig id,
      id < MAX_COMPONENTS ∧ signatureOf co entity = Some sig
      ∧ EntityManager.signatures (Coordinator.entityManager co')
        = <[N.to_nat entity := N.clearbit sig id]>
            (EntityManager.signatures (Coordinator.entityManager co)).
Proof.
  unfold signatureOf.
  unfold Coordinator.removeComponent, Coordinator.onComponentManager,
    Coordinator.onEntityManager, Coordinator.onSystemManager,
    ComponentManager.removeComponent, ComponentManager.GetComponentStorage,
    ComponentManager.getComponentTypeID, ComponentStorage.removeData,
    EntityManager.getSignature, EntityManager.setSignature,
    SystemManager.entitySignatureChanged, bitset_set.
  method_unfold.
  destruct (ComponentManager.ComponentStorages (Coordinator.componentManager co) !! T)
    as [storage|]; simpl; [|done].
  destruct (EntityManager.signatures (Coordinator.entityManager co) !! N.to_nat entity)
    as [sig|] eqn:Hsig; simpl; [|done].
  destruct (umap_index 0 T _) as [id types]. simpl.
  destruct (N.ltb_spec id MAX_COMPONENTS); simpl.
  - rewrite Hsig. simpl. intros [= <-]. simpl. right. eauto.
  - intros [= <-]. by left.
Qed.
End SignatureWidth.

(** X24.  No call of the coordinator gives a signature a bit outside the
    [MAX_COMPONENTS] positions: when every signature of the array is below
    [2 ^ MAX_COMPONENTS], it still is after [addComponent],
    [removeComponent], [destroyEntity] and [createEntity], whether the call
    returned or threw. *)
Theorem X24_signatures_keep_their_width {Component : Type} (MAX : N)
    (co : Coordinator.t Component) :
  signatures_fit co →
  (∀ T e v co',
     after (Coordinator.addComponent T e v co) = Some co' → signatures_fit co')
  ∧ (∀ T e co',
       after (Coordinator.removeComponent T e co) = Some co' → signatures_fit co')
  ∧ (∀ e co', after (Coordinator.destroyEntity e co) = Some co' → signatures_fit co')
  ∧ (∀ co', after (Coordinator.createEntity MAX co) = Some co' → signatures_fit co').
Proof.
  intros Hfit. unfold signatures_fit in *. split_and!.
  - intros T e v co' Hadd.
    apply addComponent_signatures in Hadd as [->|(sig & id & Hid & Hsig & ->)];
      [done|].
    apply Forall_insert; [done|]. apply setbit_fits; [|done].
    by apply (Forall_lookup_1 _ _ _ _ Hfit Hsig).
  - intros T e co' Hremove.
    apply removeComponent_signatures in Hremove
      as [->|(sig & id & Hid & Hsig & ->)]; [done|].
    apply Forall_insert; [done|]. apply clearbit_fits.
    by apply (Forall_lookup_1 _ _ _ _ Hfit Hsig).
  - intros e co'.
    unfold Coordinator.destroyEntity, Coordinator.onEntityManager,
      Coordinator.onComponentManager, Coordinator.onSystemManager,
      EntityManager.destroyEntity.
    method_unfold.
    destruct (EntityManager.signatures (Coordinator.entityManager co) !! N.to_nat e)
      as [s|]; simpl; [|done].
    destruct (bitset_none s); simpl; [by intros [= <-]|].
    destruct (EntityManager.livingEntityCount (Coordinator.entityManager co) <=? 0);
      simpl; intros [= <-]; simpl; [done|].
    apply Forall_insert; [done|]. unfold bitset_reset.
    apply N.neq_0_lt_0. by apply N.pow_nonzero.
  - intros co'.
    unfold Coordinator.createEntity, Coordinator.onEntityManager,
      EntityManager.createEntity.
    method_unfold.
    destruct (MAX <=? EntityManager.livingEntityCount (Coordinator.entityManager co));
      simpl; [by intros [= <-]|].
    destruct (EntityManager.availableEntities (Coordinator.entityManager co));
      simpl; [done|]. by intros [= <-].
Qed.

(** X24 for a coordinator with one signature, extended by bit 1. *)
Lemma X24_signatures_keep_their_width_witness :
  let co : Coordinator.t N :=
    Coordinator.mk
      (ComponentManager.mk {["Position" := 0; "Velocity" := 1]}
         {["Position" := {[0 := 10]}; "Velocity" := ∅]} 2)
      (EntityManager.mk [1] [1; 0] 1)
      SystemManager.new in
  ∃ co',
    Coordinator.addComponent "Velocity" 0 7 co = Ret tt co'
    ∧ signatures_fit co'.
Proof.
  intros co. eexists. split; [vm_compute; reflexivity|].
  destruct (X24_signatures_keep_their_width 2 co) as (Hadd & _).
  - unfold signatures_fit. simpl. repeat constructor.
  - apply (Hadd "Velocity" 0 7). vm_compute. reflexivity.
Defined.

(** ** ComponentManager: looking a type up before registering it *)

(** X25.  A type whose identifier is looked up before the type is
    registered keeps the default identifier 0 for good: the lookup inserts 0,
    the later [registerComponent<T>()] does not replace it (it only creates
    the store and advances the counter), and every later lookup returns 0,
    the identifier of the first registered type. *)
Theorem X25_lookup_before_registration_fixes_zero {Component : Type}
    (cm : ComponentManager.t Component) (T : type_index)
    (calls : list (ComponentCalls.call Component)) (cm2 : ComponentManager.t Component) :
  ComponentManager.componentTypes cm !! T = None →
  ∃ cm1,
    (ComponentManager.getComponentTypeID T;; ComponentManager.registerComponent T) cm
    = Ret tt cm1
    ∧ ComponentManager.componentTypes cm1 !! T = Some 0
    ∧ ComponentManager.nextComponentType cm1
      = incr8 (ComponentManager.nextComponentType cm)
    ∧ is_Some (ComponentManager.ComponentStorages cm1 !! T)
    ∧ (run_calls ComponentCalls.step calls cm1 = Some cm2 →
       ComponentManager.getComponentTypeID T cm2 = Ret 0 cm2).
Proof.
  intros Hnone. eexists. split_and!.
  - unfold bind. rewrite getComponentTypeID_absent by done.
    unfold ComponentManager.registerComponent. unfold bind, get, put. reflexivity.
  - simpl. by rewrite umap_insert_lookup, lookup_insert_eq.
  - done.
  - simpl. rewrite umap_insert_lookup.
    destruct (ComponentManager.ComponentStorages cm !! T); [eauto|].
    rewrite decide_True by done. eauto.
  - intros Hrun. apply getComponentTypeID_present.
    eapply run_keeps_id; [exact Hrun|].
    simpl. by rewrite umap_insert_lookup, lookup_insert_eq.
Qed.

(** X25 for [Velocity], looked up after [Position] was registered. *)
Lemma X25_lookup_before_registration_fixes_zero_witness :
  let cm : ComponentManager.t N :=
    ComponentManager.mk {["Position" := 0]} {["Position" := ∅]} 1 in
  ∃ cm1 cm2,
    (ComponentManager.getComponentTypeID "Velocity";;
     ComponentManager.registerComponent "Velocity") cm = Ret tt cm1
    ∧ run_calls ComponentCalls.step [ComponentCalls.RegisterComponent "Render"] cm1
      = Some cm2
    ∧ ComponentManager.getComponentTypeID "Velocity" cm2 = Ret 0 cm2
    ∧ ComponentManager.getComponentTypeID "Position" cm2 = Ret 0 cm2
    ∧ ComponentManager.getComponentTypeID "Render" cm2 = Ret 2 cm2.
Proof.
  intros cm. eexists. eexists.
  match goal with
  | |- _ ∧ run_calls _ ?calls _ = Some ?cm2 ∧ _ =>
      destruct (X25_lookup_before_registration_fixes_zero cm "Velocity" calls cm2)
        as (cm1' & Hrun1 & _ & _ & _ & Hzero); [reflexivity|]
  end.
  split; [vm_compute; reflexivity|].
  assert (Hcm1 : cm1' = ComponentManager.mk {["Position" := 0; "Velocity" := 0]}
                          {["Position" := ∅; "Velocity" := ∅]} 2).
  { assert (H : after ((ComponentManager.getComponentTypeID "Velocity";;
                        ComponentManager.registerComponent "Velocity") cm)
                = Some (ComponentManager.mk {["Position" := 0; "Velocity" := 0]}
                          {["Position" := ∅; "Velocity" := ∅]} 2))
      by (vm_compute; reflexivity).
    rewrite Hrun1 in H. by injection H. }
  subst cm1'.
  split; [vm_compute; reflexivity|].
  split; [apply Hzero; vm_compute; reflexivity|].
  split; vm_compute; reflexivity.
Defined.
